(** * SageMaker endpoint metrics: a shallow embedding of [src/sagemaker_metrics.py]

    The module queries CloudWatch for two families of metrics of a SageMaker
    endpoint, pivots each family into a wide table keyed by
    (Timestamp, EndpointName) and merges the two tables with an outer join.

    Modelling choices.
    - A [datetime] is an instant together with its [tzinfo]: naive or time-zone
      aware.  The pydantic models accept both kinds.  The wire format of
      CloudWatch carries instants; the response parser of the client makes the
      datetimes, so all timestamps of the answers to one backend operation are
      of one kind, which the client tells ([statistics_tzinfo],
      [data_tzinfo]).  The two operations may differ in kind, as they can
      when the client is replaced by a test double.
    - A [float] is an IEEE 754 binary64 number, NaN and the infinities
      included, with the arithmetic of the machine.  A missing cell of a table
      is [None]; pandas does not tell a missing cell from a NaN, so a cell is
      never [Some] NaN.
    - The CloudWatch client returned by [boto3.client('cloudwatch')] is two
      functions from a request to either an exception or a response, with
      the kind of datetime each of them returns.  One run of
      [get_endpoint_metrics] issues pairwise distinct requests, so a function
      of the request can answer a run in any way whatsoever.
    - A member of a backend response that is absent or null is [None]; the
      pydantic models reject it, as they reject any missing required field.
    - Python exceptions (the subclasses of [Exception]) are values of
      [Exception]; a computation is a pair of the trace it leaves (log records
      and backend calls, oldest first) and its outcome.
    - The fragment of pandas the module uses lives in [Module pd]. *)

From Stdlib Require Import Floats.PrimFloat.
From Stdlib Require Uint63.
From Stdlib Require Import String Ascii List Bool Arith ZArith Lia.
From Stdlib Require Import Permutation Sorted.
Import ListNotations.
Local Open Scope string_scope.
Local Open Scope list_scope.
Local Open Scope Z_scope.

(** ** Datetimes and floats *)

(** Whether a Python datetime carries a time zone. *)
Inductive tzinfo : Set :=
| Naive    (* [tzinfo] is None: a wall-clock reading *)
| Aware.   (* [tzinfo] is a time zone: a point of universal time *)

(** [instant] counts from the epoch: on the wall clock for a naive
    datetime, in universal time for an aware one. *)
Record datetime : Set := mkdatetime { instant : Z; tz : tzinfo }.

Definition aware (t : Z) : datetime := {| instant := t; tz := Aware |}.
Definition naive (t : Z) : datetime := {| instant := t; tz := Naive |}.

(** An integer written where a datetime is expected is the aware datetime
    of that instant; a datetime used as an integer is its instant. *)
Coercion aware : Z >-> datetime.
#[warning="-ambiguous-paths"]
Coercion instant : datetime >-> Z.

Definition tzinfo_eqb (a b : tzinfo) : bool :=
  match a, b with
  | Naive, Naive | Aware, Aware => true
  | _, _ => false
  end.

(** [a == b]: a naive and an aware datetime are never equal. *)
Definition datetime_eqb (a b : datetime) : bool :=
  (instant a =? instant b) && tzinfo_eqb (tz a) (tz b).

(** A Python float. *)
Definition float : Set := PrimFloat.float.

(** ** Exceptions *)

Inductive Exception : Type :=
| ClientError (code : string)            (* botocore: throttling, bad request, ... *)
| EndpointConnectionError                (* botocore: network failure *)
| ValidationError (model field : string) (* pydantic *)
| IndexError
| KeyError (key : string)
| ValueError (key : string).             (* pandas: merge keys of different dtypes *)

(** ** Sorting (stable insertion sort) and keys *)

Section Sort.
Context {A : Type} (leb : A -> A -> bool).

Fixpoint insert (x : A) (l : list A) : list A :=
  match l with
  | [] => [x]
  | y :: l' => if leb x y then x :: l else y :: insert x l'
  end.

Definition sort (l : list A) : list A := fold_right insert [] l.
End Sort.

Definition Key : Type := datetime * string.

Definition key_eqb (a b : Key) : bool :=
  datetime_eqb (fst a) (fst b) && String.eqb (snd a) (snd b).

(** The order of the keys of a frame: by instant, then by name.  The
    timestamps of one frame are of one kind; between kinds the order is
    fixed here as naive first. *)
Definition datetime_ltb (a b : datetime) : bool :=
  (instant a <? instant b)
  || ((instant a =? instant b)
      && match tz a, tz b with Naive, Aware => true | _, _ => false end).

Definition key_leb (a b : Key) : bool :=
  datetime_ltb (fst a) (fst b)
  || (datetime_eqb (fst a) (fst b) && String.leb (snd a) (snd b)).

Definition tzinfo_eq_dec (a b : tzinfo) : {a = b} + {a <> b}.
Proof. decide equality. Defined.

Definition datetime_eq_dec (a b : datetime) : {a = b} + {a <> b}.
Proof. decide equality; [apply tzinfo_eq_dec | apply Z.eq_dec]. Defined.

Definition key_eq_dec (a b : Key) : {a = b} + {a <> b}.
Proof. decide equality; [apply string_dec | apply datetime_eq_dec]. Defined.

Definition mem (s : string) (l : list string) : bool := existsb (String.eqb s) l.

(** ** The fragment of pandas used by the module *)

Module pd.

(** A row of a frame whose index columns are Timestamp and EndpointName;
    [values] holds the cells of the remaining columns, in column order. *)
Record Row : Type := mkRow {
  Timestamp : datetime;
  EndpointName : string;
  values : list (option float)
}.

Record DataFrame : Type := mkDataFrame {
  columns : list string;
  rows : list Row
}.

(** [pd.DataFrame()] *)
Definition DataFrame_new : DataFrame := {| columns := []; rows := [] |}.

(** [pd.DataFrame(columns=cols)] *)
Definition DataFrame_columns (cols : list string) : DataFrame :=
  {| columns := cols; rows := [] |}.

(** [df.empty]: some axis has length 0. *)
Definition empty (df : DataFrame) : bool :=
  (length (columns df) =? 0)%nat || (length (rows df) =? 0)%nat.

(** [df.shape] *)
Definition shape (df : DataFrame) : nat * nat :=
  (length (rows df), length (columns df)).

(** [df.head()] *)
Definition head (df : DataFrame) : DataFrame :=
  {| columns := columns df; rows := firstn 5 (rows df) |}.

Definition key (r : Row) : Key := (Timestamp r, EndpointName r).

Definition on : list string := ["Timestamp"; "EndpointName"].

(** The columns that are not join keys; [values] of a row follows them. *)
Definition value_columns (df : DataFrame) : list string :=
  filter (fun c => negb (mem c on)) (columns df).

Definition sort_rows (l : list Row) : list Row :=
  sort (fun a b => key_leb (key a) (key b)) l.

(** *** pivot_table *)

(** One step of the compensated summation of the grouped mean: the running
    sum and the rounding error carried over. *)
Definition kahan_step (acc : float * float) (val : float) : float * float :=
  let (sumx, compensation) := acc in
  let y := (val - compensation)%float in
  let t := (sumx + y)%float in
  let compensation' := (t - sumx - y)%float in
  (t, if is_nan compensation' then 0%float else compensation').

Definition sum (l : list float) : float :=
  fst (fold_left kahan_step l (0%float, 0%float)).

(** The number of observations, as a float. *)
Definition count (l : list float) : float :=
  of_uint63 (Uint63.of_Z (Z.of_nat (length l))).

(** The default [aggfunc] of [pivot_table], the grouped mean: the values
    that are NaN are skipped, the others are added up and the sum is divided
    by their number.  A group without an observation, or whose mean is NaN,
    leaves the cell missing. *)
Definition mean (l : list float) : option float :=
  match filter (fun val => negb (is_nan val)) l with
  | [] => None
  | observed =>
    let m := (sum observed / count observed)%float in
    if is_nan m then None else Some m
  end.

Section Pivot.
Context {R : Type}.
Variable index : R -> Key.          (* index=['Timestamp', 'EndpointName'] *)
Variable column : R -> string.      (* columns='MetricName' *)
Variable value : R -> float.        (* values=... *)

(** The values of the records of one (key, column) group, in data order. *)
Definition group (data : list R) (k : Key) (c : string) : list float :=
  map value
    (filter (fun r => key_eqb (index r) k && String.eqb (column r) c) data).

(** The records of the groups that [dropna], on by default, keeps: those
    whose mean is not missing. *)
Definition observed (data : list R) : list R :=
  filter (fun r => match mean (group data (index r) (column r)) with
                   | Some _ => true
                   | None => false
                   end)
         data.

(** The distinct index keys of the groups kept, sorted (groupby sorts its
    keys). *)
Definition index_labels (data : list R) : list Key :=
  sort key_leb (nodup key_eq_dec (map index (observed data))).

(** The distinct column labels of the groups kept, sorted. *)
Definition column_labels (data : list R) : list string :=
  sort String.leb (nodup string_dec (map column (observed data))).

(** [pd.DataFrame(data).pivot_table(index=.., columns=.., values=..)
    .reset_index().rename_axis(None, axis=1)] for a non-empty [data]:
    one row per key and one column per label of the groups whose mean is not
    missing, each cell the mean of its group.  A key or a label all of whose
    groups have a missing mean gets no row and no column; when every mean is
    missing the table has the two key columns and no row. *)
Definition pivot_table (data : list R) : DataFrame :=
  let cols := column_labels data in
  {| columns := "Timestamp" :: "EndpointName" :: cols;
     rows := map (fun k => {| Timestamp := fst k;
                              EndpointName := snd k;
                              values := map (fun c => mean (group data k c)) cols |})
                 (index_labels data) |}.
End Pivot.

(** *** merge *)

(** A value column that both frames carry gets the suffix of its side. *)
Definition suffixed (sfx : string) (other : list string) (c : string) : string :=
  if mem c other then String.append c sfx else c.

Definition merged_columns (left right : DataFrame) : list string :=
  map (fun c => if mem c on then c else suffixed "_x" (value_columns right) c)
      (columns left)
  ++ map (suffixed "_y" (value_columns left)) (value_columns right).

Definition matches (k : Key) (l : list Row) : list Row :=
  filter (fun r => key_eqb (key r) k) l.

Definition nulls (n : nat) : list (option float) := repeat None n.

(** The rows a left row gives: one per right row with its key, or the row
    padded with missing cells when no right row has its key. *)
Definition join_left (nr : nat) (right_rows : list Row) (l : Row) : list Row :=
  match matches (key l) right_rows with
  | [] => [ {| Timestamp := Timestamp l; EndpointName := EndpointName l;
               values := values l ++ nulls nr |} ]
  | ms => map (fun r => {| Timestamp := Timestamp l; EndpointName := EndpointName l;
                           values := values l ++ values r |}) ms
  end.

(** The right rows whose key no left row has, padded on the left side. *)
Definition right_only (nl : nat) (left_rows right_rows : list Row) : list Row :=
  map (fun r => {| Timestamp := Timestamp r; EndpointName := EndpointName r;
                   values := nulls nl ++ values r |})
      (filter (fun r => match matches (key r) left_rows with [] => true | _ => false end)
              right_rows).

(** The dtype of the Timestamp column of a frame: that of its datetimes
    when they are all of one kind, [object] when the column is empty or
    mixes the kinds. *)
Inductive dtype : Set :=
| datetime64 (tz : tzinfo)
| object.

Definition Timestamp_dtype (df : DataFrame) : dtype :=
  match rows df with
  | [] => object
  | r :: rest =>
    if forallb (fun x => tzinfo_eqb (tz (Timestamp x)) (tz (Timestamp r))) rest
    then datetime64 (tz (Timestamp r))
    else object
  end.

Definition dtype_eqb (a b : dtype) : bool :=
  match a, b with
  | datetime64 x, datetime64 y => tzinfo_eqb x y
  | object, object => true
  | _, _ => false
  end.

(** The check of the key columns before a merge: the dtypes of the two
    Timestamp columns must agree, unless one of the frames has no row.  The
    EndpointName columns hold strings on both sides. *)
Definition compatible (left right : DataFrame) : bool :=
  match rows left, rows right with
  | [], _ | _, [] => true
  | _, _ => dtype_eqb (Timestamp_dtype left) (Timestamp_dtype right)
  end.

(** [pd.merge(left, right, on=['Timestamp', 'EndpointName'], how='outer')].
    A frame without a key column raises [KeyError]; Timestamp columns of
    different dtypes, naive against aware, raise [ValueError].  The result
    is sorted by key, as documented for an outer join; no property below
    depends on the order of the rows. *)
Definition merge_outer (left right : DataFrame) : Exception + DataFrame :=
  match filter (fun k => negb (mem k (columns left) && mem k (columns right))) on with
  | k :: _ => inl (KeyError k)
  | [] =>
    if compatible left right then
      let nl := length (value_columns left) in
      let nr := length (value_columns right) in
      inr {| columns := merged_columns left right;
             rows := sort_rows (flat_map (join_left nr (rows right)) (rows left)
                                ++ right_only nl (rows left) (rows right)) |}
    else inl (ValueError "Timestamp")
  end.

End pd.

(** ** The CloudWatch client (boto3) *)

Record Dimension : Type := mkDimension { Name : string; Value : string }.

(** [client.get_metric_statistics] *)
Module GetMetricStatistics.
Record Request : Type := mkRequest {
  Namespace : string;
  MetricName : string;
  Dimensions : list Dimension;
  StartTime : datetime;
  EndTime : datetime;
  Period : Z;
  Statistics : list string
}.

(** One element of [response['Datapoints']]; a member that is absent from
    the dict is [None].  [Timestamp] is the instant of the datetime. *)
Record Datapoint : Type := mkDatapoint {
  Timestamp : option Z;
  Average : option float;
  Unit : option string
}.

Record Response : Type := mkResponse {
  Label : string;
  Datapoints : list Datapoint
}.
End GetMetricStatistics.

(** [client.get_metric_data] *)
Module GetMetricData.
Record Metric : Type := mkMetric {
  Namespace : string;
  MetricName : string;
  Dimensions : list Dimension
}.

Record MetricStat : Type := mkMetricStat {
  Metric_ : Metric;
  Period : Z;
  Stat : string
}.

Record MetricDataQuery : Type := mkMetricDataQuery {
  Id : string;
  MetricStat_ : MetricStat;
  ReturnData : bool
}.

Record Request : Type := mkRequest {
  MetricDataQueries : list MetricDataQuery;
  StartTime : datetime;
  EndTime : datetime
}.

(** One element of [response['MetricDataResults']]: two parallel sequences.
    [Timestamps] holds the instants of the datetimes. *)
Record MetricDataResult : Type := mkMetricDataResult {
  ResultId : string;
  Timestamps : list (option Z);
  Values : list (option float)
}.

Record Response : Type := mkResponse {
  MetricDataResults : list MetricDataResult
}.
End GetMetricData.

(** The two operations the module calls, and the kind of the datetimes
    each of them returns. *)
Record CloudWatch : Type := mkCloudWatch {
  get_metric_statistics :
    GetMetricStatistics.Request -> Exception + GetMetricStatistics.Response;
  get_metric_data :
    GetMetricData.Request -> Exception + GetMetricData.Response;
  statistics_tzinfo : tzinfo;
  data_tzinfo : tzinfo
}.

(** ** Pydantic models *)

Module EndpointMetricParams.
Record t : Type := mk {
  endpoint_name : string;
  variant_name : string;
  start_time : datetime;
  end_time : datetime;
  period : Z
}.

(** The keyword arguments of the constructor; an omitted one is [None]. *)
Record kwargs : Type := mkKwargs {
  kw_endpoint_name : option string;
  kw_variant_name : option string;
  kw_start_time : option datetime;
  kw_end_time : option datetime;
  kw_period : option Z
}.

Definition required {A : Type} (field : string) (v : option A) : Exception + A :=
  match v with
  | Some a => inr a
  | None => inl (ValidationError "EndpointMetricParams" field)
  end.

(** The constructor called with keyword arguments: four required fields, [period] defaults
    to 60; the class declares no validator. *)
Definition new (kw : kwargs) : Exception + t :=
  match required "endpoint_name" (kw_endpoint_name kw) with
  | inl e => inl e
  | inr endpoint_name =>
  match required "variant_name" (kw_variant_name kw) with
  | inl e => inl e
  | inr variant_name =>
  match required "start_time" (kw_start_time kw) with
  | inl e => inl e
  | inr start_time =>
  match required "end_time" (kw_end_time kw) with
  | inl e => inl e
  | inr end_time =>
    inr {| endpoint_name := endpoint_name;
           variant_name := variant_name;
           start_time := start_time;
           end_time := end_time;
           period := match kw_period kw with Some p => p | None => 60 end |}
  end end end end.
End EndpointMetricParams.

Module UtilizationDatapoint.
Record t : Type := mk { Timestamp : Z; Average : float }.

(** The constructor called with the members of [datapoint_raw] as keyword
    arguments; extra members are ignored. *)
Definition new (datapoint_raw : GetMetricStatistics.Datapoint) : Exception + t :=
  match GetMetricStatistics.Timestamp datapoint_raw,
        GetMetricStatistics.Average datapoint_raw with
  | Some ts, Some avg => inr {| Timestamp := ts; Average := avg |}
  | None, _ => inl (ValidationError "UtilizationDatapoint" "Timestamp")
  | Some _, None => inl (ValidationError "UtilizationDatapoint" "Average")
  end.
End UtilizationDatapoint.

Module InvocationDatapoint.
Record t : Type := mk { Timestamp : Z; Value : float }.

(** [InvocationDatapoint(Timestamp=timestamp_raw, Value=value_raw)] *)
Definition new (timestamp_raw : option Z) (value_raw : option float)
  : Exception + t :=
  match timestamp_raw, value_raw with
  | Some ts, Some v => inr {| Timestamp := ts; Value := v |}
  | None, _ => inl (ValidationError "InvocationDatapoint" "Timestamp")
  | Some _, None => inl (ValidationError "InvocationDatapoint" "Value")
  end.
End InvocationDatapoint.

Module UtilizationMetricRecord.
Record t : Type := mk {
  EndpointName : string;
  Timestamp : datetime;
  MetricName : string;
  Average : float
}.
End UtilizationMetricRecord.

Module InvocationMetricRecord.
Record t : Type := mk {
  EndpointName : string;
  Timestamp : datetime;
  MetricName : string;
  Value : float
}.
End InvocationMetricRecord.

(** ** Traces and the computation monad *)

Inductive Level : Type := DEBUG | INFO | WARNING | ERROR.

(** The log messages of the module, by their format arguments. *)
Inductive Message : Type :=
| msg_utilization_query (endpoint_name variant_name metric_name : string)
                        (start_time end_time : datetime)
| msg_utilization_response (response : GetMetricStatistics.Response)
| msg_no_utilization_datapoints (endpoint_name variant_name : string)
| msg_invocation_query (endpoint_name variant_name metric_name : string)
                       (start_time end_time : datetime)
| msg_invocation_response (response : GetMetricData.Response)
| msg_no_invocation_datapoints (endpoint_name variant_name : string)
| msg_retrieve_utilization (params : EndpointMetricParams.t)
| msg_retrieve_invocation (params : EndpointMetricParams.t)
| msg_no_metrics (endpoint_name : string)
| msg_only_invocation (endpoint_name : string)
| msg_only_utilization (endpoint_name : string)
| msg_final_shape (endpoint_name : string) (shape : nat * nat)
| msg_final_head (head : pd.DataFrame)
| msg_final_empty (endpoint_name : string)
| msg_exception (endpoint_name : string) (e : Exception).

Inductive Event : Type :=
| Logged (level : Level) (msg : Message)
| StatisticsCall (request : GetMetricStatistics.Request)
                 (answer : Exception + GetMetricStatistics.Response)
| DataCall (request : GetMetricData.Request)
           (answer : Exception + GetMetricData.Response).

Definition Trace : Type := list Event.

(** A computation: the trace it leaves and either the exception it raises or
    the value it returns. *)
Definition M (A : Type) : Type := Trace * (Exception + A).

Definition ret {A : Type} (a : A) : M A := ([], inr a).

Definition bind {A B : Type} (m : M A) (f : A -> M B) : M B :=
  match m with
  | (t, inl e) => (t, inl e)
  | (t, inr a) => let (t', r) := f a in (t ++ t', r)
  end.

Definition raise {A : Type} (e : Exception) : M A := ([], inl e).

Definition lift {A : Type} (r : Exception + A) : M A := ([], r).

Definition log (level : Level) (msg : Message) : M unit :=
  ([Logged level msg], inr tt).

(** [try: body except Exception as e: handler(e)] *)
Definition try_except {A : Type} (body : M A) (handler : Exception -> M A) : M A :=
  match body with
  | (t, inl e) => let (t', r) := handler e in (t ++ t', r)
  | (t, inr a) => (t, inr a)
  end.

Declare Scope monad_scope.
Delimit Scope monad_scope with monad.
Notation "x <- m ;; k" := (bind m (fun x => k))
  (at level 61, m at next level, right associativity) : monad_scope.
Notation "m ;; k" := (bind m (fun _ => k))
  (at level 61, right associativity) : monad_scope.
Local Open Scope monad_scope.

Arguments bind : simpl never.
Arguments try_except : simpl never.

(** [for x in l: acc = body(acc, x)] *)
Fixpoint for_each {A B : Type} (body : A -> B -> M A) (l : list B) (acc : A) : M A :=
  match l with
  | [] => ret acc
  | x :: l' => acc' <- body acc x ;; for_each body l' acc'
  end.

Definition call_statistics (client : CloudWatch) (request : GetMetricStatistics.Request)
  : M GetMetricStatistics.Response :=
  let answer := get_metric_statistics client request in
  ([StatisticsCall request answer], answer).

Definition call_data (client : CloudWatch) (request : GetMetricData.Request)
  : M GetMetricData.Response :=
  let answer := get_metric_data client request in
  ([DataCall request answer], answer).

(** [l[i]] on a list *)
Definition getitem {A : Type} (l : list A) (i : nat) : M A :=
  match nth_error l i with
  | Some a => ret a
  | None => raise IndexError
  end.

(** ** The collectors *)

Definition dimensions (endpoint_name variant_name : string) : list Dimension :=
  [ {| Name := "EndpointName"; Value := endpoint_name |};
    {| Name := "VariantName"; Value := variant_name |} ].

Definition metrics : list string :=
  ["CPUUtilization"; "MemoryUtilization"; "DiskUtilization";
   "InferenceLatency"; "GPUUtilization"; "GPUMemoryUtilization"].

Definition utilization_request (endpoint_name variant_name : string)
    (start_time end_time : datetime) (period : Z) (metric_name : string)
  : GetMetricStatistics.Request :=
  {| GetMetricStatistics.Namespace := "/aws/sagemaker/Endpoints";
     GetMetricStatistics.MetricName := metric_name;
     GetMetricStatistics.Dimensions := dimensions endpoint_name variant_name;
     GetMetricStatistics.StartTime := start_time;
     GetMetricStatistics.EndTime := end_time;
     GetMetricStatistics.Period := period;
     GetMetricStatistics.Statistics := ["Average"] |}.

Definition _get_endpoint_utilization_metrics (client : CloudWatch)
    (endpoint_name variant_name : string)
    (start_time end_time : datetime) (period : Z) : M pd.DataFrame :=
  data <- for_each (fun data metric_name =>
      log DEBUG (msg_utilization_query endpoint_name variant_name metric_name
                                       start_time end_time) ;;
      response <- call_statistics client
                    (utilization_request endpoint_name variant_name
                                         start_time end_time period metric_name) ;;
      log DEBUG (msg_utilization_response response) ;;
      for_each (fun data datapoint_raw =>
          datapoint <- lift (UtilizationDatapoint.new datapoint_raw) ;;
          ret (data ++ [ {| UtilizationMetricRecord.EndpointName := endpoint_name;
                            UtilizationMetricRecord.Timestamp :=
                              {| instant := UtilizationDatapoint.Timestamp datapoint;
                                 tz := statistics_tzinfo client |};
                            UtilizationMetricRecord.MetricName := metric_name;
                            UtilizationMetricRecord.Average :=
                              UtilizationDatapoint.Average datapoint |} ]))
        (GetMetricStatistics.Datapoints response) data)
    metrics [] ;;
  match data with
  | [] =>
    log WARNING (msg_no_utilization_datapoints endpoint_name variant_name) ;;
    ret (pd.DataFrame_columns ("Timestamp" :: "EndpointName" :: metrics))
  | _ =>
    ret (pd.pivot_table
           (fun r => (UtilizationMetricRecord.Timestamp r,
                      UtilizationMetricRecord.EndpointName r))
           UtilizationMetricRecord.MetricName
           UtilizationMetricRecord.Average
           data)
  end.

Definition metric_names : list string :=
  ["Invocations"; "Invocation4XXErrors"; "Invocation5XXErrors";
   "ModelLatency"; "InvocationsPerInstance"].

(** The statistic the loop body picks for a metric. *)
Definition stat (metric_name : string) : string :=
  if String.eqb metric_name "ModelLatency" then "Average" else "Sum".

Definition invocation_request (endpoint_name variant_name : string)
    (start_time end_time : datetime) (period : Z) (metric_name : string)
  : GetMetricData.Request :=
  {| GetMetricData.MetricDataQueries :=
       [ {| GetMetricData.Id := String.append "metric_" metric_name;
            GetMetricData.MetricStat_ :=
              {| GetMetricData.Metric_ :=
                   {| GetMetricData.Namespace := "AWS/SageMaker";
                      GetMetricData.MetricName := metric_name;
                      GetMetricData.Dimensions :=
                        dimensions endpoint_name variant_name |};
                 GetMetricData.Period := period;
                 GetMetricData.Stat := stat metric_name |};
            GetMetricData.ReturnData := true |} ];
     GetMetricData.StartTime := start_time;
     GetMetricData.EndTime := end_time |}.

Definition _get_endpoint_invocation_metrics (client : CloudWatch)
    (endpoint_name variant_name : string)
    (start_time end_time : datetime) (period : Z) : M pd.DataFrame :=
  data <- for_each (fun data metric_name =>
      log DEBUG (msg_invocation_query endpoint_name variant_name metric_name
                                      start_time end_time) ;;
      response <- call_data client
                    (invocation_request endpoint_name variant_name
                                        start_time end_time period metric_name) ;;
      log DEBUG (msg_invocation_response response) ;;
      result <- getitem (GetMetricData.MetricDataResults response) 0 ;;
      let timestamps := GetMetricData.Timestamps result in
      result <- getitem (GetMetricData.MetricDataResults response) 0 ;;
      let values := GetMetricData.Values result in
      for_each (fun data '(timestamp_raw, value_raw) =>
          datapoint <- lift (InvocationDatapoint.new timestamp_raw value_raw) ;;
          ret (data ++ [ {| InvocationMetricRecord.EndpointName := endpoint_name;
                            InvocationMetricRecord.Timestamp :=
                              {| instant := InvocationDatapoint.Timestamp datapoint;
                                 tz := data_tzinfo client |};
                            InvocationMetricRecord.MetricName := metric_name;
                            InvocationMetricRecord.Value :=
                              InvocationDatapoint.Value datapoint |} ]))
        (combine timestamps values) data)
    metric_names [] ;;
  match data with
  | [] =>
    log WARNING (msg_no_invocation_datapoints endpoint_name variant_name) ;;
    ret (pd.DataFrame_columns ("Timestamp" :: "EndpointName" :: metric_names))
  | _ =>
    ret (pd.pivot_table
           (fun r => (InvocationMetricRecord.Timestamp r,
                      InvocationMetricRecord.EndpointName r))
           InvocationMetricRecord.MetricName
           InvocationMetricRecord.Value
           data)
  end.

(** ** The top-level operation *)

Module Import P := EndpointMetricParams.

(** The body of the [try] block.  The first branch returns at once; the
    others fall through to the closing log records. *)
Definition get_endpoint_metrics_try (client : CloudWatch) (params : P.t)
  : M (option pd.DataFrame) :=
  log INFO (msg_retrieve_utilization params) ;;
  utilization_metrics_df <-
    _get_endpoint_utilization_metrics client (endpoint_name params)
      (variant_name params) (start_time params) (end_time params) (period params) ;;
  log INFO (msg_retrieve_invocation params) ;;
  invocation_metrics_df <-
    _get_endpoint_invocation_metrics client (endpoint_name params)
      (variant_name params) (start_time params) (end_time params) (period params) ;;
  if pd.empty utilization_metrics_df && pd.empty invocation_metrics_df then
    log WARNING (msg_no_metrics (endpoint_name params)) ;;
    ret (Some pd.DataFrame_new)
  else
    endpoint_metrics_df <-
      (if pd.empty utilization_metrics_df then
         log WARNING (msg_only_invocation (endpoint_name params)) ;;
         ret invocation_metrics_df
       else if pd.empty invocation_metrics_df then
         log WARNING (msg_only_utilization (endpoint_name params)) ;;
         ret utilization_metrics_df
       else
         lift (pd.merge_outer utilization_metrics_df invocation_metrics_df)) ;;
    (if negb (pd.empty endpoint_metrics_df) then
       log INFO (msg_final_shape (endpoint_name params) (pd.shape endpoint_metrics_df)) ;;
       log INFO (msg_final_head (pd.head endpoint_metrics_df))
     else
       log INFO (msg_final_empty (endpoint_name params))) ;;
    ret (Some endpoint_metrics_df).

Definition get_endpoint_metrics (client : CloudWatch) (params : P.t)
  : M (option pd.DataFrame) :=
  try_except (get_endpoint_metrics_try client params)
    (fun e =>
       log ERROR (msg_exception (endpoint_name params) e) ;;
       ret None).

(** ** What a run asks and what the backend reports *)

(** The requests of the backend calls of a trace, oldest first. *)
Definition statistics_requests (tr : Trace) : list GetMetricStatistics.Request :=
  flat_map (fun ev => match ev with StatisticsCall request _ => [request] | _ => [] end) tr.

Definition data_requests (tr : Trace) : list GetMetricData.Request :=
  flat_map (fun ev => match ev with DataCall request _ => [request] | _ => [] end) tr.

(** The Metric Records one metric contributes when its query and the
    validation of its datapoints succeed. *)
Definition utilization_records (client : CloudWatch)
    (endpoint_name variant_name : string) (start_time end_time : datetime)
    (period : Z) (metric_name : string) : list UtilizationMetricRecord.t :=
  match get_metric_statistics client
          (utilization_request endpoint_name variant_name start_time end_time
                               period metric_name) with
  | inl _ => []
  | inr response =>
    flat_map (fun datapoint_raw =>
        match UtilizationDatapoint.new datapoint_raw with
        | inl _ => []
        | inr datapoint =>
          [ {| UtilizationMetricRecord.EndpointName := endpoint_name;
               UtilizationMetricRecord.Timestamp :=
                 {| instant := UtilizationDatapoint.Timestamp datapoint;
                    tz := statistics_tzinfo client |};
               UtilizationMetricRecord.MetricName := metric_name;
               UtilizationMetricRecord.Average :=
                 UtilizationDatapoint.Average datapoint |} ]
        end)
      (GetMetricStatistics.Datapoints response)
  end.

Definition invocation_records (client : CloudWatch)
    (endpoint_name variant_name : string) (start_time end_time : datetime)
    (period : Z) (metric_name : string) : list InvocationMetricRecord.t :=
  match get_metric_data client
          (invocation_request endpoint_name variant_name start_time end_time
                              period metric_name) with
  | inl _ => []
  | inr response =>
    match GetMetricData.MetricDataResults response with
    | [] => []
    | result :: _ =>
      flat_map (fun '(timestamp_raw, value_raw) =>
          match InvocationDatapoint.new timestamp_raw value_raw with
          | inl _ => []
          | inr datapoint =>
            [ {| InvocationMetricRecord.EndpointName := endpoint_name;
                 InvocationMetricRecord.Timestamp :=
                   {| instant := InvocationDatapoint.Timestamp datapoint;
                      tz := data_tzinfo client |};
                 InvocationMetricRecord.MetricName := metric_name;
                 InvocationMetricRecord.Value :=
                   InvocationDatapoint.Value datapoint |} ]
          end)
        (combine (GetMetricData.Timestamps result) (GetMetricData.Values result))
    end
  end.

(** The table a collector builds from its Metric Records. *)
Definition utilization_table (data : list UtilizationMetricRecord.t) : pd.DataFrame :=
  match data with
  | [] => pd.DataFrame_columns ("Timestamp" :: "EndpointName" :: metrics)
  | _ => pd.pivot_table
           (fun r => (UtilizationMetricRecord.Timestamp r,
                      UtilizationMetricRecord.EndpointName r))
           UtilizationMetricRecord.MetricName
           UtilizationMetricRecord.Average
           data
  end.

Definition invocation_table (data : list InvocationMetricRecord.t) : pd.DataFrame :=
  match data with
  | [] => pd.DataFrame_columns ("Timestamp" :: "EndpointName" :: metric_names)
  | _ => pd.pivot_table
           (fun r => (InvocationMetricRecord.Timestamp r,
                      InvocationMetricRecord.EndpointName r))
           InvocationMetricRecord.MetricName
           InvocationMetricRecord.Value
           data
  end.

(** The averages the backend reports for one statistics query at one
    instant, in the order of its answer. *)
Definition reported_averages (client : CloudWatch)
    (request : GetMetricStatistics.Request) (ts : Z) : list float :=
  match get_metric_statistics client request with
  | inl _ => []
  | inr response =>
    flat_map (fun dp =>
        match GetMetricStatistics.Timestamp dp, GetMetricStatistics.Average dp with
        | Some t, Some a => if t =? ts then [a] else []
        | _, _ => []
        end)
      (GetMetricStatistics.Datapoints response)
  end.

(** The values the first result of a data answer pairs with one instant. *)
Definition reported_values (client : CloudWatch)
    (request : GetMetricData.Request) (ts : Z) : list float :=
  match get_metric_data client request with
  | inl _ => []
  | inr response =>
    match GetMetricData.MetricDataResults response with
    | [] => []
    | result :: _ =>
      flat_map (fun '(timestamp_raw, value_raw) =>
          match timestamp_raw, value_raw with
          | Some t, Some x => if t =? ts then [x] else []
          | _, _ => []
          end)
        (combine (GetMetricData.Timestamps result) (GetMetricData.Values result))
    end
  end.

(** The events a collector can leave: backend calls, DEBUG records of a
    query or of its answer, and the warning that no datapoint was found. *)
Definition collector_event (ev : Event) : Prop :=
  match ev with
  | StatisticsCall _ _ | DataCall _ _ => True
  | Logged DEBUG (msg_utilization_query _ _ _ _ _)
  | Logged DEBUG (msg_utilization_response _)
  | Logged DEBUG (msg_invocation_query _ _ _ _ _)
  | Logged DEBUG (msg_invocation_response _) => True
  | Logged WARNING (msg_no_utilization_datapoints _ _)
  | Logged WARNING (msg_no_invocation_datapoints _ _) => True
  | Logged _ _ => False
  end.

Definition is_log (ev : Event) : Prop :=
  match ev with Logged _ _ => True | _ => False end.

(** A frame laid out as the collectors lay theirs out: the two key columns,
    then value columns taken from [names]; one cell per value column in every
    row; no two rows with the same key. *)
Definition wide_over (names : list string) (df : pd.DataFrame) : Prop :=
  exists cols,
    pd.columns df = "Timestamp" :: "EndpointName" :: cols
    /\ incl cols names
    /\ Forall (fun r => length (pd.values r) = length cols) (pd.rows df)
    /\ NoDup (map pd.key (pd.rows df)).

(** ** Backends derived from a backend *)

(** The backend that answers as [client] does, its list of data results
    rewritten by [f]. *)
Definition map_data_results
    (f : list GetMetricData.MetricDataResult -> list GetMetricData.MetricDataResult)
    (client : CloudWatch) : CloudWatch :=
  {| get_metric_statistics := get_metric_statistics client;
     get_metric_data := fun request =>
       match get_metric_data client request with
       | inl e => inl e
       | inr response =>
         inr {| GetMetricData.MetricDataResults :=
                  f (GetMetricData.MetricDataResults response) |}
       end;
     statistics_tzinfo := statistics_tzinfo client;
     data_tzinfo := data_tzinfo client |}.

(** Every data answer stripped of the results that follow its first. *)
Definition first_result_only : CloudWatch -> CloudWatch :=
  map_data_results (firstn 1).

(** The two sequences of a result, both cut to the length of the shorter. *)
Definition cut_to_shorter (result : GetMetricData.MetricDataResult)
  : GetMetricData.MetricDataResult :=
  let n := Nat.min (length (GetMetricData.Timestamps result))
                   (length (GetMetricData.Values result)) in
  {| GetMetricData.ResultId := GetMetricData.ResultId result;
     GetMetricData.Timestamps := firstn n (GetMetricData.Timestamps result);
     GetMetricData.Values := firstn n (GetMetricData.Values result) |}.

Definition sequences_cut_to_shorter : CloudWatch -> CloudWatch :=
  map_data_results (map cut_to_shorter).

(** The index-wise pairs of the first result of an answer, if it has one. *)
Definition first_pairs (results : list GetMetricData.MetricDataResult)
  : option (list (option Z * option float)) :=
  match results with
  | [] => None
  | result :: _ =>
    Some (combine (GetMetricData.Timestamps result) (GetMetricData.Values result))
  end.

(** ** Sample backends *)

Module Sample.

Definition datapoint (ts : Z) (average : float) : GetMetricStatistics.Datapoint :=
  {| GetMetricStatistics.Timestamp := Some ts;
     GetMetricStatistics.Average := Some average;
     GetMetricStatistics.Unit := Some "Percent" |}.

(** A backend that answers every query: [datapoints m] for a statistics
    query of metric [m], the two sequences [series m] for each sub-query of
    a data query of metric [m].  Its datetimes are aware, as those of the
    client's own response parser are. *)
Definition backend (datapoints : string -> list GetMetricStatistics.Datapoint)
    (series : string -> list (option Z) * list (option float)) : CloudWatch :=
  {| get_metric_statistics := fun request =>
       inr {| GetMetricStatistics.Label := GetMetricStatistics.MetricName request;
              GetMetricStatistics.Datapoints :=
                datapoints (GetMetricStatistics.MetricName request) |};
     get_metric_data := fun request =>
       inr {| GetMetricData.MetricDataResults :=
                map (fun q =>
                       let m := GetMetricData.MetricName
                                  (GetMetricData.Metric_ (GetMetricData.MetricStat_ q)) in
                       {| GetMetricData.ResultId := GetMetricData.Id q;
                          GetMetricData.Timestamps := fst (series m);
                          GetMetricData.Values := snd (series m) |})
                    (GetMetricData.MetricDataQueries request) |};
     statistics_tzinfo := Aware;
     data_tzinfo := Aware |}.

(** The backend whose statistics answers carry naive datetimes. *)
Definition naive_statistics (client : CloudWatch) : CloudWatch :=
  {| get_metric_statistics := get_metric_statistics client;
     get_metric_data := get_metric_data client;
     statistics_tzinfo := Naive;
     data_tzinfo := data_tzinfo client |}.

Definition only (metric_name : string) {A : Type} (a none : A) (m : string) : A :=
  if String.eqb m metric_name then a else none.

Definition no_datapoints : string -> list GetMetricStatistics.Datapoint := fun _ => [].
Definition no_series : string -> list (option Z) * list (option float) :=
  fun _ => ([], []).

(** Nothing to report in the window. *)
Definition quiet : CloudWatch := backend no_datapoints no_series.

(** One CPU datapoint at 60, one invocation count at 120. *)
Definition cpu_at_60 : string -> list GetMetricStatistics.Datapoint :=
  only "CPUUtilization" [datapoint 60 42%float] [].
Definition invocations_at_120 : string -> list (option Z) * list (option float) :=
  only "Invocations" ([Some 120], [Some 10%float]) ([], []).

Definition both_sides : CloudWatch := backend cpu_at_60 invocations_at_120.
Definition utilization_only : CloudWatch := backend cpu_at_60 no_series.
Definition invocation_only : CloudWatch := backend no_datapoints invocations_at_120.

(** Two CPU datapoints for the same instant. *)
Definition duplicated : CloudWatch :=
  backend (only "CPUUtilization" [datapoint 60 42%float; datapoint 60 30%float] []) no_series.

(** Two invocation counts for the same instant. *)
Definition duplicated_series : CloudWatch :=
  backend no_datapoints
          (only "Invocations" ([Some 60; Some 60], [Some 10%float; Some 30%float]) ([], [])).

(** Two timestamps for a single value. *)
Definition mismatched : CloudWatch :=
  backend no_datapoints
          (only "Invocations" ([Some 120; Some 180], [Some 10%float]) ([], [])).

(** A data query answered without any result. *)
Definition no_results : CloudWatch :=
  {| get_metric_statistics := get_metric_statistics both_sides;
     get_metric_data := fun _ => inr {| GetMetricData.MetricDataResults := [] |};
     statistics_tzinfo := Aware;
     data_tzinfo := Aware |}.

(** A data query answered with a second, unrequested result. *)
Definition two_results : CloudWatch :=
  {| get_metric_statistics := get_metric_statistics quiet;
     get_metric_data := fun request =>
       inr {| GetMetricData.MetricDataResults :=
                [ {| GetMetricData.ResultId := "first";
                     GetMetricData.Timestamps := [Some 120];
                     GetMetricData.Values := [Some 10%float] |};
                  {| GetMetricData.ResultId := "second";
                     GetMetricData.Timestamps := [Some 180];
                     GetMetricData.Values := [Some 99%float] |} ] |};
     statistics_tzinfo := Aware;
     data_tzinfo := Aware |}.

(** The data queries are throttled. *)
Definition throttled : CloudWatch :=
  {| get_metric_statistics := get_metric_statistics both_sides;
     get_metric_data := fun _ => inl (ClientError "Throttling");
     statistics_tzinfo := Aware;
     data_tzinfo := Aware |}.

(** The statistics queries cannot reach the backend. *)
Definition unreachable : CloudWatch :=
  {| get_metric_statistics := fun _ => inl EndpointConnectionError;
     get_metric_data := get_metric_data both_sides;
     statistics_tzinfo := Aware;
     data_tzinfo := Aware |}.

(** A CPU datapoint without its Average, after a complete one. *)
Definition missing_average : CloudWatch :=
  backend (only "CPUUtilization"
                [datapoint 60 42%float;
                 {| GetMetricStatistics.Timestamp := Some 120;
                    GetMetricStatistics.Average := None;
                    GetMetricStatistics.Unit := Some "Percent" |}] [])
          invocations_at_120.

(** A null invocation count, after a number. *)
Definition null_value : CloudWatch :=
  backend cpu_at_60
          (only "Invocations" ([Some 120; Some 180], [Some 10%float; None]) ([], [])).

(** CPU and memory at 60, CPU alone at 120; invocations at 120 and 180. *)
Definition busy : CloudWatch :=
  backend (fun m => if String.eqb m "CPUUtilization"
                    then [datapoint 120 50%float; datapoint 60 42%float]
                    else if String.eqb m "MemoryUtilization"
                    then [datapoint 60 70%float]
                    else [])
          (only "Invocations" ([Some 180; Some 120], [Some 7%float; Some 10%float]) ([], [])).

(** A single CPU datapoint, whose Average is NaN. *)
Definition nan_only : CloudWatch :=
  backend (only "CPUUtilization" [datapoint 60 nan] []) no_series.

(** CPU: a number at 60 and NaN at 120; memory: NaN at 60. *)
Definition partly_nan : CloudWatch :=
  backend (fun m => if String.eqb m "CPUUtilization"
                    then [datapoint 60 42%float; datapoint 120 nan]
                    else if String.eqb m "MemoryUtilization"
                    then [datapoint 60 nan]
                    else [])
          no_series.

(** CPU and memory at 60 and at 120, the memory at 120 being NaN. *)
Definition nan_cell : CloudWatch :=
  backend (fun m => if String.eqb m "CPUUtilization"
                    then [datapoint 60 42%float; datapoint 120 50%float]
                    else if String.eqb m "MemoryUtilization"
                    then [datapoint 60 70%float; datapoint 120 nan]
                    else [])
          no_series.

Definition params : EndpointMetricParams.t :=
  {| EndpointMetricParams.endpoint_name := "ep-1";
     EndpointMetricParams.variant_name := "v1";
     EndpointMetricParams.start_time := 0;
     EndpointMetricParams.end_time := 300;
     EndpointMetricParams.period := 60 |}.

(** The window ends before it starts and the period is negative. *)
Definition backwards : EndpointMetricParams.t :=
  {| EndpointMetricParams.endpoint_name := "ep-1";
     EndpointMetricParams.variant_name := "v1";
     EndpointMetricParams.start_time := 300;
     EndpointMetricParams.end_time := 0;
     EndpointMetricParams.period := -60 |}.

End Sample.

(** * Properties *)

(** ** Sorting, keys and lists *)

Section SortFacts.
Context {A : Type} (leb : A -> A -> bool).

Lemma insert_perm (x : A) (l : list A) : Permutation (x :: l) (insert leb x l).
Proof.
  induction l as [|y l IH]; simpl.
  - apply Permutation_refl.
  - destruct (leb x y).
    + apply Permutation_refl.
    + eapply perm_trans; [apply perm_swap|].
      now apply perm_skip.
Qed.

Lemma sort_perm (l : list A) : Permutation l (sort leb l).
Proof.
  induction l as [|x l IH]; simpl.
  - constructor.
  - eapply perm_trans; [apply perm_skip, IH | apply insert_perm].
Qed.

Lemma sort_In (l : list A) (x : A) : In x (sort leb l) <-> In x l.
Proof.
  split; apply Permutation_in; [apply Permutation_sym|]; apply sort_perm.
Qed.

Lemma sort_length (l : list A) : length (sort leb l) = length l.
Proof. symmetry. apply Permutation_length, sort_perm. Qed.

Lemma sort_NoDup (l : list A) : NoDup l -> NoDup (sort leb l).
Proof. apply Permutation_NoDup, sort_perm. Qed.
End SortFacts.

Lemma firstn_In {A : Type} (n : nat) (l : list A) (x : A) :
  In x (firstn n l) -> In x l.
Proof.
  intros H. rewrite <- (firstn_skipn n l). apply in_or_app. now left.
Qed.

Lemma tzinfo_eqb_eq (a b : tzinfo) : tzinfo_eqb a b = true <-> a = b.
Proof. destruct a, b; simpl; split; congruence. Qed.

Lemma datetime_eqb_eq (a b : datetime) : datetime_eqb a b = true <-> a = b.
Proof.
  destruct a as [i1 z1], b as [i2 z2]; unfold datetime_eqb; simpl.
  rewrite andb_true_iff, Z.eqb_eq, tzinfo_eqb_eq.
  split; [intros [-> ->]; reflexivity | intros H; inversion H; auto].
Qed.

Lemma key_eqb_eq (a b : Key) : key_eqb a b = true <-> a = b.
Proof.
  destruct a as [t1 e1], b as [t2 e2]; unfold key_eqb; simpl.
  rewrite andb_true_iff, datetime_eqb_eq, String.eqb_eq.
  split; [intros [-> ->]; reflexivity | intros H; inversion H; auto].
Qed.

Lemma key_eqb_refl (a : Key) : key_eqb a a = true.
Proof. now apply key_eqb_eq. Qed.

Lemma key_eqb_neq (a b : Key) : key_eqb a b = false <-> a <> b.
Proof.
  rewrite <- key_eqb_eq. destruct (key_eqb a b); split; congruence.
Qed.

Lemma mem_In (s : string) (l : list string) : mem s l = true <-> In s l.
Proof.
  unfold mem. rewrite existsb_exists. split.
  - intros [x [Hin Heq]]. apply String.eqb_eq in Heq. now subst.
  - intros Hin. exists s. split; [assumption | apply String.eqb_refl].
Qed.

Lemma mem_not_In (s : string) (l : list string) : mem s l = false <-> ~ In s l.
Proof.
  rewrite <- mem_In. destruct (mem s l); split; congruence.
Qed.

(** ** The computation monad *)

Lemma snd_bind {A B : Type} (m : M A) (f : A -> M B) :
  snd (bind m f) = match snd m with
                   | inl e => inl e
                   | inr a => snd (f a)
                   end.
Proof.
  unfold bind. destruct m as [t [e|a]]; simpl; [reflexivity|]. now destruct (f a).
Qed.

Lemma fst_bind {A B : Type} (m : M A) (f : A -> M B) :
  fst (bind m f) = fst m ++ match snd m with
                            | inl e => []
                            | inr a => fst (f a)
                            end.
Proof.
  unfold bind. destruct m as [t [e|a]]; simpl; [now rewrite app_nil_r|].
  now destruct (f a).
Qed.

Lemma snd_try_except {A : Type} (body : M A) (handler : Exception -> M A) :
  snd (try_except body handler) = match snd body with
                                  | inl e => snd (handler e)
                                  | inr a => inr a
                                  end.
Proof.
  unfold try_except. destruct body as [t [e|a]]; simpl; [|reflexivity].
  now destruct (handler e).
Qed.

Lemma fst_try_except {A : Type} (body : M A) (handler : Exception -> M A) :
  fst (try_except body handler) = fst body ++ match snd body with
                                              | inl e => fst (handler e)
                                              | inr a => []
                                              end.
Proof.
  unfold try_except. destruct body as [t [e|a]]; simpl; [|now rewrite app_nil_r].
  now destruct (handler e).
Qed.

(** Runs a computation symbolically through its binds. *)
Ltac run :=
  repeat (rewrite ?fst_bind, ?snd_bind, ?fst_try_except, ?snd_try_except;
          cbn [fst snd log ret lift raise app]).

(** A loop whose body extends the accumulator by [g x], when it returns,
    extends it by the concatenation of the [g x]. *)
Lemma for_each_appends {A B : Type} (body : list A -> B -> M (list A))
    (g : B -> list A) (l : list B) :
  (forall acc x acc', snd (body acc x) = inr acc' -> acc' = acc ++ g x) ->
  forall acc res, snd (for_each body l acc) = inr res -> res = acc ++ flat_map g l.
Proof.
  intros Hbody. induction l as [|x l IH]; intros acc res H; simpl in *.
  - inversion H. now rewrite app_nil_r.
  - rewrite snd_bind in H.
    destruct (snd (body acc x)) as [e|acc'] eqn:E; [discriminate|].
    apply Hbody in E. apply IH in H. subst. now rewrite <- app_assoc.
Qed.

(** A loop whose body returns at every element returns. *)
Lemma for_each_total {A B : Type} (body : list A -> B -> M (list A))
    (g : B -> list A) (l : list B) :
  (forall x, In x l -> forall acc, snd (body acc x) = inr (acc ++ g x)) ->
  forall acc, snd (for_each body l acc) = inr (acc ++ flat_map g l).
Proof.
  induction l as [|x l IH]; intros Hbody acc; simpl.
  - now rewrite app_nil_r.
  - rewrite snd_bind, Hbody by now left.
    rewrite IH by (intros; apply Hbody; now right).
    now rewrite <- app_assoc.
Qed.

(** ** The collectors, by their outcome *)

Section Collectors.
Variable client : CloudWatch.
Variables endpoint_name variant_name : string.
Variables start_time end_time : datetime.
Variable period : Z.

Let u_records := utilization_records client endpoint_name variant_name
                                     start_time end_time period.
Let i_records := invocation_records client endpoint_name variant_name
                                    start_time end_time period.

(** When the utilization collector returns, its table is built from the
    records of the six metrics, in query order. *)
Lemma utilization_returns (df : pd.DataFrame) :
  snd (_get_endpoint_utilization_metrics client endpoint_name variant_name
         start_time end_time period) = inr df ->
  df = utilization_table (flat_map u_records metrics).
Proof.
  unfold _get_endpoint_utilization_metrics. rewrite snd_bind.
  match goal with |- context [for_each ?b metrics []] => set (body := b) end.
  destruct (snd (for_each body metrics [])) as [e|data] eqn:E; [discriminate|].
  apply (for_each_appends body u_records) in E.
  - rewrite app_nil_l in E. rewrite <- E. clear E. unfold utilization_table.
    destruct data; rewrite ?snd_bind; simpl; congruence.
  - clear. intros acc m acc'. unfold body, call_statistics.
    rewrite !snd_bind. simpl.
    unfold u_records, utilization_records.
    destruct (get_metric_statistics client _) as [e|response]; [discriminate|].
    rewrite snd_bind. simpl.
    apply for_each_appends.
    intros a dp a'. rewrite snd_bind. unfold lift. simpl.
    destruct (UtilizationDatapoint.new dp); simpl; [discriminate|].
    intros H. inversion H. reflexivity.
Qed.

Lemma invocation_returns (df : pd.DataFrame) :
  snd (_get_endpoint_invocation_metrics client endpoint_name variant_name
         start_time end_time period) = inr df ->
  df = invocation_table (flat_map i_records metric_names).
Proof.
  unfold _get_endpoint_invocation_metrics. rewrite snd_bind.
  match goal with |- context [for_each ?b metric_names []] => set (body := b) end.
  destruct (snd (for_each body metric_names [])) as [e|data] eqn:E; [discriminate|].
  apply (for_each_appends body i_records) in E.
  - rewrite app_nil_l in E. rewrite <- E. clear E. unfold invocation_table.
    destruct data; rewrite ?snd_bind; simpl; congruence.
  - clear. intros acc m acc'. unfold body, call_data.
    rewrite !snd_bind. simpl.
    unfold i_records, invocation_records.
    destruct (get_metric_data client _) as [e|response]; [discriminate|].
    rewrite !snd_bind. simpl. unfold getitem.
    destruct (GetMetricData.MetricDataResults response) as [|result rest]; simpl;
      [discriminate|].
    rewrite snd_bind. simpl.
    apply for_each_appends.
    intros a [ts v] a'. rewrite snd_bind. unfold lift. simpl.
    destruct (InvocationDatapoint.new ts v); simpl; [discriminate|].
    intros H. inversion H. reflexivity.
Qed.
End Collectors.

(** ** The requests of a run *)

Lemma statistics_requests_app (t1 t2 : Trace) :
  statistics_requests (t1 ++ t2) = statistics_requests t1 ++ statistics_requests t2.
Proof. apply flat_map_app. Qed.

Lemma data_requests_app (t1 t2 : Trace) :
  data_requests (t1 ++ t2) = data_requests t1 ++ data_requests t2.
Proof. apply flat_map_app. Qed.

(** A loop whose body leaves no trace leaves none. *)
Lemma for_each_no_trace {A B : Type} (body : A -> B -> M A) (l : list B) :
  (forall acc x, fst (body acc x) = []) ->
  forall acc, fst (for_each body l acc) = [].
Proof.
  intros Hbody. induction l as [|x l IH]; intros acc; simpl; [reflexivity|].
  rewrite fst_bind, Hbody. simpl. destruct (snd (body acc x)); auto.
Qed.

(** What holds of every event of every iteration holds of the loop's. *)
Lemma for_each_trace_Forall {A B : Type} (Q : Event -> Prop)
    (body : A -> B -> M A) (l : list B) :
  (forall acc x, Forall Q (fst (body acc x))) ->
  forall acc, Forall Q (fst (for_each body l acc)).
Proof.
  intros Hbody. induction l as [|x l IH]; intros acc; simpl; [constructor|].
  rewrite fst_bind. apply Forall_app. split; [apply Hbody|].
  destruct (snd (body acc x)); [constructor | apply IH].
Qed.

(** A loop whose body issues exactly one request per element issues the
    requests of a non-empty prefix of its list, all of them when it returns. *)
Lemma for_each_requests {A B X : Type} (pick : Event -> list X)
    (body : A -> B -> M A) (request : B -> X) (l : list B) :
  (forall acc x, flat_map pick (fst (body acc x)) = [request x]) ->
  forall acc,
  exists n, flat_map pick (fst (for_each body l acc)) = firstn n (map request l)
            /\ (l <> [] -> (0 < n)%nat)
            /\ (forall res, snd (for_each body l acc) = inr res -> n = length l).
Proof.
  intros Hbody. induction l as [|x l IH]; intros acc.
  - exists 0%nat. simpl. repeat split; congruence.
  - simpl for_each. rewrite fst_bind, snd_bind, flat_map_app, Hbody.
    destruct (snd (body acc x)) as [e|acc'].
    + exists 1%nat. simpl. repeat split; [lia | discriminate].
    + destruct (IH acc') as [n [Hn [_ Hall]]].
      exists (S n). rewrite Hn. simpl. repeat split; [lia|].
      intros res Hres. now rewrite (Hall res Hres).
Qed.

Section Requests.
Variable client : CloudWatch.
Variables endpoint_name variant_name : string.
Variables start_time end_time : datetime.
Variable period : Z.

Let u_request := utilization_request endpoint_name variant_name
                                     start_time end_time period.
Let i_request := invocation_request endpoint_name variant_name
                                    start_time end_time period.
Let u_run := _get_endpoint_utilization_metrics client endpoint_name variant_name
                                               start_time end_time period.
Let i_run := _get_endpoint_invocation_metrics client endpoint_name variant_name
                                              start_time end_time period.

Lemma utilization_requests :
  exists n, (0 < n)%nat
            /\ statistics_requests (fst u_run) = firstn n (map u_request metrics)
            /\ (forall df, snd u_run = inr df -> n = length metrics).
Proof.
  unfold u_run, _get_endpoint_utilization_metrics.
  rewrite fst_bind, snd_bind, statistics_requests_app.
  match goal with |- context [for_each ?b metrics []] => set (body := b) end.
  destruct (for_each_requests
              (fun ev => match ev with StatisticsCall r _ => [r] | _ => [] end)
              body u_request metrics) with (acc := @nil UtilizationMetricRecord.t)
    as [n [Hn [Hpos Hall]]].
  - intros acc m. unfold body, call_statistics. run.
    destruct (get_metric_statistics client _) as [e|response]; simpl; [reflexivity|].
    run. rewrite for_each_no_trace; [reflexivity|].
    intros a dp. run. now destruct (UtilizationDatapoint.new dp).
  - exists n. split; [apply Hpos; discriminate|].
    unfold statistics_requests at 1. rewrite Hn.
    destruct (snd (for_each body metrics [])) as [e|data] eqn:E.
    + simpl. rewrite app_nil_r. split; [reflexivity | discriminate].
    + split; [|intros; now apply (Hall data)].
      destruct data; rewrite ?fst_bind; simpl; now rewrite app_nil_r.
Qed.

Lemma invocation_requests :
  exists n, (0 < n)%nat
            /\ data_requests (fst i_run) = firstn n (map i_request metric_names)
            /\ (forall df, snd i_run = inr df -> n = length metric_names).
Proof.
  unfold i_run, _get_endpoint_invocation_metrics.
  rewrite fst_bind, snd_bind, data_requests_app.
  match goal with |- context [for_each ?b metric_names []] => set (body := b) end.
  destruct (for_each_requests
              (fun ev => match ev with DataCall r _ => [r] | _ => [] end)
              body i_request metric_names) with (acc := @nil InvocationMetricRecord.t)
    as [n [Hn [Hpos Hall]]].
  - intros acc m. unfold body, call_data. run.
    destruct (get_metric_data client _) as [e|response]; simpl; [reflexivity|].
    run. unfold getitem.
    destruct (GetMetricData.MetricDataResults response) as [|result rest]; simpl;
      [reflexivity|].
    run. rewrite for_each_no_trace; [reflexivity|].
    intros a [ts v]. run. now destruct (InvocationDatapoint.new ts v).
  - exists n. split; [apply Hpos; discriminate|].
    unfold data_requests at 1. rewrite Hn.
    destruct (snd (for_each body metric_names [])) as [e|data] eqn:E.
    + simpl. rewrite app_nil_r. split; [reflexivity | discriminate].
    + split; [|intros; now apply (Hall data)].
      destruct data; rewrite ?fst_bind; simpl; now rewrite app_nil_r.
Qed.

(** Each collector calls one operation of the backend only. *)
Lemma utilization_no_data_call (request : GetMetricData.Request)
    (answer : Exception + GetMetricData.Response) :
  ~ In (DataCall request answer) (fst u_run).
Proof.
  pose (Q := fun ev => match ev with DataCall _ _ => False | _ => True end).
  assert (H : Forall Q (fst u_run)); [|intros Hin; revert H; rewrite Forall_forall;
                                        intros H; exact (H _ Hin)].
  unfold u_run, _get_endpoint_utilization_metrics.
  rewrite fst_bind. apply Forall_app. split.
  - apply for_each_trace_Forall. intros acc m. unfold call_statistics. run.
    destruct (get_metric_statistics client _) as [e|response]; simpl.
    + repeat constructor.
    + run. rewrite for_each_no_trace; [repeat constructor|].
      intros a dp. run. now destruct (UtilizationDatapoint.new dp).
  - match goal with |- context [snd ?x] => destruct (snd x) as [e|[|r data]] end;
      simpl; repeat constructor.
Qed.

Lemma invocation_no_statistics_call (request : GetMetricStatistics.Request)
    (answer : Exception + GetMetricStatistics.Response) :
  ~ In (StatisticsCall request answer) (fst i_run).
Proof.
  pose (Q := fun ev => match ev with StatisticsCall _ _ => False | _ => True end).
  assert (H : Forall Q (fst i_run)); [|intros Hin; revert H; rewrite Forall_forall;
                                        intros H; exact (H _ Hin)].
  unfold i_run, _get_endpoint_invocation_metrics.
  rewrite fst_bind. apply Forall_app. split.
  - apply for_each_trace_Forall. intros acc m. unfold call_data. run.
    destruct (get_metric_data client _) as [e|response]; simpl.
    + repeat constructor.
    + run. unfold getitem.
      destruct (GetMetricData.MetricDataResults response) as [|result rest]; simpl.
      * repeat constructor.
      * run. rewrite for_each_no_trace; [repeat constructor|].
        intros a [ts v]. run. now destruct (InvocationDatapoint.new ts v).
  - match goal with |- context [snd ?x] => destruct (snd x) as [e|[|r data]] end;
      simpl; repeat constructor.
Qed.
End Requests.

(** ** The top-level operation, by the outcomes of the collectors *)

(** Closes a goal that asks for the log records ending a trace. *)
Ltac logs_only :=
  run; repeat (rewrite <- app_assoc || rewrite <- app_comm_cons); cbn [app];
  rewrite ?app_nil_r;
  eexists; split; [|reflexivity]; repeat constructor.

Section TopLevel.
Variable client : CloudWatch.
Variable params : P.t.

Let u_run := _get_endpoint_utilization_metrics client (endpoint_name params)
               (variant_name params) (start_time params) (end_time params)
               (period params).
Let i_run := _get_endpoint_invocation_metrics client (endpoint_name params)
               (variant_name params) (start_time params) (end_time params)
               (period params).

Lemma get_endpoint_metrics_outcome :
  snd (get_endpoint_metrics client params) =
  inr match snd u_run with
      | inl _ => None
      | inr u =>
        match snd i_run with
        | inl _ => None
        | inr i =>
          if pd.empty u && pd.empty i then Some pd.DataFrame_new
          else if pd.empty u then Some i
          else if pd.empty i then Some u
          else match pd.merge_outer u i with
               | inl _ => None
               | inr m => Some m
               end
        end
      end.
Proof.
  unfold get_endpoint_metrics, get_endpoint_metrics_try. fold u_run i_run. run.
  destruct (snd u_run) as [e|u]; [reflexivity|]. run.
  destruct (snd i_run) as [e|i]; [reflexivity|].
  destruct (pd.empty u) eqn:Eu; simpl.
  - destruct (pd.empty i) eqn:Ei; simpl; run; [reflexivity|].
    rewrite Ei. simpl. run. reflexivity.
  - run. destruct (pd.empty i) eqn:Ei; run.
    + rewrite Eu. simpl. run. reflexivity.
    + destruct (pd.merge_outer u i) as [e|m]; [reflexivity|].
      destruct (pd.empty m); simpl; run; reflexivity.
Qed.

(** The trace: an opening record, the utilization collector's trace, then,
    if that collector returned, a record and the invocation collector's
    trace; log records only after that. *)
Lemma get_endpoint_metrics_trace :
  exists tail,
    Forall is_log tail
    /\ fst (get_endpoint_metrics client params) =
       Logged INFO (msg_retrieve_utilization params)
       :: fst u_run
       ++ match snd u_run with
          | inl _ => tail
          | inr _ => Logged INFO (msg_retrieve_invocation params) :: fst i_run ++ tail
          end.
Proof.
  unfold get_endpoint_metrics, get_endpoint_metrics_try. fold u_run i_run. run.
  destruct (snd u_run) as [e|u]; [logs_only|].
  run. destruct (snd i_run) as [e|i]; [logs_only|].
  destruct (pd.empty u) eqn:Eu; simpl.
  - destruct (pd.empty i) eqn:Ei; simpl; run; [logs_only|].
    rewrite Ei. simpl. logs_only.
  - run. destruct (pd.empty i) eqn:Ei; run.
    + rewrite Eu. simpl. logs_only.
    + destruct (pd.merge_outer u i) as [e|m]; run; [logs_only|].
      destruct (pd.empty m); simpl; logs_only.
Qed.
End TopLevel.

Lemma logs_no_requests (tail : Trace) :
  Forall is_log tail -> statistics_requests tail = [] /\ data_requests tail = [].
Proof.
  induction 1 as [|ev tail Hev _ [IH1 IH2]]; [split; reflexivity|].
  destruct ev; try contradiction. simpl. auto.
Qed.

Lemma no_statistics_call_requests (tr : Trace) :
  (forall r a, ~ In (StatisticsCall r a) tr) -> statistics_requests tr = [].
Proof.
  induction tr as [|ev tr IH]; intros H; [reflexivity|].
  simpl. rewrite IH by (intros r a Hin; apply (H r a); now right).
  destruct ev; try reflexivity. exfalso. apply (H request answer). now left.
Qed.

Lemma no_data_call_requests (tr : Trace) :
  (forall r a, ~ In (DataCall r a) tr) -> data_requests tr = [].
Proof.
  induction tr as [|ev tr IH]; intros H; [reflexivity|].
  simpl. rewrite IH by (intros r a Hin; apply (H r a); now right).
  destruct ev; try reflexivity. exfalso. apply (H request answer). now left.
Qed.

(** The backend calls of a run are those of its collectors. *)
Lemma get_endpoint_metrics_requests (client : CloudWatch) (params : P.t) :
  let u_run := _get_endpoint_utilization_metrics client (endpoint_name params)
                 (variant_name params) (start_time params) (end_time params)
                 (period params) in
  let i_run := _get_endpoint_invocation_metrics client (endpoint_name params)
                 (variant_name params) (start_time params) (end_time params)
                 (period params) in
  statistics_requests (fst (get_endpoint_metrics client params)) =
    statistics_requests (fst u_run)
  /\ data_requests (fst (get_endpoint_metrics client params)) =
     match snd u_run with
     | inl _ => []
     | inr _ => data_requests (fst i_run)
     end.
Proof.
  intros u_run i_run.
  destruct (get_endpoint_metrics_trace client params) as [tail [Hlogs ->]].
  fold u_run i_run.
  destruct (logs_no_requests tail Hlogs) as [Hs Hd].
  change (?x :: ?l ++ ?r) with ([x] ++ l ++ r).
  rewrite !statistics_requests_app, !data_requests_app.
  rewrite (no_data_call_requests (fst u_run))
    by apply utilization_no_data_call.
  destruct (snd u_run) as [e|u].
  - rewrite Hs, Hd. simpl. now rewrite app_nil_r.
  - change (?x :: ?l ++ ?r) with ([x] ++ l ++ r).
    rewrite !statistics_requests_app, !data_requests_app, Hs, Hd.
    rewrite (no_statistics_call_requests (fst i_run))
      by apply invocation_no_statistics_call.
    simpl. now rewrite !app_nil_r.
Qed.

(** ** When the collectors return *)

Lemma flat_map_nil {A B : Type} (g : A -> list B) (l : list A) :
  (forall x, In x l -> g x = []) -> flat_map g l = [].
Proof.
  induction l as [|x l IH]; intros H; simpl; [reflexivity|].
  rewrite H by now left. apply IH. intros; apply H; now right.
Qed.

Section CollectorsReturn.
Variable client : CloudWatch.
Variables endpoint_name variant_name : string.
Variables start_time end_time : datetime.
Variable period : Z.

Let u_records := utilization_records client endpoint_name variant_name
                                     start_time end_time period.
Let i_records := invocation_records client endpoint_name variant_name
                                    start_time end_time period.
Let u_run := _get_endpoint_utilization_metrics client endpoint_name variant_name
                                               start_time end_time period.
Let i_run := _get_endpoint_invocation_metrics client endpoint_name variant_name
                                              start_time end_time period.

(** The utilization collector returns when each of its six queries is
    answered and every datapoint of the answers passes validation; the
    warning is logged when there is no record at all. *)
Lemma utilization_total :
  (forall m, In m metrics ->
     exists response,
       get_metric_statistics client
         (utilization_request endpoint_name variant_name start_time end_time
                              period m) = inr response
       /\ Forall (fun dp => exists d, UtilizationDatapoint.new dp = inr d)
                 (GetMetricStatistics.Datapoints response)) ->
  snd u_run = inr (utilization_table (flat_map u_records metrics))
  /\ (flat_map u_records metrics = [] ->
      In (Logged WARNING (msg_no_utilization_datapoints endpoint_name variant_name))
         (fst u_run)).
Proof.
  intros Hok. unfold u_run, _get_endpoint_utilization_metrics.
  rewrite snd_bind, fst_bind.
  match goal with |- context [for_each ?b metrics []] => set (body := b) end.
  assert (E : snd (for_each body metrics []) = inr ([] ++ flat_map u_records metrics)).
  { apply for_each_total. intros m Hm acc.
    destruct (Hok m Hm) as [response [Hr Hvalid]].
    unfold body, call_statistics, u_records, utilization_records. run.
    rewrite Hr. run.
    apply for_each_total. intros dp Hdp a. run.
    rewrite Forall_forall in Hvalid. destruct (Hvalid dp Hdp) as [d ->].
    reflexivity. }
  rewrite app_nil_l in E. rewrite E. unfold utilization_table.
  destruct (flat_map u_records metrics) as [|r data]; run.
  - split; [reflexivity|]. intros _. apply in_or_app. right. now left.
  - split; [reflexivity | discriminate].
Qed.

Lemma invocation_total :
  (forall m, In m metric_names ->
     exists response result rest,
       get_metric_data client
         (invocation_request endpoint_name variant_name start_time end_time
                             period m) = inr response
       /\ GetMetricData.MetricDataResults response = result :: rest
       /\ Forall (fun '(ts, v) => exists d, InvocationDatapoint.new ts v = inr d)
                 (combine (GetMetricData.Timestamps result)
                          (GetMetricData.Values result))) ->
  snd i_run = inr (invocation_table (flat_map i_records metric_names))
  /\ (flat_map i_records metric_names = [] ->
      In (Logged WARNING (msg_no_invocation_datapoints endpoint_name variant_name))
         (fst i_run)).
Proof.
  intros Hok. unfold i_run, _get_endpoint_invocation_metrics.
  rewrite snd_bind, fst_bind.
  match goal with |- context [for_each ?b metric_names []] => set (body := b) end.
  assert (E : snd (for_each body metric_names [])
              = inr ([] ++ flat_map i_records metric_names)).
  { apply for_each_total. intros m Hm acc.
    destruct (Hok m Hm) as [response [result [rest [Hr [Hres Hvalid]]]]].
    unfold body, call_data, i_records, invocation_records. run.
    rewrite Hr. run. rewrite Hres. unfold getitem. simpl. run.
    apply for_each_total. intros [ts v] Hdp a. run.
    rewrite Forall_forall in Hvalid. destruct (Hvalid _ Hdp) as [d ->].
    reflexivity. }
  rewrite app_nil_l in E. rewrite E. unfold invocation_table.
  destruct (flat_map i_records metric_names) as [|r data]; run.
  - split; [reflexivity|]. intros _. apply in_or_app. right. now left.
  - split; [reflexivity | discriminate].
Qed.
End CollectorsReturn.

(** ** Emptiness and the merge *)

Lemma empty_false (df : pd.DataFrame) :
  pd.empty df = false <-> pd.columns df <> [] /\ pd.rows df <> [].
Proof.
  unfold pd.empty. rewrite orb_false_iff, !Nat.eqb_neq.
  destruct (pd.columns df), (pd.rows df); simpl; intuition congruence.
Qed.

Lemma join_left_not_nil (nr : nat) (right_rows : list pd.Row) (l : pd.Row) :
  pd.join_left nr right_rows l <> [].
Proof.
  unfold pd.join_left. destruct (pd.matches (pd.key l) right_rows); discriminate.
Qed.

Lemma sort_rows_not_nil (l : list pd.Row) : l <> [] -> pd.sort_rows l <> [].
Proof.
  intros H E. apply H. apply length_zero_iff_nil.
  unfold pd.sort_rows in E.
  rewrite <- (sort_length (fun a b => key_leb (pd.key a) (pd.key b)) l), E.
  reflexivity.
Qed.

(** The outer join of a non-empty left frame is not empty. *)
Lemma merge_outer_not_empty (u i m : pd.DataFrame) :
  pd.merge_outer u i = inr m -> pd.empty u = false -> pd.empty m = false.
Proof.
  unfold pd.merge_outer.
  destruct (filter _ pd.on); [|discriminate].
  destruct (pd.compatible u i); [|discriminate].
  intros H. inversion H. clear H. rewrite !empty_false. simpl.
  intros [Hc Hr]. split.
  - unfold pd.merged_columns. destruct (pd.columns u); [congruence|discriminate].
  - apply sort_rows_not_nil. destruct (pd.rows u) as [|l rest]; [congruence|].
    simpl. pose proof (join_left_not_nil (length (pd.value_columns i)) (pd.rows i) l).
    destruct (pd.join_left _ _ l); [congruence|discriminate].
Qed.

(** ** The invocation collector reads the first pairs only *)

Lemma for_each_ext_snd {A B : Type} (body1 body2 : A -> B -> M A) (l : list B) :
  (forall acc x, snd (body1 acc x) = snd (body2 acc x)) ->
  forall acc, snd (for_each body1 l acc) = snd (for_each body2 l acc).
Proof.
  intros Hbody. induction l as [|x l IH]; intros acc; simpl; [reflexivity|].
  rewrite !snd_bind, Hbody. destruct (snd (body2 acc x)); auto.
Qed.

(** Rewriting the data answers without touching the index-wise pairs of
    their first result changes no outcome. *)
Lemma invocation_outcome_by_first_pairs
    (f : list GetMetricData.MetricDataResult -> list GetMetricData.MetricDataResult)
    (client : CloudWatch) (endpoint_name variant_name : string)
    (start_time end_time : datetime) (period : Z) :
  (forall results, first_pairs (f results) = first_pairs results) ->
  snd (_get_endpoint_invocation_metrics (map_data_results f client)
         endpoint_name variant_name start_time end_time period)
  = snd (_get_endpoint_invocation_metrics client
           endpoint_name variant_name start_time end_time period).
Proof.
  intros Hf. unfold _get_endpoint_invocation_metrics. rewrite !snd_bind.
  match goal with
  | |- match snd (for_each ?b1 _ _) with _ => _ end
       = match snd (for_each ?b2 _ _) with _ => _ end =>
    rewrite (for_each_ext_snd b1 b2); [reflexivity|]
  end.
  intros acc m. unfold call_data, map_data_results. cbn [get_metric_data]. run.
  destruct (get_metric_data client _) as [e|response]; [reflexivity|].
  run. unfold getitem. cbn [GetMetricData.MetricDataResults].
  specialize (Hf (GetMetricData.MetricDataResults response)).
  destruct (GetMetricData.MetricDataResults response) as [|r rest],
           (f _) as [|r' rest']; simpl in *; try discriminate; [reflexivity|].
  inversion Hf as [Hpairs]. run. now rewrite Hpairs.
Qed.

Lemma get_endpoint_metrics_by_first_pairs
    (f : list GetMetricData.MetricDataResult -> list GetMetricData.MetricDataResult)
    (client : CloudWatch) (params : P.t) :
  (forall results, first_pairs (f results) = first_pairs results) ->
  snd (get_endpoint_metrics (map_data_results f client) params)
  = snd (get_endpoint_metrics client params).
Proof.
  intros Hf. rewrite !get_endpoint_metrics_outcome.
  now rewrite (invocation_outcome_by_first_pairs f client _ _ _ _ _ Hf).
Qed.

Lemma first_pairs_firstn (results : list GetMetricData.MetricDataResult) :
  first_pairs (firstn 1 results) = first_pairs results.
Proof. now destruct results. Qed.

Lemma first_pairs_cut (results : list GetMetricData.MetricDataResult) :
  first_pairs (map cut_to_shorter results) = first_pairs results.
Proof.
  destruct results as [|r rest]; [reflexivity|]. simpl. f_equal.
  rewrite <- combine_firstn, <- length_combine. apply firstn_all.
Qed.

(** ** A data answer without any result *)

Lemma for_each_raises {A B : Type} (ev : Event) (exn : Exception)
    (body : A -> B -> M A) (l : list B) :
  (forall acc x, In ev (fst (body acc x)) -> snd (body acc x) = inl exn) ->
  forall acc, In ev (fst (for_each body l acc)) -> snd (for_each body l acc) = inl exn.
Proof.
  intros Hbody. induction l as [|x l IH]; intros acc; simpl; [tauto|].
  rewrite fst_bind, snd_bind, in_app_iff. intros [H|H].
  - now rewrite (Hbody acc x H).
  - destruct (snd (body acc x)); [contradiction | auto].
Qed.

Lemma invocation_without_result (client : CloudWatch)
    (endpoint_name variant_name : string) (start_time end_time : datetime)
    (period : Z) (request : GetMetricData.Request) :
  let run := _get_endpoint_invocation_metrics client endpoint_name variant_name
               start_time end_time period in
  In (DataCall request (inr {| GetMetricData.MetricDataResults := [] |})) (fst run) ->
  snd run = inl IndexError.
Proof.
  unfold _get_endpoint_invocation_metrics. cbv zeta.
  rewrite fst_bind, snd_bind, in_app_iff.
  match goal with |- context [for_each ?b metric_names []] => set (body := b) end.
  intros [H|H].
  - rewrite (for_each_raises _ IndexError body metric_names) with (2 := H);
      [reflexivity|].
    clear H. intros acc m. unfold body, call_data. run.
    destruct (get_metric_data client _) as [e|response] eqn:E.
    + simpl. intros [H|[H|[]]]; discriminate.
    + run. unfold getitem.
      destruct (GetMetricData.MetricDataResults response) as [|r rest] eqn:Er; simpl.
      * reflexivity.
      * run. rewrite for_each_no_trace.
        -- simpl. intros [H|[H|[H|[]]]]; try discriminate.
           inversion H as [[Hreq Hresp]]. rewrite Hresp in Er. discriminate.
        -- intros a [ts v]. run. now destruct (InvocationDatapoint.new ts v).
  - exfalso. revert H. destruct (snd (for_each body metric_names [])) as [e|[|r data]];
      simpl; intuition discriminate.
Qed.

(** ** The pivot *)

Section PivotFacts.
Context {R : Type}.
Variable index : R -> Key.
Variable column : R -> string.
Variable value : R -> float.

Lemma observed_In (data : list R) (r : R) :
  In r (pd.observed index column value data)
  <-> In r data /\ pd.mean (pd.group index column value data (index r) (column r)) <> None.
Proof.
  unfold pd.observed. rewrite filter_In.
  destruct (pd.mean _); split; intros [H1 H2]; split; congruence.
Qed.

Lemma index_labels_In (data : list R) (k : Key) :
  In k (pd.index_labels index column value data)
  <-> In k (map index (pd.observed index column value data)).
Proof. unfold pd.index_labels. now rewrite sort_In, nodup_In. Qed.

Lemma index_labels_data (data : list R) (k : Key) :
  In k (pd.index_labels index column value data) -> In k (map index data).
Proof.
  rewrite index_labels_In, !in_map_iff. intros [r [E Hr]].
  exists r. split; [exact E|]. now apply observed_In in Hr.
Qed.

Lemma index_labels_NoDup (data : list R) :
  NoDup (pd.index_labels index column value data).
Proof. apply sort_NoDup, NoDup_nodup. Qed.

Lemma column_labels_In (data : list R) (c : string) :
  In c (pd.column_labels index column value data)
  <-> In c (map column (pd.observed index column value data)).
Proof. unfold pd.column_labels. now rewrite sort_In, nodup_In. Qed.

Lemma column_labels_data (data : list R) (c : string) :
  In c (pd.column_labels index column value data) -> In c (map column data).
Proof.
  rewrite column_labels_In, !in_map_iff. intros [r [E Hr]].
  exists r. split; [exact E|]. now apply observed_In in Hr.
Qed.

(** The keys of the rows of a pivot are its index labels: no key twice. *)
Lemma pivot_keys (data : list R) :
  map pd.key (pd.rows (pd.pivot_table index column value data))
  = pd.index_labels index column value data.
Proof.
  unfold pd.pivot_table. simpl. rewrite map_map. unfold pd.key. simpl.
  rewrite <- (map_id (pd.index_labels index column value data)) at 2.
  apply map_ext. now intros [ts e].
Qed.

Lemma pivot_row (data : list R) (r : pd.Row) :
  In r (pd.rows (pd.pivot_table index column value data)) ->
  In (pd.key r) (map index data)
  /\ pd.values r = map (fun c => pd.mean (pd.group index column value data (pd.key r) c))
                       (pd.column_labels index column value data).
Proof.
  unfold pd.pivot_table. simpl. rewrite in_map_iff. intros [[ts e] [<- Hk]].
  apply index_labels_data in Hk. unfold pd.key. simpl. auto.
Qed.

(** A pivot has a row exactly when some group has a mean. *)
Lemma pivot_rows_nil (data : list R) :
  pd.rows (pd.pivot_table index column value data) = []
  <-> pd.observed index column value data = [].
Proof.
  split; intros E.
  - destruct (pd.observed index column value data) as [|r rest] eqn:Eo;
      [reflexivity|].
    assert (H : In (index r) (pd.index_labels index column value data)).
    { apply index_labels_In. rewrite Eo. now left. }
    rewrite <- pivot_keys, E in H. contradiction.
  - apply (map_eq_nil pd.key). rewrite pivot_keys.
    unfold pd.index_labels. rewrite E. reflexivity.
Qed.

Lemma group_app (d1 d2 : list R) (k : Key) (c : string) :
  pd.group index column value (d1 ++ d2) k c
  = pd.group index column value d1 k c ++ pd.group index column value d2 k c.
Proof. unfold pd.group. now rewrite filter_app, map_app. Qed.

Lemma group_other (data : list R) (k : Key) (c : string) :
  (forall r, In r data -> column r <> c) ->
  pd.group index column value data k c = [].
Proof.
  unfold pd.group. induction data as [|r data IH]; intros H; [reflexivity|].
  simpl. assert (E : String.eqb (column r) c = false)
    by (apply String.eqb_neq, H; now left).
  rewrite E, andb_false_r. apply IH. intros; apply H; now right.
Qed.

(** The group of a column among the records of several columns, each
    contributed by one element of a duplicate-free list. *)
Lemma group_flat_map (records : string -> list R) (l : list string)
    (k : Key) (c : string) :
  (forall m r, In r (records m) -> column r = m) ->
  NoDup l -> In c l ->
  pd.group index column value (flat_map records l) k c
  = pd.group index column value (records c) k c.
Proof.
  intros Hcol. induction l as [|m l IH]; intros Hnd Hin; [contradiction|].
  inversion Hnd as [|? ? Hm Hl]. subst. simpl. rewrite group_app.
  destruct Hin as [->|Hin].
  - rewrite (group_other (flat_map records l)); [apply app_nil_r|].
    intros r Hr. apply in_flat_map in Hr. destruct Hr as [m [Hm' Hr]].
    rewrite (Hcol m r Hr). congruence.
  - rewrite (group_other (records m)); [now apply IH|].
    intros r Hr. rewrite (Hcol m r Hr). congruence.
Qed.
End PivotFacts.

Lemma value_columns_wide (names : list string) (df : pd.DataFrame) (cols : list string) :
  pd.columns df = "Timestamp" :: "EndpointName" :: cols ->
  incl cols names ->
  (forall c, In c names -> ~ In c pd.on) ->
  pd.value_columns df = cols.
Proof.
  intros Hc Hincl Hnames. unfold pd.value_columns. rewrite Hc. cbn [filter].
  change (mem "Timestamp" pd.on) with true.
  change (mem "EndpointName" pd.on) with true. cbn [negb].
  clear Hc. induction cols as [|c cols IH]; [reflexivity|]. cbn [filter].
  assert (E : mem c pd.on = false).
  { apply mem_not_In, Hnames, Hincl. now left. }
  rewrite E. cbn [negb]. f_equal. apply IH. intros x Hx. apply Hincl. now right.
Qed.

Lemma metrics_not_keys (c : string) : In c metrics -> ~ In c pd.on.
Proof.
  intros H K. simpl in H, K.
  repeat (destruct H as [<-|H]; [intuition discriminate|]). contradiction.
Qed.

Lemma metric_names_not_keys (c : string) : In c metric_names -> ~ In c pd.on.
Proof.
  intros H K. simpl in H, K.
  repeat (destruct H as [<-|H]; [intuition discriminate|]). contradiction.
Qed.

Lemma metrics_NoDup : NoDup metrics.
Proof.
  unfold metrics. repeat constructor; simpl; intuition discriminate.
Qed.

Lemma metric_names_NoDup : NoDup metric_names.
Proof.
  unfold metric_names. repeat constructor; simpl; intuition discriminate.
Qed.

(** ** The tables of the collectors *)

Section CollectorTables.
Variable client : CloudWatch.
Variables endpoint_name variant_name : string.
Variables start_time end_time : datetime.
Variable period : Z.

Let u_records := utilization_records client endpoint_name variant_name
                                     start_time end_time period.
Let i_records := invocation_records client endpoint_name variant_name
                                    start_time end_time period.
Let u_request := utilization_request endpoint_name variant_name
                                     start_time end_time period.
Let i_request := invocation_request endpoint_name variant_name
                                    start_time end_time period.
Let u_run := _get_endpoint_utilization_metrics client endpoint_name variant_name
                                               start_time end_time period.
Let i_run := _get_endpoint_invocation_metrics client endpoint_name variant_name
                                              start_time end_time period.
Let u_index := fun r => (UtilizationMetricRecord.Timestamp r,
                         UtilizationMetricRecord.EndpointName r).
Let i_index := fun r => (InvocationMetricRecord.Timestamp r,
                         InvocationMetricRecord.EndpointName r).

Lemma utilization_records_tz (m : string) (r : UtilizationMetricRecord.t) :
  In r (u_records m) ->
  tz (UtilizationMetricRecord.Timestamp r) = statistics_tzinfo client.
Proof.
  unfold u_records, utilization_records.
  destruct (get_metric_statistics client _) as [e|response]; [contradiction|].
  rewrite in_flat_map. intros [dp [_ H]].
  destruct (UtilizationDatapoint.new dp); [contradiction|].
  destruct H as [<-|[]]. reflexivity.
Qed.

Lemma invocation_records_tz (m : string) (r : InvocationMetricRecord.t) :
  In r (i_records m) ->
  tz (InvocationMetricRecord.Timestamp r) = data_tzinfo client.
Proof.
  unfold i_records, invocation_records.
  destruct (get_metric_data client _) as [e|response]; [contradiction|].
  destruct (GetMetricData.MetricDataResults response) as [|result rest];
    [contradiction|].
  rewrite in_flat_map. intros [[ts x] [_ H]].
  destruct (InvocationDatapoint.new ts x); [contradiction|].
  destruct H as [<-|[]]. reflexivity.
Qed.

Lemma utilization_records_fields (m : string) (r : UtilizationMetricRecord.t) :
  In r (u_records m) ->
  UtilizationMetricRecord.MetricName r = m
  /\ UtilizationMetricRecord.EndpointName r = endpoint_name.
Proof.
  unfold u_records, utilization_records.
  destruct (get_metric_statistics client _) as [e|response]; [contradiction|].
  rewrite in_flat_map. intros [dp [_ H]].
  destruct (UtilizationDatapoint.new dp); [contradiction|].
  destruct H as [<-|[]]. auto.
Qed.

Lemma invocation_records_fields (m : string) (r : InvocationMetricRecord.t) :
  In r (i_records m) ->
  InvocationMetricRecord.MetricName r = m
  /\ InvocationMetricRecord.EndpointName r = endpoint_name.
Proof.
  unfold i_records, invocation_records.
  destruct (get_metric_data client _) as [e|response]; [contradiction|].
  destruct (GetMetricData.MetricDataResults response) as [|result rest];
    [contradiction|].
  rewrite in_flat_map. intros [[ts x] [_ H]].
  destruct (InvocationDatapoint.new ts x); [contradiction|].
  destruct H as [<-|[]]. auto.
Qed.

(** The group of a metric at an instant holds what the backend reported
    for that metric at that instant. *)
Lemma utilization_group (ts : Z) (c : string) :
  pd.group u_index UtilizationMetricRecord.MetricName
           UtilizationMetricRecord.Average (u_records c)
           ({| instant := ts; tz := statistics_tzinfo client |}, endpoint_name) c
  = reported_averages client (u_request c) ts.
Proof.
  unfold u_records, utilization_records, reported_averages. fold (u_request c).
  destruct (get_metric_statistics client (u_request c)) as [e|response];
    [reflexivity|].
  induction (GetMetricStatistics.Datapoints response) as [|dp dps IH];
    [reflexivity|].
  cbn [flat_map]. rewrite group_app, IH. f_equal.
  unfold UtilizationDatapoint.new.
  destruct (GetMetricStatistics.Timestamp dp) as [t|],
           (GetMetricStatistics.Average dp) as [a|]; try reflexivity.
  unfold pd.group, u_index, key_eqb, datetime_eqb. simpl.
  rewrite !String.eqb_refl, !andb_true_r.
  rewrite (proj2 (tzinfo_eqb_eq _ _) eq_refl), andb_true_r. now destruct (t =? ts).
Qed.

Lemma invocation_group (ts : Z) (c : string) :
  pd.group i_index InvocationMetricRecord.MetricName
           InvocationMetricRecord.Value (i_records c)
           ({| instant := ts; tz := data_tzinfo client |}, endpoint_name) c
  = reported_values client (i_request c) ts.
Proof.
  unfold i_records, invocation_records, reported_values. fold (i_request c).
  destruct (get_metric_data client (i_request c)) as [e|response]; [reflexivity|].
  destruct (GetMetricData.MetricDataResults response) as [|result rest];
    [reflexivity|].
  induction (combine (GetMetricData.Timestamps result) (GetMetricData.Values result))
    as [|[t x] pairs IH]; [reflexivity|].
  cbn [flat_map]. rewrite group_app, IH. f_equal.
  unfold InvocationDatapoint.new.
  destruct t as [t|], x as [x|]; try reflexivity.
  unfold pd.group, i_index, key_eqb, datetime_eqb. simpl.
  rewrite !String.eqb_refl, !andb_true_r.
  rewrite (proj2 (tzinfo_eqb_eq _ _) eq_refl), andb_true_r. now destruct (t =? ts).
Qed.

Lemma utilization_table_wide :
  wide_over metrics (utilization_table (flat_map u_records metrics)).
Proof.
  unfold utilization_table.
  destruct (flat_map u_records metrics) as [|r0 data] eqn:E.
  - exists metrics. repeat split; [apply incl_refl | constructor | constructor].
  - rewrite <- E. fold u_index. eexists. split; [reflexivity|]. split; [|split].
    + intros c Hc. apply column_labels_data, in_map_iff in Hc.
      destruct Hc as [r [<- Hr]]. apply in_flat_map in Hr.
      destruct Hr as [m [Hm Hr]].
      now rewrite (proj1 (utilization_records_fields m r Hr)).
    + rewrite Forall_forall. intros r Hr. apply pivot_row in Hr.
      rewrite (proj2 Hr). apply length_map.
    + rewrite pivot_keys. apply index_labels_NoDup.
Qed.

Lemma invocation_table_wide :
  wide_over metric_names (invocation_table (flat_map i_records metric_names)).
Proof.
  unfold invocation_table.
  destruct (flat_map i_records metric_names) as [|r0 data] eqn:E.
  - exists metric_names. repeat split; [apply incl_refl | constructor | constructor].
  - rewrite <- E. fold i_index. eexists. split; [reflexivity|]. split; [|split].
    + intros c Hc. apply column_labels_data, in_map_iff in Hc.
      destruct Hc as [r [<- Hr]]. apply in_flat_map in Hr.
      destruct Hr as [m [Hm Hr]].
      now rewrite (proj1 (invocation_records_fields m r Hr)).
    + rewrite Forall_forall. intros r Hr. apply pivot_row in Hr.
      rewrite (proj2 Hr). apply length_map.
    + rewrite pivot_keys. apply index_labels_NoDup.
Qed.

Lemma utilization_wide (df : pd.DataFrame) :
  snd u_run = inr df -> wide_over metrics df.
Proof.
  intros H. apply utilization_returns in H. subst. apply utilization_table_wide.
Qed.

Lemma invocation_wide (df : pd.DataFrame) :
  snd i_run = inr df -> wide_over metric_names df.
Proof.
  intros H. apply invocation_returns in H. subst. apply invocation_table_wide.
Qed.

(** Every cell of a returned table is the mean of what the backend
    reported for its column at the instant of its row. *)
Lemma utilization_cells (df : pd.DataFrame) (r : pd.Row) :
  snd u_run = inr df -> In r (pd.rows df) ->
  pd.EndpointName r = endpoint_name
  /\ pd.values r
     = map (fun c => pd.mean (reported_averages client (u_request c) (pd.Timestamp r)))
           (pd.value_columns df).
Proof.
  intros Hrun Hr. pose proof (utilization_wide df Hrun) as [cols [Hc [Hincl _]]].
  rewrite (value_columns_wide metrics df cols Hc Hincl metrics_not_keys).
  apply utilization_returns in Hrun. fold u_records in Hrun.
  unfold utilization_table in Hrun.
  destruct (flat_map u_records metrics) as [|r0 data] eqn:E;
    [subst; contradiction|].
  rewrite <- E in Hrun. fold u_index in Hrun. subst df.
  simpl in Hc. inversion Hc as [Hcols]. clear Hc.
  apply pivot_row in Hr. destruct Hr as [Hkey Hvalues].
  assert (He : pd.EndpointName r = endpoint_name
               /\ tz (pd.Timestamp r) = statistics_tzinfo client).
  { apply in_map_iff in Hkey. destruct Hkey as [x [Hx Hin]].
    apply in_flat_map in Hin. destruct Hin as [m [_ Hin]].
    pose proof (utilization_records_tz m x Hin) as Hz.
    apply utilization_records_fields in Hin. destruct Hin as [_ Hin].
    unfold u_index, pd.key in Hx. inversion Hx. split; congruence. }
  destruct He as [He Hz].
  split; [exact He|]. rewrite Hvalues. apply map_ext_in. intros c Hc. f_equal.
  rewrite group_flat_map.
  - unfold pd.key. rewrite He, <- utilization_group, <- Hz.
    now destruct (pd.Timestamp r).
  - intros m x Hx. now apply utilization_records_fields in Hx.
  - apply metrics_NoDup.
  - apply Hincl. rewrite <- Hcols. exact Hc.
Qed.

Lemma invocation_cells (df : pd.DataFrame) (r : pd.Row) :
  snd i_run = inr df -> In r (pd.rows df) ->
  pd.EndpointName r = endpoint_name
  /\ pd.values r
     = map (fun c => pd.mean (reported_values client (i_request c) (pd.Timestamp r)))
           (pd.value_columns df).
Proof.
  intros Hrun Hr. pose proof (invocation_wide df Hrun) as [cols [Hc [Hincl _]]].
  rewrite (value_columns_wide metric_names df cols Hc Hincl metric_names_not_keys).
  apply invocation_returns in Hrun. fold i_records in Hrun.
  unfold invocation_table in Hrun.
  destruct (flat_map i_records metric_names) as [|r0 data] eqn:E;
    [subst; contradiction|].
  rewrite <- E in Hrun. fold i_index in Hrun. subst df.
  simpl in Hc. inversion Hc as [Hcols]. clear Hc.
  apply pivot_row in Hr. destruct Hr as [Hkey Hvalues].
  assert (He : pd.EndpointName r = endpoint_name
               /\ tz (pd.Timestamp r) = data_tzinfo client).
  { apply in_map_iff in Hkey. destruct Hkey as [x [Hx Hin]].
    apply in_flat_map in Hin. destruct Hin as [m [_ Hin]].
    pose proof (invocation_records_tz m x Hin) as Hz.
    apply invocation_records_fields in Hin. destruct Hin as [_ Hin].
    unfold i_index, pd.key in Hx. inversion Hx. split; congruence. }
  destruct He as [He Hz].
  split; [exact He|]. rewrite Hvalues. apply map_ext_in. intros c Hc. f_equal.
  rewrite group_flat_map.
  - unfold pd.key. rewrite He, <- invocation_group, <- Hz.
    now destruct (pd.Timestamp r).
  - intros m x Hx. now apply invocation_records_fields in Hx.
  - apply metric_names_NoDup.
  - apply Hincl. rewrite <- Hcols. exact Hc.
Qed.

(** The datetimes of a returned table are of the kind of its operation. *)
Lemma utilization_rows_tz (df : pd.DataFrame) (r : pd.Row) :
  snd u_run = inr df -> In r (pd.rows df) ->
  tz (pd.Timestamp r) = statistics_tzinfo client.
Proof.
  intros Hrun Hr. apply utilization_returns in Hrun. fold u_records in Hrun.
  unfold utilization_table in Hrun.
  destruct (flat_map u_records metrics) as [|r0 data] eqn:E;
    [subst; contradiction|].
  rewrite <- E in Hrun. fold u_index in Hrun. subst df.
  apply pivot_row in Hr. destruct Hr as [Hkey _].
  apply in_map_iff in Hkey. destruct Hkey as [x [Hx Hin]].
  apply in_flat_map in Hin. destruct Hin as [m [_ Hin]].
  pose proof (utilization_records_tz m x Hin) as Hz.
  unfold u_index, pd.key in Hx. inversion Hx. congruence.
Qed.

Lemma invocation_rows_tz (df : pd.DataFrame) (r : pd.Row) :
  snd i_run = inr df -> In r (pd.rows df) ->
  tz (pd.Timestamp r) = data_tzinfo client.
Proof.
  intros Hrun Hr. apply invocation_returns in Hrun. fold i_records in Hrun.
  unfold invocation_table in Hrun.
  destruct (flat_map i_records metric_names) as [|r0 data] eqn:E;
    [subst; contradiction|].
  rewrite <- E in Hrun. fold i_index in Hrun. subst df.
  apply pivot_row in Hr. destruct Hr as [Hkey _].
  apply in_map_iff in Hkey. destruct Hkey as [x [Hx Hin]].
  apply in_flat_map in Hin. destruct Hin as [m [_ Hin]].
  pose proof (invocation_records_tz m x Hin) as Hz.
  unfold i_index, pd.key in Hx. inversion Hx. congruence.
Qed.

(** A collector logs its queries, their answers and the absence of any
    datapoint; nothing else. *)
Lemma utilization_events : Forall collector_event (fst u_run).
Proof.
  unfold u_run, _get_endpoint_utilization_metrics.
  rewrite fst_bind. apply Forall_app. split.
  - apply for_each_trace_Forall. intros acc m. unfold call_statistics. run.
    destruct (get_metric_statistics client _) as [e|response]; simpl.
    + repeat constructor.
    + run. rewrite for_each_no_trace; [repeat constructor|].
      intros a dp. run. now destruct (UtilizationDatapoint.new dp).
  - match goal with |- context [snd ?x] => destruct (snd x) as [e|[|r data]] end;
      simpl; repeat constructor.
Qed.

Lemma invocation_events : Forall collector_event (fst i_run).
Proof.
  unfold i_run, _get_endpoint_invocation_metrics.
  rewrite fst_bind. apply Forall_app. split.
  - apply for_each_trace_Forall. intros acc m. unfold call_data. run.
    destruct (get_metric_data client _) as [e|response]; simpl.
    + repeat constructor.
    + run. unfold getitem.
      destruct (GetMetricData.MetricDataResults response) as [|result rest]; simpl.
      * repeat constructor.
      * run. rewrite for_each_no_trace; [repeat constructor|].
        intros a [ts v]. run. now destruct (InvocationDatapoint.new ts v).
  - match goal with |- context [snd ?x] => destruct (snd x) as [e|[|r data]] end;
      simpl; repeat constructor.
Qed.
End CollectorTables.

(** ** The rows of an outer join *)

Lemma matches_In (k : Key) (l : list pd.Row) (x : pd.Row) :
  In x (pd.matches k l) <-> In x l /\ pd.key x = k.
Proof. unfold pd.matches. now rewrite filter_In, key_eqb_eq. Qed.

Lemma matches_nil (k : Key) (l : list pd.Row) :
  pd.matches k l = [] <-> ~ In k (map pd.key l).
Proof.
  split.
  - intros E Hin. apply in_map_iff in Hin. destruct Hin as [x [Hk Hx]].
    assert (H : In x (pd.matches k l)) by now apply matches_In.
    rewrite E in H. contradiction.
  - intros Hnot. destruct (pd.matches k l) as [|x rest] eqn:E; [reflexivity|].
    exfalso. apply Hnot.
    assert (H : In x (pd.matches k l)) by (rewrite E; now left).
    apply matches_In in H. destruct H as [Hx <-]. now apply in_map.
Qed.

Section Join.
Variables (nl nr : nat) (left_rows right_rows : list pd.Row).

Let joined := flat_map (pd.join_left nr right_rows) left_rows.
Let added := pd.right_only nl left_rows right_rows.

(** A joined row comes from a left row, padded when no right row has its
    key and extended by a right row of the same key otherwise. *)
Lemma joined_In (r : pd.Row) :
  In r joined <->
  exists l, In l left_rows /\ pd.key r = pd.key l
            /\ ((~ In (pd.key l) (map pd.key right_rows)
                 /\ pd.values r = pd.values l ++ pd.nulls nr)
                \/ exists x, In x right_rows /\ pd.key x = pd.key l
                             /\ pd.values r = pd.values l ++ pd.values x).
Proof.
  unfold joined. rewrite in_flat_map. split.
  - intros [l [Hl Hr]]. exists l. split; [assumption|].
    unfold pd.join_left in Hr.
    destruct (pd.matches (pd.key l) right_rows) as [|x0 rest] eqn:E.
    + destruct Hr as [<-|[]]. split; [reflexivity|]. left.
      split; [now apply matches_nil | reflexivity].
    + apply in_map_iff in Hr. destruct Hr as [x [<- Hx]].
      split; [reflexivity|]. right. exists x.
      rewrite <- E in Hx. apply matches_In in Hx. now destruct Hx.
  - intros [l [Hl [Hk Hcase]]]. exists l. split; [assumption|].
    unfold pd.join_left. destruct r as [ts e vs]. unfold pd.key in Hk.
    simpl in Hk. inversion Hk. subst. simpl in Hcase.
    destruct Hcase as [[Hnone ->]|[x [Hx [Hkx ->]]]].
    + apply matches_nil in Hnone. rewrite Hnone. now left.
    + assert (Hm : In x (pd.matches (pd.key l) right_rows))
        by now apply matches_In.
      destruct (pd.matches (pd.key l) right_rows) as [|x0 rest];
        [contradiction|].
      apply in_map_iff. exists x. auto.
Qed.

(** An added row is a right row whose key no left row has, padded. *)
Lemma added_In (r : pd.Row) :
  In r added <->
  exists x, In x right_rows /\ pd.key r = pd.key x
            /\ ~ In (pd.key x) (map pd.key left_rows)
            /\ pd.values r = pd.nulls nl ++ pd.values x.
Proof.
  unfold added, pd.right_only. rewrite in_map_iff. split.
  - intros [x [<- Hx]]. apply filter_In in Hx. destruct Hx as [Hx Hnone].
    exists x. repeat split; [assumption|].
    apply matches_nil. now destruct (pd.matches (pd.key x) left_rows).
  - intros [x [Hx [Hk [Hnone Hv]]]]. exists x. split.
    + destruct r as [ts e vs]. unfold pd.key in Hk. simpl in *.
      inversion Hk. now subst.
    + apply filter_In. split; [assumption|].
      apply matches_nil in Hnone. now rewrite Hnone.
Qed.

Lemma joined_keys (k : Key) :
  In k (map pd.key joined) <-> In k (map pd.key left_rows).
Proof.
  rewrite !in_map_iff. split.
  - intros [r [<- Hr]]. apply joined_In in Hr. destruct Hr as [l [Hl [Hk _]]].
    exists l. auto.
  - intros [l [<- Hl]].
    pose proof (join_left_not_nil nr right_rows l) as Hne.
    destruct (pd.join_left nr right_rows l) as [|r rest] eqn:E; [congruence|].
    assert (Hr : In r joined).
    { unfold joined. apply in_flat_map. exists l. split; [assumption|].
      rewrite E. now left. }
    exists r. split; [|assumption].
    apply joined_In in Hr. destruct Hr as [l' [_ [Hk _]]].
    unfold pd.join_left in E.
    destruct (pd.matches (pd.key l) right_rows); inversion E; reflexivity.
Qed.

Lemma joined_length_disjoint :
  (forall l, In l left_rows -> ~ In (pd.key l) (map pd.key right_rows)) ->
  length joined = length left_rows.
Proof.
  unfold joined. clear joined added.
  induction left_rows as [|l rest IH]; intros H; [reflexivity|].
  simpl. rewrite length_app, IH by (intros; apply H; now right).
  unfold pd.join_left.
  rewrite (proj2 (matches_nil (pd.key l) right_rows)) by (apply H; now left).
  reflexivity.
Qed.

Lemma added_length_disjoint :
  (forall x, In x right_rows -> ~ In (pd.key x) (map pd.key left_rows)) ->
  length added = length right_rows.
Proof.
  unfold added, pd.right_only. clear joined added. rewrite length_map.
  induction right_rows as [|x rest IH]; intros H; [reflexivity|].
  simpl. rewrite (proj2 (matches_nil (pd.key x) left_rows)) by (apply H; now left).
  simpl. f_equal. apply IH. intros; apply H; now right.
Qed.
End Join.

(** The join of two frames that have the key columns. *)
Lemma merge_outer_rows (u i : pd.DataFrame) (cu ci : list string) :
  pd.columns u = "Timestamp" :: "EndpointName" :: cu ->
  pd.columns i = "Timestamp" :: "EndpointName" :: ci ->
  pd.merge_outer u i
  = if pd.compatible u i then
      inr {| pd.columns := pd.merged_columns u i;
             pd.rows := pd.sort_rows
                          (flat_map (pd.join_left (length (pd.value_columns i)) (pd.rows i))
                                    (pd.rows u)
                           ++ pd.right_only (length (pd.value_columns u))
                                            (pd.rows u) (pd.rows i)) |}
    else inl (ValueError "Timestamp").
Proof.
  intros Hu Hi. unfold pd.merge_outer. rewrite Hu, Hi.
  change (filter _ pd.on) with (@nil string). reflexivity.
Qed.

(** The join that succeeds. *)
Lemma merge_outer_returns (u i m : pd.DataFrame) (cu ci : list string) :
  pd.columns u = "Timestamp" :: "EndpointName" :: cu ->
  pd.columns i = "Timestamp" :: "EndpointName" :: ci ->
  pd.merge_outer u i = inr m ->
  pd.compatible u i = true
  /\ m = {| pd.columns := pd.merged_columns u i;
            pd.rows := pd.sort_rows
                         (flat_map (pd.join_left (length (pd.value_columns i)) (pd.rows i))
                                   (pd.rows u)
                          ++ pd.right_only (length (pd.value_columns u))
                                           (pd.rows u) (pd.rows i)) |}.
Proof.
  intros Hu Hi. rewrite (merge_outer_rows u i cu ci Hu Hi).
  destruct (pd.compatible u i); [|discriminate].
  intros H. inversion H. auto.
Qed.

(** The dtype of a Timestamp column whose datetimes are all of one kind. *)
Lemma Timestamp_dtype_uniform (df : pd.DataFrame) (z : tzinfo) :
  pd.rows df <> [] ->
  (forall r, In r (pd.rows df) -> tz (pd.Timestamp r) = z) ->
  pd.Timestamp_dtype df = pd.datetime64 z.
Proof.
  unfold pd.Timestamp_dtype. destruct (pd.rows df) as [|r rest]; [congruence|].
  intros _ H. rewrite (H r) by now left.
  replace (forallb _ rest) with true; [reflexivity|].
  symmetry. apply forallb_forall. intros x Hx. apply tzinfo_eqb_eq.
  apply H. now right.
Qed.

(** Two frames with rows, each of one kind of datetime, can be merged
    exactly when the kinds agree. *)
Lemma compatible_uniform (u i : pd.DataFrame) (zu zi : tzinfo) :
  pd.rows u <> [] -> pd.rows i <> [] ->
  (forall r, In r (pd.rows u) -> tz (pd.Timestamp r) = zu) ->
  (forall r, In r (pd.rows i) -> tz (pd.Timestamp r) = zi) ->
  pd.compatible u i = tzinfo_eqb zu zi.
Proof.
  intros Hu Hi Hzu Hzi. unfold pd.compatible.
  rewrite (Timestamp_dtype_uniform u zu Hu Hzu), (Timestamp_dtype_uniform i zi Hi Hzi).
  destruct (pd.rows u); [congruence|]. destruct (pd.rows i); [congruence|].
  reflexivity.
Qed.

(** Value columns that the two frames do not share keep their names. *)
Lemma merged_columns_disjoint (u i : pd.DataFrame) (cu ci : list string) :
  pd.columns u = "Timestamp" :: "EndpointName" :: cu ->
  pd.value_columns u = cu ->
  pd.value_columns i = ci ->
  (forall c, In c cu -> ~ In c ci) ->
  pd.merged_columns u i = pd.columns u ++ ci.
Proof.
  intros Hu Hvu Hvi Hdisj. unfold pd.merged_columns. rewrite Hvu, Hvi, Hu.
  f_equal.
  - cbn [map]. change (mem "Timestamp" pd.on) with true.
    change (mem "EndpointName" pd.on) with true. cbv iota. do 2 f_equal.
    rewrite <- (map_id cu) at 2. apply map_ext_in. intros c Hc.
    unfold pd.suffixed.
    rewrite (proj2 (mem_not_In c ci)) by now apply Hdisj.
    now destruct (mem c pd.on).
  - rewrite <- (map_id ci) at 2. apply map_ext_in. intros c Hc.
    unfold pd.suffixed.
    rewrite (proj2 (mem_not_In c cu)); [reflexivity|].
    intros Hcu. now apply (Hdisj c Hcu).
Qed.

Lemma metrics_disjoint (c : string) : In c metrics -> ~ In c metric_names.
Proof.
  intros H K. simpl in H, K.
  repeat (destruct H as [<-|H]; [intuition discriminate|]). contradiction.
Qed.

(** ** The merge of the collectors' tables *)

(** Two non-empty tables of the collectors are merged exactly when the two
    operations of the backend return datetimes of the same kind. *)
Lemma collectors_merge (client : CloudWatch) (endpoint_name variant_name : string)
    (start_time end_time : datetime) (period : Z) (u i : pd.DataFrame) :
  snd (_get_endpoint_utilization_metrics client endpoint_name variant_name
         start_time end_time period) = inr u ->
  snd (_get_endpoint_invocation_metrics client endpoint_name variant_name
         start_time end_time period) = inr i ->
  pd.empty u = false ->
  pd.empty i = false ->
  pd.merge_outer u i
  = if tzinfo_eqb (statistics_tzinfo client) (data_tzinfo client) then
      inr {| pd.columns := pd.merged_columns u i;
             pd.rows := pd.sort_rows
                          (flat_map (pd.join_left (length (pd.value_columns i)) (pd.rows i))
                                    (pd.rows u)
                           ++ pd.right_only (length (pd.value_columns u))
                                            (pd.rows u) (pd.rows i)) |}
    else inl (ValueError "Timestamp").
Proof.
  intros Hu Hi Eu Ei.
  destruct (utilization_wide _ _ _ _ _ _ u Hu) as [cu [Hcu _]].
  destruct (invocation_wide _ _ _ _ _ _ i Hi) as [ci [Hci _]].
  rewrite (merge_outer_rows u i cu ci Hcu Hci).
  rewrite (compatible_uniform u i (statistics_tzinfo client) (data_tzinfo client));
    [reflexivity | | | |].
  - exact (proj2 (proj1 (empty_false u) Eu)).
  - exact (proj2 (proj1 (empty_false i) Ei)).
  - intros r Hr. exact (utilization_rows_tz _ _ _ _ _ _ u r Hu Hr).
  - intros r Hr. exact (invocation_rows_tz _ _ _ _ _ _ i r Hi Hr).
Qed.

Lemma tzinfo_eqb_neq (a b : tzinfo) : tzinfo_eqb a b = false <-> a <> b.
Proof. destruct a, b; simpl; split; congruence. Qed.

(** ** Backend calls and their requests *)

Lemma data_call_request (tr : Trace) (request : GetMetricData.Request)
    (answer : Exception + GetMetricData.Response) :
  In (DataCall request answer) tr -> In request (data_requests tr).
Proof.
  intros H. unfold data_requests. apply in_flat_map.
  exists (DataCall request answer). split; [assumption | now left].
Qed.

Lemma data_request_call (tr : Trace) (request : GetMetricData.Request) :
  In request (data_requests tr) -> exists answer, In (DataCall request answer) tr.
Proof.
  unfold data_requests. rewrite in_flat_map. intros [ev [Hev Hr]].
  destruct ev; try contradiction. destruct Hr as [<-|[]]. eauto.
Qed.

Lemma statistics_call_request (tr : Trace) (request : GetMetricStatistics.Request)
    (answer : Exception + GetMetricStatistics.Response) :
  In (StatisticsCall request answer) tr -> In request (statistics_requests tr).
Proof.
  intros H. unfold statistics_requests. apply in_flat_map.
  exists (StatisticsCall request answer). split; [assumption | now left].
Qed.

Lemma statistics_request_call (tr : Trace) (request : GetMetricStatistics.Request) :
  In request (statistics_requests tr) ->
  exists answer, In (StatisticsCall request answer) tr.
Proof.
  unfold statistics_requests. rewrite in_flat_map. intros [ev [Hev Hr]].
  destruct ev; try contradiction. destruct Hr as [<-|[]]. eauto.
Qed.

(** * The claims *)

(** ** C4: a failing collector *)

(** C4.  [get_endpoint_metrics] never raises: it always returns a value.  When
    either collector raises an exception (whatever it is), the value is
    [None]; in particular the table the utilization collector has already
    returned is discarded when the invocation collector raises. *)
Theorem collector_failure_returns_none (client : CloudWatch) (params : P.t) :
  (exists result, snd (get_endpoint_metrics client params) = inr result)
  /\ forall e : Exception,
       snd (_get_endpoint_utilization_metrics client (endpoint_name params)
              (variant_name params) (start_time params) (end_time params)
              (period params)) = inl e
       \/ snd (_get_endpoint_invocation_metrics client (endpoint_name params)
                 (variant_name params) (start_time params) (end_time params)
                 (period params)) = inl e ->
       snd (get_endpoint_metrics client params) = inr None.
Proof.
  rewrite get_endpoint_metrics_outcome. split; [eexists; reflexivity|].
  intros e [H|H]; rewrite H; [reflexivity|].
  now destruct (snd (_get_endpoint_utilization_metrics _ _ _ _ _ _)).
Qed.

Lemma collector_failure_returns_none_witness :
  (exists u, snd (_get_endpoint_utilization_metrics Sample.throttled "ep-1" "v1" 0 300 60)
             = inr u /\ pd.empty u = false)
  /\ snd (_get_endpoint_invocation_metrics Sample.throttled "ep-1" "v1" 0 300 60)
     = inl (ClientError "Throttling")
  /\ snd (get_endpoint_metrics Sample.throttled Sample.params) = inr None.
Proof.
  split; [eexists; split; vm_compute; reflexivity|].
  split; [vm_compute; reflexivity|].
  apply (proj2 (collector_failure_returns_none Sample.throttled Sample.params)
               (ClientError "Throttling")).
  right. vm_compute. reflexivity.
Defined.

(** ** C6: the statistic of each query *)

(** C6.  The statistic of a query is fixed by its metric name.  The data
    queries the invocation collector issues are, in this order, those for
    Invocations, Invocation4XXErrors and Invocation5XXErrors with Stat "Sum",
    ModelLatency with Stat "Average" and InvocationsPerInstance with Stat
    "Sum": a run issues a non-empty prefix of these five requests, all five
    when the collector returns, and no other data query.  The statistics
    queries the utilization collector issues are those of its six metrics,
    each with Statistics ["Average"]: a non-empty prefix of these six
    requests, all six when the collector returns, and no other statistics
    query. *)
Theorem statistic_fixed_per_metric (client : CloudWatch)
    (endpoint_name variant_name : string) (start_time end_time : datetime)
    (period : Z) :
  let i_run := _get_endpoint_invocation_metrics client endpoint_name variant_name
                 start_time end_time period in
  let u_run := _get_endpoint_utilization_metrics client endpoint_name variant_name
                 start_time end_time period in
  let endpoint := [ {| Name := "EndpointName"; Value := endpoint_name |};
                    {| Name := "VariantName"; Value := variant_name |} ] in
  let query (metric_name statistic : string) : GetMetricData.Request :=
    {| GetMetricData.MetricDataQueries :=
         [ {| GetMetricData.Id := String.append "metric_" metric_name;
              GetMetricData.MetricStat_ :=
                {| GetMetricData.Metric_ :=
                     {| GetMetricData.Namespace := "AWS/SageMaker";
                        GetMetricData.MetricName := metric_name;
                        GetMetricData.Dimensions := endpoint |};
                   GetMetricData.Period := period;
                   GetMetricData.Stat := statistic |};
              GetMetricData.ReturnData := true |} ];
       GetMetricData.StartTime := start_time;
       GetMetricData.EndTime := end_time |} in
  let average (metric_name : string) : GetMetricStatistics.Request :=
    {| GetMetricStatistics.Namespace := "/aws/sagemaker/Endpoints";
       GetMetricStatistics.MetricName := metric_name;
       GetMetricStatistics.Dimensions := endpoint;
       GetMetricStatistics.StartTime := start_time;
       GetMetricStatistics.EndTime := end_time;
       GetMetricStatistics.Period := period;
       GetMetricStatistics.Statistics := ["Average"] |} in
  let queries := [query "Invocations" "Sum"; query "Invocation4XXErrors" "Sum";
                  query "Invocation5XXErrors" "Sum"; query "ModelLatency" "Average";
                  query "InvocationsPerInstance" "Sum"] in
  let averages := [average "CPUUtilization"; average "MemoryUtilization";
                   average "DiskUtilization"; average "InferenceLatency";
                   average "GPUUtilization"; average "GPUMemoryUtilization"] in
  map (fun m => (m, stat m)) metric_names =
    [("Invocations", "Sum"); ("Invocation4XXErrors", "Sum");
     ("Invocation5XXErrors", "Sum"); ("ModelLatency", "Average");
     ("InvocationsPerInstance", "Sum")]
  /\ (exists n, (0 < n)%nat /\ data_requests (fst i_run) = firstn n queries)
  /\ (forall request answer,
        In (DataCall request answer) (fst i_run) -> In request queries)
  /\ (forall df, snd i_run = inr df ->
        data_requests (fst i_run) = queries
        /\ forall request, In request queries ->
             exists answer, In (DataCall request answer) (fst i_run))
  /\ (exists n, (0 < n)%nat /\ statistics_requests (fst u_run) = firstn n averages)
  /\ (forall request answer,
        In (StatisticsCall request answer) (fst u_run) -> In request averages)
  /\ (forall df, snd u_run = inr df ->
        statistics_requests (fst u_run) = averages
        /\ forall request, In request averages ->
             exists answer, In (StatisticsCall request answer) (fst u_run)).
Proof.
  intros i_run u_run endpoint query average queries averages.
  destruct (invocation_requests client endpoint_name variant_name
              start_time end_time period) as [n [Hn [Hi Hiall]]].
  destruct (utilization_requests client endpoint_name variant_name
              start_time end_time period) as [k [Hk [Hu Huall]]].
  fold i_run in Hi, Hiall. fold u_run in Hu, Huall.
  change (map _ metric_names) with queries in Hi.
  change (map _ metrics) with averages in Hu.
  split; [reflexivity|].
  split; [exists n; auto|].
  split.
  { intros request answer Hin. apply data_call_request in Hin.
    rewrite Hi in Hin. now apply firstn_In in Hin. }
  split.
  { intros df Hdf. rewrite (Hiall df Hdf) in Hi.
    change (firstn (length metric_names) queries) with queries in Hi.
    split; [exact Hi|]. intros request Hin. apply data_request_call.
    now rewrite Hi. }
  split; [exists k; auto|].
  split.
  { intros request answer Hin. apply statistics_call_request in Hin.
    rewrite Hu in Hin. now apply firstn_In in Hin. }
  intros df Hdf. rewrite (Huall df Hdf) in Hu.
  change (firstn (length metrics) averages) with averages in Hu.
  split; [exact Hu|]. intros request Hin. apply statistics_request_call.
  now rewrite Hu.
Qed.

Lemma statistic_fixed_per_metric_witness :
  let i_run := _get_endpoint_invocation_metrics Sample.both_sides "ep-1" "v1" 0 300 60 in
  let query (metric_name statistic : string) : GetMetricData.Request :=
    {| GetMetricData.MetricDataQueries :=
         [ {| GetMetricData.Id := String.append "metric_" metric_name;
              GetMetricData.MetricStat_ :=
                {| GetMetricData.Metric_ :=
                     {| GetMetricData.Namespace := "AWS/SageMaker";
                        GetMetricData.MetricName := metric_name;
                        GetMetricData.Dimensions :=
                          [ {| Name := "EndpointName"; Value := "ep-1" |};
                            {| Name := "VariantName"; Value := "v1" |} ] |};
                   GetMetricData.Period := 60;
                   GetMetricData.Stat := statistic |};
              GetMetricData.ReturnData := true |} ];
       GetMetricData.StartTime := 0;
       GetMetricData.EndTime := 300 |} in
  data_requests (fst i_run)
  = [query "Invocations" "Sum"; query "Invocation4XXErrors" "Sum";
     query "Invocation5XXErrors" "Sum"; query "ModelLatency" "Average";
     query "InvocationsPerInstance" "Sum"]
  /\ exists answer, In (DataCall (query "ModelLatency" "Average") answer) (fst i_run).
Proof.
  intros i_run query.
  destruct (statistic_fixed_per_metric Sample.both_sides "ep-1" "v1" 0 300 60)
    as [_ [_ [_ [H _]]]].
  destruct (H (pd.pivot_table
                 (fun r => (InvocationMetricRecord.Timestamp r,
                            InvocationMetricRecord.EndpointName r))
                 InvocationMetricRecord.MetricName InvocationMetricRecord.Value
                 (flat_map (invocation_records Sample.both_sides "ep-1" "v1" 0 300 60)
                           metric_names)))
    as [Hall Hin]; [vm_compute; reflexivity|].
  split; [exact Hall|]. apply Hin. simpl. tauto.
Defined.

(** ** C10: the parameter object *)


(** ** C5: no datapoint at all *)

(** C5.  When the backend answers each of a collector's queries with zero
    datapoints, the collector returns (it does not raise) the empty table
    whose columns are exactly Timestamp, EndpointName and its fixed metric
    names (six for utilization, five for invocation), and logs its warning. *)
Theorem no_data_gives_schema_empty_table (client : CloudWatch)
    (endpoint_name variant_name : string) (start_time end_time : datetime)
    (period : Z) :
  ((forall m, In m metrics ->
      exists response,
        get_metric_statistics client
          (utilization_request endpoint_name variant_name start_time end_time
                               period m) = inr response
        /\ GetMetricStatistics.Datapoints response = []) ->
   let run := _get_endpoint_utilization_metrics client endpoint_name variant_name
                start_time end_time period in
   snd run = inr {| pd.columns :=
                      ["Timestamp"; "EndpointName"; "CPUUtilization";
                       "MemoryUtilization"; "DiskUtilization"; "InferenceLatency";
                       "GPUUtilization"; "GPUMemoryUtilization"];
                    pd.rows := [] |}
   /\ In (Logged WARNING (msg_no_utilization_datapoints endpoint_name variant_name))
         (fst run))
  /\
  ((forall m, In m metric_names ->
      exists response result rest,
        get_metric_data client
          (invocation_request endpoint_name variant_name start_time end_time
                              period m) = inr response
        /\ GetMetricData.MetricDataResults response = result :: rest
        /\ GetMetricData.Timestamps result = []
        /\ GetMetricData.Values result = []) ->
   let run := _get_endpoint_invocation_metrics client endpoint_name variant_name
                start_time end_time period in
   snd run = inr {| pd.columns :=
                      ["Timestamp"; "EndpointName"; "Invocations";
                       "Invocation4XXErrors"; "Invocation5XXErrors";
                       "ModelLatency"; "InvocationsPerInstance"];
                    pd.rows := [] |}
   /\ In (Logged WARNING (msg_no_invocation_datapoints endpoint_name variant_name))
         (fst run)).
Proof.
  split; intros Hnone run.
  - assert (Hrec : flat_map (utilization_records client endpoint_name variant_name
                               start_time end_time period) metrics = []).
    { apply flat_map_nil. intros m Hm. destruct (Hnone m Hm) as [response [Hr Hd]].
      unfold utilization_records. now rewrite Hr, Hd. }
    destruct (utilization_total client endpoint_name variant_name
                start_time end_time period) as [Hsnd Hlog].
    + intros m Hm. destruct (Hnone m Hm) as [response [Hr Hd]].
      exists response. split; [assumption|]. rewrite Hd. constructor.
    + rewrite Hrec in Hsnd. split; [exact Hsnd | exact (Hlog Hrec)].
  - assert (Hrec : flat_map (invocation_records client endpoint_name variant_name
                               start_time end_time period) metric_names = []).
    { apply flat_map_nil. intros m Hm.
      destruct (Hnone m Hm) as [response [result [rest [Hr [Hres [Hts Hvs]]]]]].
      unfold invocation_records. now rewrite Hr, Hres, Hts. }
    destruct (invocation_total client endpoint_name variant_name
                start_time end_time period) as [Hsnd Hlog].
    + intros m Hm.
      destruct (Hnone m Hm) as [response [result [rest [Hr [Hres [Hts Hvs]]]]]].
      exists response, result, rest. repeat split; try assumption.
      rewrite Hts. constructor.
    + rewrite Hrec in Hsnd. split; [exact Hsnd | exact (Hlog Hrec)].
Qed.

Lemma no_data_gives_schema_empty_table_witness :
  (let run := _get_endpoint_utilization_metrics Sample.quiet "ep-1" "v1" 0 300 60 in
   snd run = inr {| pd.columns :=
                      ["Timestamp"; "EndpointName"; "CPUUtilization";
                       "MemoryUtilization"; "DiskUtilization"; "InferenceLatency";
                       "GPUUtilization"; "GPUMemoryUtilization"];
                    pd.rows := [] |}
   /\ In (Logged WARNING (msg_no_utilization_datapoints "ep-1" "v1")) (fst run))
  /\
  (let run := _get_endpoint_invocation_metrics Sample.quiet "ep-1" "v1" 0 300 60 in
   snd run = inr {| pd.columns :=
                      ["Timestamp"; "EndpointName"; "Invocations";
                       "Invocation4XXErrors"; "Invocation5XXErrors";
                       "ModelLatency"; "InvocationsPerInstance"];
                    pd.rows := [] |}
   /\ In (Logged WARNING (msg_no_invocation_datapoints "ep-1" "v1")) (fst run)).
Proof.
  destruct (no_data_gives_schema_empty_table Sample.quiet "ep-1" "v1" 0 300 60)
    as [Hu Hi].
  split.
  - apply Hu. intros m _. eexists. split; reflexivity.
  - apply Hi. intros m _. do 3 eexists. repeat split; reflexivity.
Defined.

(** ** C2: one side empty *)

(** C2.  When one collector returns an empty table and the other a non-empty
    table X, [get_endpoint_metrics] returns X itself, whichever side is the
    empty one: X is not joined against the empty frame. *)
Theorem one_side_empty_returns_other (client : CloudWatch) (params : P.t)
    (X E : pd.DataFrame) :
  pd.empty X = false ->
  pd.empty E = true ->
  let u_run := _get_endpoint_utilization_metrics client (endpoint_name params)
                 (variant_name params) (start_time params) (end_time params)
                 (period params) in
  let i_run := _get_endpoint_invocation_metrics client (endpoint_name params)
                 (variant_name params) (start_time params) (end_time params)
                 (period params) in
  (snd u_run = inr E -> snd i_run = inr X ->
   snd (get_endpoint_metrics client params) = inr (Some X))
  /\ (snd u_run = inr X -> snd i_run = inr E ->
      snd (get_endpoint_metrics client params) = inr (Some X)).
Proof.
  intros HX HE u_run i_run.
  rewrite get_endpoint_metrics_outcome. fold u_run i_run.
  split; intros -> ->; rewrite HX, HE; reflexivity.
Qed.

Lemma one_side_empty_returns_other_witness :
  let X := {| pd.columns := ["Timestamp"; "EndpointName"; "Invocations"];
              pd.rows := [ {| pd.Timestamp := 120; pd.EndpointName := "ep-1";
                              pd.values := [Some 10%float] |} ] |} in
  let Y := {| pd.columns := ["Timestamp"; "EndpointName"; "CPUUtilization"];
              pd.rows := [ {| pd.Timestamp := 60; pd.EndpointName := "ep-1";
                              pd.values := [Some 42%float] |} ] |} in
  snd (get_endpoint_metrics Sample.invocation_only Sample.params) = inr (Some X)
  /\ snd (get_endpoint_metrics Sample.utilization_only Sample.params) = inr (Some Y).
Proof.
  intros X Y. split.
  - apply (proj1 (one_side_empty_returns_other Sample.invocation_only Sample.params
                    X (pd.DataFrame_columns ("Timestamp" :: "EndpointName" :: metrics))
                    eq_refl eq_refl)); vm_compute; reflexivity.
  - apply (proj2 (one_side_empty_returns_other Sample.utilization_only Sample.params
                    Y (pd.DataFrame_columns ("Timestamp" :: "EndpointName" :: metric_names))
                    eq_refl eq_refl)); vm_compute; reflexivity.
Defined.

(** ** C7: both sides empty *)

(** C7, as the code has it.  When both collectors return empty tables,
    [get_endpoint_metrics] returns the table of [pd.DataFrame()], which has no
    row and no column: the column schema of the collectors' tables is not
    carried over.  A table returned by [get_endpoint_metrics] is always either
    populated or this table without columns. *)
Theorem both_empty_returns_bare_table (client : CloudWatch) (params : P.t) :
  let u_run := _get_endpoint_utilization_metrics client (endpoint_name params)
                 (variant_name params) (start_time params) (end_time params)
                 (period params) in
  let i_run := _get_endpoint_invocation_metrics client (endpoint_name params)
                 (variant_name params) (start_time params) (end_time params)
                 (period params) in
  (forall u i, snd u_run = inr u -> snd i_run = inr i ->
               pd.empty u = true -> pd.empty i = true ->
               snd (get_endpoint_metrics client params)
               = inr (Some {| pd.columns := []; pd.rows := [] |}))
  /\ (forall df, snd (get_endpoint_metrics client params) = inr (Some df) ->
                 pd.empty df = false \/ df = {| pd.columns := []; pd.rows := [] |}).
Proof.
  intros u_run i_run.
  rewrite get_endpoint_metrics_outcome. fold u_run i_run. split.
  - intros u i -> -> -> ->. reflexivity.
  - intros df. destruct (snd u_run) as [e|u]; [discriminate|].
    destruct (snd i_run) as [e|i]; [discriminate|].
    destruct (pd.empty u) eqn:Eu, (pd.empty i) eqn:Ei; simpl; intros H.
    + right. now inversion H.
    + left. inversion H. now subst.
    + left. inversion H. now subst.
    + left. destruct (pd.merge_outer u i) as [e|m] eqn:Em; [discriminate|].
      inversion H. subst. eapply merge_outer_not_empty; eauto.
Qed.

Lemma both_empty_returns_bare_table_witness :
  snd (get_endpoint_metrics Sample.quiet Sample.params)
  = inr (Some {| pd.columns := []; pd.rows := [] |}).
Proof.
  apply (proj1 (both_empty_returns_bare_table Sample.quiet Sample.params)
               (pd.DataFrame_columns ("Timestamp" :: "EndpointName" :: metrics))
               (pd.DataFrame_columns ("Timestamp" :: "EndpointName" :: metric_names)));
    vm_compute; reflexivity.
Defined.

(** C7, as stated, fails: with a backend that reports nothing, both collectors
    return their empty tables with eight and seven columns, and
    [get_endpoint_metrics] returns a table that has no column at all. *)
Lemma both_empty_result_has_no_schema :
  exists u i df,
    snd (_get_endpoint_utilization_metrics Sample.quiet "ep-1" "v1" 0 300 60) = inr u
    /\ snd (_get_endpoint_invocation_metrics Sample.quiet "ep-1" "v1" 0 300 60) = inr i
    /\ pd.empty u = true /\ pd.empty i = true
    /\ length (pd.columns u) = 8%nat /\ length (pd.columns i) = 7%nat
    /\ snd (get_endpoint_metrics Sample.quiet Sample.params) = inr (Some df)
    /\ pd.columns df = []
    /\ ~ In "Timestamp" (pd.columns df)
    /\ ~ In "EndpointName" (pd.columns df).
Proof.
  do 3 eexists. repeat split; try (vm_compute; reflexivity); simpl; tauto.
Qed.

(** ** C9: the first data result *)

(** C9.  The invocation collector reads the first element of
    MetricDataResults only: dropping every further element from every answer
    changes neither its outcome nor that of [get_endpoint_metrics].  When a
    data query of a run is answered with an empty MetricDataResults list, the
    collector raises IndexError and [get_endpoint_metrics] returns None. *)
Theorem first_data_result_only (client : CloudWatch) (params : P.t) :
  snd (_get_endpoint_invocation_metrics (first_result_only client)
         (endpoint_name params) (variant_name params) (start_time params)
         (end_time params) (period params))
  = snd (_get_endpoint_invocation_metrics client
           (endpoint_name params) (variant_name params) (start_time params)
           (end_time params) (period params))
  /\ snd (get_endpoint_metrics (first_result_only client) params)
     = snd (get_endpoint_metrics client params)
  /\ forall request,
       In (DataCall request (inr {| GetMetricData.MetricDataResults := [] |}))
          (fst (get_endpoint_metrics client params)) ->
       snd (_get_endpoint_invocation_metrics client
              (endpoint_name params) (variant_name params) (start_time params)
              (end_time params) (period params)) = inl IndexError
       /\ snd (get_endpoint_metrics client params) = inr None.
Proof.
  split; [apply invocation_outcome_by_first_pairs, first_pairs_firstn|].
  split; [apply get_endpoint_metrics_by_first_pairs, first_pairs_firstn|].
  intros request Hin.
  destruct (get_endpoint_metrics_trace client params) as [tail [Hlogs Htrace]].
  rewrite Htrace in Hin. clear Htrace.
  assert (Hi : In (DataCall request (inr {| GetMetricData.MetricDataResults := [] |}))
                  (fst (_get_endpoint_invocation_metrics client
                          (endpoint_name params) (variant_name params)
                          (start_time params) (end_time params) (period params)))).
  { rewrite Forall_forall in Hlogs.
    destruct Hin as [Hin|Hin]; [discriminate|].
    apply in_app_or in Hin. destruct Hin as [Hin|Hin];
      [now apply utilization_no_data_call in Hin|].
    destruct (snd (_get_endpoint_utilization_metrics _ _ _ _ _ _)).
    - now apply Hlogs in Hin.
    - destruct Hin as [Hin|Hin]; [discriminate|].
      apply in_app_or in Hin. destruct Hin as [Hin|Hin]; [assumption|].
      now apply Hlogs in Hin. }
  apply invocation_without_result in Hi. split; [assumption|].
  rewrite get_endpoint_metrics_outcome, Hi.
  now destruct (snd (_get_endpoint_utilization_metrics _ _ _ _ _ _)).
Qed.

Lemma first_data_result_only_witness :
  In (DataCall (invocation_request "ep-1" "v1" 0 300 60 "Invocations")
               (inr {| GetMetricData.MetricDataResults := [] |}))
     (fst (get_endpoint_metrics Sample.no_results Sample.params))
  /\ snd (_get_endpoint_invocation_metrics Sample.no_results "ep-1" "v1" 0 300 60)
     = inl IndexError
  /\ snd (get_endpoint_metrics Sample.no_results Sample.params) = inr None.
Proof.
  assert (H : In (DataCall (invocation_request "ep-1" "v1" 0 300 60 "Invocations")
                           (inr {| GetMetricData.MetricDataResults := [] |}))
                 (fst (get_endpoint_metrics Sample.no_results Sample.params))).
  { vm_compute. do 21 right. left. reflexivity. }
  split; [exact H|].
  exact (proj2 (proj2 (first_data_result_only Sample.no_results Sample.params)) _ H).
Defined.

(** ** C3: sequences of different lengths *)

(** C3, as the code has it.  The invocation collector pairs the timestamp and
    value sequences index-wise up to the length of the shorter and never looks
    at the surplus: its outcome, and that of [get_endpoint_metrics], is the one
    it has when both sequences of every result are cut to the shorter length.
    A difference in length raises nothing: the collector returns as soon as
    every query is answered with a result whose index-wise pairs pass
    validation. *)
Theorem mismatched_sequences_are_cut (client : CloudWatch) (params : P.t) :
  let i_run c := _get_endpoint_invocation_metrics c
                   (endpoint_name params) (variant_name params)
                   (start_time params) (end_time params) (period params) in
  snd (i_run (sequences_cut_to_shorter client)) = snd (i_run client)
  /\ snd (get_endpoint_metrics (sequences_cut_to_shorter client) params)
     = snd (get_endpoint_metrics client params)
  /\ ((forall m, In m metric_names ->
         exists response result rest,
           get_metric_data client
             (invocation_request (endpoint_name params) (variant_name params)
                (start_time params) (end_time params) (period params) m)
           = inr response
           /\ GetMetricData.MetricDataResults response = result :: rest
           /\ Forall (fun '(ts, v) => exists d, InvocationDatapoint.new ts v = inr d)
                     (combine (GetMetricData.Timestamps result)
                              (GetMetricData.Values result))) ->
      exists df, snd (i_run client) = inr df).
Proof.
  intros i_run.
  split; [apply invocation_outcome_by_first_pairs, first_pairs_cut|].
  split; [apply get_endpoint_metrics_by_first_pairs, first_pairs_cut|].
  intros Hok. eexists. apply invocation_total. exact Hok.
Qed.

Lemma mismatched_sequences_are_cut_witness :
  exists df,
    snd (_get_endpoint_invocation_metrics Sample.mismatched "ep-1" "v1" 0 300 60)
    = inr df.
Proof.
  apply (proj2 (proj2 (mismatched_sequences_are_cut Sample.mismatched Sample.params))).
  intros m _. do 3 eexists. split; [reflexivity|]. split; [reflexivity|].
  unfold Sample.invocations_at_120, Sample.only. cbn.
  destruct (String.eqb m "Invocations"); cbn; repeat constructor; eexists; reflexivity.
Defined.

(** C3, as stated, fails: the answer for Invocations holds two timestamps and
    one value, and the collector returns a table built from the first pair
    instead of raising; so does [get_endpoint_metrics]. *)
Lemma mismatched_lengths_not_rejected :
  let table := {| pd.columns := ["Timestamp"; "EndpointName"; "Invocations"];
                  pd.rows := [ {| pd.Timestamp := 120; pd.EndpointName := "ep-1";
                                  pd.values := [Some 10%float] |} ] |} in
  get_metric_data Sample.mismatched
    (invocation_request "ep-1" "v1" 0 300 60 "Invocations")
  = inr {| GetMetricData.MetricDataResults :=
             [ {| GetMetricData.ResultId := "metric_Invocations";
                  GetMetricData.Timestamps := [Some 120; Some 180];
                  GetMetricData.Values := [Some 10%float] |} ] |}
  /\ snd (_get_endpoint_invocation_metrics Sample.mismatched "ep-1" "v1" 0 300 60)
     = inr table
  /\ snd (get_endpoint_metrics Sample.mismatched Sample.params) = inr (Some table).
Proof.
  repeat split; vm_compute; reflexivity.
Qed.

(** ** C8: duplicate datapoints *)

(** C8, as the code has it.  In every table a collector returns, the pair
    (Timestamp, EndpointName) is unique across rows.  Datapoints the backend
    reports for the same metric, instant and endpoint are combined: each cell
    is the mean, by the default aggregation of [pivot_table], of the values
    reported for its column at the instant of its row; the mean is computed
    in floating point over the values that are not NaN.  Nothing tells the
    duplicates apart: the collector returns whenever every query is answered
    with complete datapoints, duplicated or not, and besides its backend
    calls it only logs its queries, their answers and the absence of any
    datapoint. *)
Theorem duplicates_are_averaged (client : CloudWatch)
    (endpoint_name variant_name : string) (start_time end_time : datetime)
    (period : Z) :
  let u_run := _get_endpoint_utilization_metrics client endpoint_name variant_name
                 start_time end_time period in
  let i_run := _get_endpoint_invocation_metrics client endpoint_name variant_name
                 start_time end_time period in
  ((forall m, In m metrics ->
      exists response,
        get_metric_statistics client
          (utilization_request endpoint_name variant_name start_time end_time
                               period m) = inr response
        /\ Forall (fun dp => GetMetricStatistics.Timestamp dp <> None
                             /\ GetMetricStatistics.Average dp <> None)
                  (GetMetricStatistics.Datapoints response)) ->
   exists df, snd u_run = inr df)
  /\ ((forall m, In m metric_names ->
         exists response result rest,
           get_metric_data client
             (invocation_request endpoint_name variant_name start_time end_time
                                 period m) = inr response
           /\ GetMetricData.MetricDataResults response = result :: rest
           /\ Forall (fun '(ts, v) => ts <> None /\ v <> None)
                     (combine (GetMetricData.Timestamps result)
                              (GetMetricData.Values result))) ->
      exists df, snd i_run = inr df)
  /\ (forall df, snd u_run = inr df ->
        NoDup (map pd.key (pd.rows df))
        /\ forall r, In r (pd.rows df) ->
             pd.values r
             = map (fun c => pd.mean (reported_averages client
                                        (utilization_request endpoint_name variant_name
                                           start_time end_time period c)
                                        (pd.Timestamp r)))
                   (pd.value_columns df))
  /\ (forall df, snd i_run = inr df ->
        NoDup (map pd.key (pd.rows df))
        /\ forall r, In r (pd.rows df) ->
             pd.values r
             = map (fun c => pd.mean (reported_values client
                                        (invocation_request endpoint_name variant_name
                                           start_time end_time period c)
                                        (pd.Timestamp r)))
                   (pd.value_columns df))
  /\ Forall collector_event (fst u_run)
  /\ Forall collector_event (fst i_run)
  /\ pd.mean [42; 30]%float = Some 36%float
  /\ pd.mean [30; 42]%float = Some 36%float
  /\ pd.mean [1; 2; 6]%float = Some 3%float
  /\ pd.mean [10; 20; 30; 60]%float = Some 30%float
  /\ pd.mean [0.5; 0.25]%float = Some 0.375%float
  /\ pd.mean [9007199254740992; 1]%float = Some 4503599627370496%float
  /\ pd.mean [10000000000000000; 1; 1]%float = Some 3333333333333334%float
  /\ pd.mean [infinity; 1]%float = Some infinity
  /\ pd.mean [7; nan; 9]%float = Some 8%float
  /\ pd.mean [5]%float = Some 5%float
  /\ pd.mean [nan] = None
  /\ pd.mean [] = None
  /\ pd.mean [infinity; neg_infinity] = None.
Proof.
  intros u_run i_run. split; [|split; [|split; [|split; [|split; [|split]]]]].
  - intros Hok. eexists.
    apply (utilization_total client endpoint_name variant_name
             start_time end_time period).
    intros m Hm. destruct (Hok m Hm) as [response [Hr Hcomplete]].
    exists response. split; [exact Hr|].
    eapply Forall_impl; [|exact Hcomplete]. intros dp [Hts Havg].
    unfold UtilizationDatapoint.new.
    destruct (GetMetricStatistics.Timestamp dp), (GetMetricStatistics.Average dp);
      try congruence. eexists. reflexivity.
  - intros Hok. eexists.
    apply (invocation_total client endpoint_name variant_name
             start_time end_time period).
    intros m Hm. destruct (Hok m Hm) as [response [result [rest [Hr [Hres Hcomplete]]]]].
    exists response, result, rest. split; [exact Hr|]. split; [exact Hres|].
    eapply Forall_impl; [|exact Hcomplete]. intros [ts v] [Hts Hv].
    destruct ts, v; try congruence. eexists. reflexivity.
  - intros df Hdf. split.
    + now destruct (utilization_wide _ _ _ _ _ _ df Hdf) as [cols [_ [_ [_ H]]]].
    + intros r Hr.
      exact (proj2 (utilization_cells _ _ _ _ _ _ df r Hdf Hr)).
  - intros df Hdf. split.
    + now destruct (invocation_wide _ _ _ _ _ _ df Hdf) as [cols [_ [_ [_ H]]]].
    + intros r Hr.
      exact (proj2 (invocation_cells _ _ _ _ _ _ df r Hdf Hr)).
  - apply utilization_events.
  - apply invocation_events.
  - repeat split; vm_compute; reflexivity.
Qed.

Lemma duplicates_are_averaged_witness :
  let r := {| pd.Timestamp := 60; pd.EndpointName := "ep-1";
              pd.values := [Some 36%float] |} in
  let df := {| pd.columns := ["Timestamp"; "EndpointName"; "CPUUtilization"];
               pd.rows := [r] |} in
  reported_averages Sample.duplicated
    (utilization_request "ep-1" "v1" 0 300 60 "CPUUtilization") 60
  = [42; 30]%float
  /\ snd (_get_endpoint_utilization_metrics Sample.duplicated "ep-1" "v1" 0 300 60)
     = inr df
  /\ NoDup (map pd.key (pd.rows df))
  /\ pd.values r
     = map (fun c => pd.mean (reported_averages Sample.duplicated
                                (utilization_request "ep-1" "v1" 0 300 60 c) 60))
           (pd.value_columns df).
Proof.
  intros r df.
  pose proof (duplicates_are_averaged Sample.duplicated "ep-1" "v1" 0 300 60)
    as [Hreturns [_ [Htable _]]].
  destruct Hreturns as [df' Hdf'].
  { intros m _. eexists. split; [reflexivity|].
    unfold Sample.only. cbn.
    destruct (String.eqb m "CPUUtilization"); repeat constructor; discriminate. }
  assert (E : df' = df).
  { assert (H : inr df' = inr df :> Exception + pd.DataFrame)
      by (rewrite <- Hdf'; vm_compute; reflexivity).
    now inversion H. }
  subst df'. split; [vm_compute; reflexivity|]. split; [exact Hdf'|].
  destruct (Htable df Hdf') as [Hnd Hcells].
  split; [exact Hnd|]. apply (Hcells r). now left.
Defined.

(** C8, as stated, fails: the backend reports 42 and 30 for CPUUtilization at
    the same instant; the collector returns (it does not raise) a table whose
    cell is 36, not the last datapoint, and the only records it logs are the
    DEBUG traces of its queries. *)
Lemma duplicate_datapoints_silently_combined :
  let run := _get_endpoint_utilization_metrics Sample.duplicated "ep-1" "v1" 0 300 60 in
  get_metric_statistics Sample.duplicated
    (utilization_request "ep-1" "v1" 0 300 60 "CPUUtilization")
  = inr {| GetMetricStatistics.Label := "CPUUtilization";
           GetMetricStatistics.Datapoints :=
             [Sample.datapoint 60 42%float; Sample.datapoint 60 30%float] |}
  /\ snd run
     = inr {| pd.columns := ["Timestamp"; "EndpointName"; "CPUUtilization"];
              pd.rows := [ {| pd.Timestamp := 60; pd.EndpointName := "ep-1";
                              pd.values := [Some 36%float] |} ] |}
  /\ Some 36%float <> Some 30%float
  /\ Forall (fun ev => match ev with
                       | Logged level _ => level = DEBUG
                       | _ => True
                       end) (fst run).
Proof.
  repeat split; try (vm_compute; reflexivity); [discriminate|].
  vm_compute. repeat constructor.
Qed.

(** ** C1: the outer join *)




(** The end-to-end example of the specification: one CPU datapoint at 60 and
    one invocation count at 120 give two rows, each with a missing cell. *)
Example end_to_end :
  snd (get_endpoint_metrics Sample.both_sides Sample.params)
  = inr (Some {| pd.columns := ["Timestamp"; "EndpointName";
                                "CPUUtilization"; "Invocations"];
                 pd.rows := [ {| pd.Timestamp := 60; pd.EndpointName := "ep-1";
                                 pd.values := [Some 42%float; None] |};
                              {| pd.Timestamp := 120; pd.EndpointName := "ep-1";
                                 pd.values := [None; Some 10%float] |} ] |}).
Proof. vm_compute. reflexivity. Qed.

(** * Worked examples *)

(** A statistics query that cannot reach the backend: the result is None. *)
Example unreachable_backend :
  snd (get_endpoint_metrics Sample.unreachable Sample.params) = inr None.
Proof. vm_compute. reflexivity. Qed.

(** A window that ends before it starts and a negative period reach the
    backend as they are. *)
Example backwards_window :
  hd_error (statistics_requests (fst (get_endpoint_metrics Sample.quiet Sample.backwards)))
  = Some {| GetMetricStatistics.Namespace := "/aws/sagemaker/Endpoints";
            GetMetricStatistics.MetricName := "CPUUtilization";
            GetMetricStatistics.Dimensions :=
              [ {| Name := "EndpointName"; Value := "ep-1" |};
                {| Name := "VariantName"; Value := "v1" |} ];
            GetMetricStatistics.StartTime := 300;
            GetMetricStatistics.EndTime := 0;
            GetMetricStatistics.Period := -60;
            GetMetricStatistics.Statistics := ["Average"] |}.
Proof. vm_compute. reflexivity. Qed.

(** Two invocation counts, 10 and 30, paired with the same instant: one row,
    whose cell is 20. *)
Example duplicated_series_table :
  snd (_get_endpoint_invocation_metrics Sample.duplicated_series "ep-1" "v1" 0 300 60)
  = inr {| pd.columns := ["Timestamp"; "EndpointName"; "Invocations"];
           pd.rows := [ {| pd.Timestamp := 60; pd.EndpointName := "ep-1";
                           pd.values := [Some 20%float] |} ] |}.
Proof. vm_compute. reflexivity. Qed.

(** A second result in every data answer leaves no mark on the table; the
    columns of a pivot come in alphabetical order. *)
Example second_result_ignored :
  snd (_get_endpoint_invocation_metrics Sample.two_results "ep-1" "v1" 0 300 60)
  = inr {| pd.columns := ["Timestamp"; "EndpointName"; "Invocation4XXErrors";
                          "Invocation5XXErrors"; "Invocations";
                          "InvocationsPerInstance"; "ModelLatency"];
           pd.rows := [ {| pd.Timestamp := 120; pd.EndpointName := "ep-1";
                           pd.values := [Some 10%float; Some 10%float; Some 10%float;
                                         Some 10%float; Some 10%float] |} ] |}.
Proof. vm_compute. reflexivity. Qed.

(** * Further properties of the collectors and of the top-level operation *)

(** ** Loops that stop *)

(** An event that only a failing iteration leaves makes the loop fail. *)
Lemma for_each_fails {A B : Type} (ev : Event) (P : Exception -> Prop)
    (body : A -> B -> M A) (l : list B) :
  (forall acc x, In ev (fst (body acc x)) ->
                 exists e, snd (body acc x) = inl e /\ P e) ->
  forall acc, In ev (fst (for_each body l acc)) ->
              exists e, snd (for_each body l acc) = inl e /\ P e.
Proof.
  intros Hbody. induction l as [|x l IH]; intros acc; simpl; [tauto|].
  rewrite fst_bind, snd_bind, in_app_iff. intros [H|H].
  - destruct (Hbody acc x H) as [e [-> He]]. eauto.
  - destruct (snd (body acc x)); [contradiction | auto].
Qed.

(** An event that ends the trace of a failing iteration ends the loop's. *)
Lemma for_each_stops {A B : Type} (ev : Event) (exn : Exception)
    (body : A -> B -> M A) (l : list B) :
  (forall acc x, In ev (fst (body acc x)) ->
                 snd (body acc x) = inl exn
                 /\ exists pre, fst (body acc x) = pre ++ [ev]) ->
  forall acc, In ev (fst (for_each body l acc)) ->
              snd (for_each body l acc) = inl exn
              /\ exists pre, fst (for_each body l acc) = pre ++ [ev].
Proof.
  intros Hbody. induction l as [|x l IH]; intros acc; simpl; [tauto|].
  rewrite fst_bind, snd_bind, in_app_iff. intros [H|H].
  - destruct (Hbody acc x H) as [-> [pre ->]]. split; [reflexivity|].
    exists pre. now rewrite app_nil_r.
  - destruct (snd (body acc x)) as [e|acc']; [contradiction|].
    destruct (IH acc' H) as [-> [pre ->]]. split; [reflexivity|].
    exists (fst (body acc x) ++ pre). now rewrite app_assoc.
Qed.

(** A loop returns only if its body returned at every element. *)
Lemma for_each_all {A B : Type} (P : B -> Prop) (body : A -> B -> M A) (l : list B) :
  (forall acc x acc', snd (body acc x) = inr acc' -> P x) ->
  forall acc res, snd (for_each body l acc) = inr res -> Forall P l.
Proof.
  intros Hbody. induction l as [|x l IH]; intros acc res H; simpl in *.
  - constructor.
  - rewrite snd_bind in H.
    destruct (snd (body acc x)) as [e|acc'] eqn:E; [discriminate|].
    constructor; [eapply Hbody; eassumption | eauto].
Qed.

(** ** A backend call that raises *)

Section BackendFailure.
Variable client : CloudWatch.
Variables endpoint_name variant_name : string.
Variables start_time end_time : datetime.
Variable period : Z.

Let u_run := _get_endpoint_utilization_metrics client endpoint_name variant_name
               start_time end_time period.
Let i_run := _get_endpoint_invocation_metrics client endpoint_name variant_name
               start_time end_time period.

Lemma utilization_call_raises (request : GetMetricStatistics.Request) (e : Exception) :
  In (StatisticsCall request (inl e)) (fst u_run) ->
  snd u_run = inl e
  /\ exists pre, fst u_run = pre ++ [StatisticsCall request (inl e)].
Proof.
  unfold u_run, _get_endpoint_utilization_metrics.
  rewrite fst_bind, snd_bind, in_app_iff.
  match goal with |- context [for_each ?b metrics []] => set (body := b) end.
  intros [H|H].
  - assert (Hb : forall acc m,
               In (StatisticsCall request (inl e)) (fst (body acc m)) ->
               snd (body acc m) = inl e
               /\ exists pre, fst (body acc m) = pre ++ [StatisticsCall request (inl e)]).
    { intros acc m. unfold body, call_statistics. run.
      destruct (get_metric_statistics client _) as [e'|response] eqn:E.
      - simpl. intros [H'|[H'|[]]]; [discriminate|]. inversion H'. subst.
        split; [reflexivity|]. eexists [_]. reflexivity.
      - run. rewrite for_each_no_trace.
        + simpl. intros [H'|[H'|[H'|[]]]]; discriminate.
        + intros a dp. run. now destruct (UtilizationDatapoint.new dp). }
    destruct (for_each_stops _ _ body metrics Hb [] H) as [Hs [pre Hp]].
    rewrite Hs, Hp. split; [reflexivity|]. exists pre. now rewrite app_nil_r.
  - exfalso. revert H. destruct (snd (for_each body metrics [])) as [e'|[|r data]];
      simpl; intuition discriminate.
Qed.

Lemma invocation_call_raises (request : GetMetricData.Request) (e : Exception) :
  In (DataCall request (inl e)) (fst i_run) ->
  snd i_run = inl e
  /\ exists pre, fst i_run = pre ++ [DataCall request (inl e)].
Proof.
  unfold i_run, _get_endpoint_invocation_metrics.
  rewrite fst_bind, snd_bind, in_app_iff.
  match goal with |- context [for_each ?b metric_names []] => set (body := b) end.
  intros [H|H].
  - assert (Hb : forall acc m,
               In (DataCall request (inl e)) (fst (body acc m)) ->
               snd (body acc m) = inl e
               /\ exists pre, fst (body acc m) = pre ++ [DataCall request (inl e)]).
    { intros acc m. unfold body, call_data. run.
      destruct (get_metric_data client _) as [e'|response] eqn:E.
      - simpl. intros [H'|[H'|[]]]; [discriminate|]. inversion H'. subst.
        split; [reflexivity|]. eexists [_]. reflexivity.
      - run. unfold getitem.
        destruct (GetMetricData.MetricDataResults response) as [|r rest]; simpl.
        + intros [H'|[H'|[H'|[]]]]; discriminate.
        + run. rewrite for_each_no_trace.
          * simpl. intros [H'|[H'|[H'|[]]]]; discriminate.
          * intros a [ts v]. run. now destruct (InvocationDatapoint.new ts v). }
    destruct (for_each_stops _ _ body metric_names Hb [] H) as [Hs [pre Hp]].
    rewrite Hs, Hp. split; [reflexivity|]. exists pre. now rewrite app_nil_r.
  - exfalso. revert H.
    destruct (snd (for_each body metric_names [])) as [e'|[|r data]];
      simpl; intuition discriminate.
Qed.
End BackendFailure.

Section Failure.
Variable client : CloudWatch.
Variable params : P.t.

Let u_run := _get_endpoint_utilization_metrics client (endpoint_name params)
               (variant_name params) (start_time params) (end_time params)
               (period params).
Let i_run := _get_endpoint_invocation_metrics client (endpoint_name params)
               (variant_name params) (start_time params) (end_time params)
               (period params).

(** What a run leaves and returns when a collector raises. *)
Lemma utilization_failure (e : Exception) :
  snd u_run = inl e ->
  get_endpoint_metrics client params
  = (Logged INFO (msg_retrieve_utilization params)
       :: fst u_run ++ [Logged ERROR (msg_exception (endpoint_name params) e)],
     inr None).
Proof.
  intros H. rewrite (surjective_pairing (get_endpoint_metrics client params)).
  unfold get_endpoint_metrics, get_endpoint_metrics_try. fold u_run i_run. run.
  rewrite H. run. now rewrite app_nil_r.
Qed.

Lemma invocation_failure (u : pd.DataFrame) (e : Exception) :
  snd u_run = inr u -> snd i_run = inl e ->
  get_endpoint_metrics client params
  = (Logged INFO (msg_retrieve_utilization params)
       :: fst u_run
       ++ Logged INFO (msg_retrieve_invocation params)
       :: fst i_run ++ [Logged ERROR (msg_exception (endpoint_name params) e)],
     inr None).
Proof.
  intros Hu Hi. rewrite (surjective_pairing (get_endpoint_metrics client params)).
  unfold get_endpoint_metrics, get_endpoint_metrics_try. fold u_run i_run. run.
  rewrite Hu. run. rewrite Hi. run.
  rewrite app_nil_r, <- !app_assoc. reflexivity.
Qed.

(** Where a backend call of a run comes from. *)
Lemma statistics_call_origin (request : GetMetricStatistics.Request)
    (answer : Exception + GetMetricStatistics.Response) :
  In (StatisticsCall request answer) (fst (get_endpoint_metrics client params)) ->
  In (StatisticsCall request answer) (fst u_run).
Proof.
  destruct (get_endpoint_metrics_trace client params) as [tail [Hlogs ->]].
  fold u_run i_run. rewrite Forall_forall in Hlogs.
  intros [H|H]; [discriminate|]. apply in_app_or in H. destruct H as [H|H]; [exact H|].
  destruct (snd u_run); [now apply Hlogs in H|].
  destruct H as [H|H]; [discriminate|]. apply in_app_or in H.
  destruct H as [H|H]; [now apply invocation_no_statistics_call in H|].
  now apply Hlogs in H.
Qed.

Lemma data_call_origin (request : GetMetricData.Request)
    (answer : Exception + GetMetricData.Response) :
  In (DataCall request answer) (fst (get_endpoint_metrics client params)) ->
  In (DataCall request answer) (fst i_run) /\ exists u, snd u_run = inr u.
Proof.
  destruct (get_endpoint_metrics_trace client params) as [tail [Hlogs ->]].
  fold u_run i_run. rewrite Forall_forall in Hlogs.
  intros [H|H]; [discriminate|]. apply in_app_or in H.
  destruct H as [H|H]; [now apply utilization_no_data_call in H|].
  destruct (snd u_run) as [e|u]; [now apply Hlogs in H|].
  destruct H as [H|H]; [discriminate|]. apply in_app_or in H.
  destruct H as [H|H]; [eauto | now apply Hlogs in H].
Qed.
End Failure.

(** X1.  A backend call that raises ends the run: it is the last backend call
    of the trace, the only record after it is the ERROR record carrying the
    endpoint name and that very exception, and the result is None.  No call
    is retried and no later metric is queried. *)
Theorem backend_exception_ends_the_run (client : CloudWatch) (params : P.t)
    (ev : Event) (e : Exception) :
  In ev (fst (get_endpoint_metrics client params)) ->
  (exists request, ev = StatisticsCall request (inl e))
  \/ (exists request, ev = DataCall request (inl e)) ->
  exists pre,
    get_endpoint_metrics client params
    = (pre ++ [ev; Logged ERROR (msg_exception (endpoint_name params) e)],
       inr None).
Proof.
  intros Hin [[request ->]|[request ->]].
  - apply statistics_call_origin in Hin.
    destruct (utilization_call_raises _ _ _ _ _ _ _ _ Hin) as [He [pre Hpre]].
    rewrite (utilization_failure client params e He), Hpre.
    exists (Logged INFO (msg_retrieve_utilization params) :: pre).
    now rewrite <- app_assoc.
  - apply data_call_origin in Hin. destruct Hin as [Hin [u Hu]].
    destruct (invocation_call_raises _ _ _ _ _ _ _ _ Hin) as [He [pre Hpre]].
    rewrite (invocation_failure client params u e Hu He), Hpre.
    match goal with
    | |- context [?a :: ?b ++ ?c :: (pre ++ _) ++ _] => exists (a :: b ++ c :: pre)
    end.
    repeat (rewrite <- app_assoc || rewrite <- app_comm_cons). reflexivity.
Qed.

Lemma backend_exception_ends_the_run_witness :
  exists pre,
    get_endpoint_metrics Sample.throttled Sample.params
    = (pre ++ [DataCall (invocation_request "ep-1" "v1" 0 300 60 "Invocations")
                        (inl (ClientError "Throttling"));
               Logged ERROR (msg_exception "ep-1" (ClientError "Throttling"))],
       inr None).
Proof.
  apply (backend_exception_ends_the_run Sample.throttled Sample.params).
  - vm_compute. do 21 right. left. reflexivity.
  - right. eexists. reflexivity.
Defined.

(** ** A datapoint that fails validation *)

(** A loop over elements some of which make the body fail fails with the
    failure of one of them. *)
Lemma for_each_first_failure {A B : Type} (body : A -> B -> M A)
    (check : B -> option Exception) (l : list B) :
  (forall acc x, match check x with
                 | Some e => snd (body acc x) = inl e
                 | None => exists acc', snd (body acc x) = inr acc'
                 end) ->
  Exists (fun x => check x <> None) l ->
  forall acc, exists x e, In x l /\ check x = Some e
                          /\ snd (for_each body l acc) = inl e.
Proof.
  intros Hbody. induction l as [|x l IH]; intros Hex acc; [inversion Hex|].
  simpl. rewrite snd_bind. specialize (Hbody acc x).
  destruct (check x) as [e|] eqn:E.
  - rewrite Hbody. exists x, e. auto.
  - destruct Hbody as [acc' ->]. inversion Hex as [? ? H|? ? H]; subst; [congruence|].
    destruct (IH H acc') as [y [e [Hy [Hc Hs]]]]. exists y, e. auto.
Qed.

Section InvalidDatapoint.
Variable client : CloudWatch.
Variables endpoint_name variant_name : string.
Variables start_time end_time : datetime.
Variable period : Z.

Let u_run := _get_endpoint_utilization_metrics client endpoint_name variant_name
               start_time end_time period.
Let i_run := _get_endpoint_invocation_metrics client endpoint_name variant_name
               start_time end_time period.

Lemma utilization_invalid_datapoint (request : GetMetricStatistics.Request)
    (response : GetMetricStatistics.Response) :
  In (StatisticsCall request (inr response)) (fst u_run) ->
  Exists (fun dp => GetMetricStatistics.Timestamp dp = None
                    \/ GetMetricStatistics.Average dp = None)
         (GetMetricStatistics.Datapoints response) ->
  exists field, snd u_run = inl (ValidationError "UtilizationDatapoint" field)
                /\ (field = "Timestamp" \/ field = "Average").
Proof.
  intros Hin Hex. unfold u_run, _get_endpoint_utilization_metrics in *.
  rewrite fst_bind, in_app_iff in Hin. rewrite snd_bind.
  match goal with |- context [for_each ?b metrics []] => set (body := b) in * end.
  destruct Hin as [H|H].
  - destruct (for_each_fails (StatisticsCall request (inr response))
                (fun e => exists field,
                     e = ValidationError "UtilizationDatapoint" field
                     /\ (field = "Timestamp" \/ field = "Average"))
                body metrics) with (acc := @nil UtilizationMetricRecord.t)
      as [e [-> [field [-> Hf]]]]; [|exact H|eauto].
    clear H. intros acc m. unfold body, call_statistics. run.
    destruct (get_metric_statistics client _) as [e'|response'] eqn:E.
    + simpl. intros [H|[H|[]]]; discriminate.
    + run. rewrite for_each_no_trace
        by (intros a dp; run; now destruct (UtilizationDatapoint.new dp)).
      simpl. intros [H|[H|[H|[]]]]; try discriminate. inversion H. subst response'.
      match goal with |- context [for_each ?b _ acc] => set (inner := b) end.
      destruct (for_each_first_failure inner
                  (fun dp => match UtilizationDatapoint.new dp with
                             | inl e => Some e
                             | inr _ => None
                             end)
                  (GetMetricStatistics.Datapoints response)) with (acc := acc)
        as [dp [e [_ [Hc ->]]]].
      * intros a dp. unfold inner. run.
        destruct (UtilizationDatapoint.new dp); [reflexivity | eauto].
      * apply Exists_impl with (2 := Hex). intros dp. unfold UtilizationDatapoint.new.
        destruct (GetMetricStatistics.Timestamp dp), (GetMetricStatistics.Average dp);
          intros [K|K]; discriminate.
      * exists e. split; [reflexivity|]. unfold UtilizationDatapoint.new in Hc.
        destruct (GetMetricStatistics.Timestamp dp), (GetMetricStatistics.Average dp);
          inversion Hc; eauto.
  - exfalso. revert H. destruct (snd (for_each body metrics [])) as [e'|[|r data]];
      simpl; intuition discriminate.
Qed.

Lemma invocation_invalid_datapoint (request : GetMetricData.Request)
    (response : GetMetricData.Response) (result : GetMetricData.MetricDataResult)
    (rest : list GetMetricData.MetricDataResult) :
  In (DataCall request (inr response)) (fst i_run) ->
  GetMetricData.MetricDataResults response = result :: rest ->
  Exists (fun '(ts, v) => ts = None \/ v = None)
         (combine (GetMetricData.Timestamps result) (GetMetricData.Values result)) ->
  exists field, snd i_run = inl (ValidationError "InvocationDatapoint" field)
                /\ (field = "Timestamp" \/ field = "Value").
Proof.
  intros Hin Hres Hex. unfold i_run, _get_endpoint_invocation_metrics in *.
  rewrite fst_bind, in_app_iff in Hin. rewrite snd_bind.
  match goal with |- context [for_each ?b metric_names []] => set (body := b) in * end.
  destruct Hin as [H|H].
  - destruct (for_each_fails (DataCall request (inr response))
                (fun e => exists field,
                     e = ValidationError "InvocationDatapoint" field
                     /\ (field = "Timestamp" \/ field = "Value"))
                body metric_names) with (acc := @nil InvocationMetricRecord.t)
      as [e [-> [field [-> Hf]]]]; [|exact H|eauto].
    clear H. intros acc m. unfold body, call_data. run.
    destruct (get_metric_data client _) as [e'|response'] eqn:E.
    + simpl. intros [H|[H|[]]]; discriminate.
    + run. unfold getitem.
      destruct (GetMetricData.MetricDataResults response') as [|r0 rest0] eqn:Er;
        simpl.
      * intros [H|[H|[H|[]]]]; try discriminate. inversion H. subst response'.
        congruence.
      * run. rewrite for_each_no_trace
          by (intros a [ts v]; run; now destruct (InvocationDatapoint.new ts v)).
        simpl. intros [H|[H|[H|[]]]]; try discriminate. inversion H. subst response'.
        rewrite Hres in Er. inversion Er. subst r0 rest0.
        match goal with |- context [for_each ?b _ acc] => set (inner := b) end.
        destruct (for_each_first_failure inner
                    (fun '(ts, v) => match InvocationDatapoint.new ts v with
                                     | inl e => Some e
                                     | inr _ => None
                                     end)
                    (combine (GetMetricData.Timestamps result)
                             (GetMetricData.Values result))) with (acc := acc)
          as [[ts v] [e [_ [Hc ->]]]].
        -- intros a [ts v]. unfold inner. run.
           destruct (InvocationDatapoint.new ts v); [reflexivity | eauto].
        -- apply Exists_impl with (2 := Hex). intros [ts v].
           unfold InvocationDatapoint.new.
           destruct ts, v; intros [K|K]; discriminate.
        -- exists e. split; [reflexivity|]. unfold InvocationDatapoint.new in Hc.
           destruct ts, v; inversion Hc; eauto.
  - exfalso. revert H.
    destruct (snd (for_each body metric_names [])) as [e'|[|r data]];
      simpl; intuition discriminate.
Qed.
End InvalidDatapoint.

(** X2.  A datapoint that fails validation fails the whole run.  When a
    statistics query of a run is answered with a datapoint that lacks its
    Timestamp or its Average, the utilization collector raises a
    ValidationError of UtilizationDatapoint; when a data query is answered
    with a null timestamp or value among the index-wise pairs of its first
    result, the invocation collector raises a ValidationError of
    InvocationDatapoint.  In both cases [get_endpoint_metrics] returns None:
    the valid datapoints collected so far are dropped with the invalid one. *)
Theorem invalid_datapoint_fails_the_run (client : CloudWatch) (params : P.t) :
  let u_run := _get_endpoint_utilization_metrics client (endpoint_name params)
                 (variant_name params) (start_time params) (end_time params)
                 (period params) in
  let i_run := _get_endpoint_invocation_metrics client (endpoint_name params)
                 (variant_name params) (start_time params) (end_time params)
                 (period params) in
  (forall request response,
     In (StatisticsCall request (inr response))
        (fst (get_endpoint_metrics client params)) ->
     Exists (fun dp => GetMetricStatistics.Timestamp dp = None
                       \/ GetMetricStatistics.Average dp = None)
            (GetMetricStatistics.Datapoints response) ->
     (exists field, snd u_run = inl (ValidationError "UtilizationDatapoint" field)
                    /\ (field = "Timestamp" \/ field = "Average"))
     /\ snd (get_endpoint_metrics client params) = inr None)
  /\ (forall request response result rest,
        In (DataCall request (inr response))
           (fst (get_endpoint_metrics client params)) ->
        GetMetricData.MetricDataResults response = result :: rest ->
        Exists (fun '(ts, v) => ts = None \/ v = None)
               (combine (GetMetricData.Timestamps result)
                        (GetMetricData.Values result)) ->
        (exists field, snd i_run = inl (ValidationError "InvocationDatapoint" field)
                       /\ (field = "Timestamp" \/ field = "Value"))
        /\ snd (get_endpoint_metrics client params) = inr None).
Proof.
  intros u_run i_run. split.
  - intros request response Hin Hex. apply statistics_call_origin in Hin.
    destruct (utilization_invalid_datapoint _ _ _ _ _ _ _ _ Hin Hex)
      as [field [Hs Hf]].
    split; [eauto|]. rewrite get_endpoint_metrics_outcome. fold u_run.
    unfold u_run. now rewrite Hs.
  - intros request response result rest Hin Hres Hex.
    apply data_call_origin in Hin. destruct Hin as [Hin [u Hu]].
    destruct (invocation_invalid_datapoint _ _ _ _ _ _ _ _ _ _ Hin Hres Hex)
      as [field [Hs Hf]].
    split; [eauto|]. rewrite get_endpoint_metrics_outcome, Hu, Hs. reflexivity.
Qed.

Lemma invalid_datapoint_fails_the_run_witness :
  snd (get_endpoint_metrics Sample.missing_average Sample.params) = inr None
  /\ snd (get_endpoint_metrics Sample.null_value Sample.params) = inr None.
Proof.
  split.
  - eapply (proj1 (invalid_datapoint_fails_the_run Sample.missing_average
                     Sample.params)).
    + vm_compute. do 2 right. left. reflexivity.
    + right. left. right. reflexivity.
  - eapply (proj2 (invalid_datapoint_fails_the_run Sample.null_value
                     Sample.params)).
    + vm_compute. do 21 right. left. reflexivity.
    + reflexivity.
    + right. left. right. reflexivity.
Defined.

(** ** When exactly the collectors return *)

Section ReturnExactly.
Variable client : CloudWatch.
Variables endpoint_name variant_name : string.
Variables start_time end_time : datetime.
Variable period : Z.

Let u_run := _get_endpoint_utilization_metrics client endpoint_name variant_name
               start_time end_time period.
Let i_run := _get_endpoint_invocation_metrics client endpoint_name variant_name
               start_time end_time period.

Lemma utilization_returns_only_if (df : pd.DataFrame) :
  snd u_run = inr df ->
  Forall (fun m =>
            exists response,
              get_metric_statistics client
                (utilization_request endpoint_name variant_name start_time end_time
                                     period m) = inr response
              /\ Forall (fun dp => GetMetricStatistics.Timestamp dp <> None
                                   /\ GetMetricStatistics.Average dp <> None)
                        (GetMetricStatistics.Datapoints response))
         metrics.
Proof.
  unfold u_run, _get_endpoint_utilization_metrics. rewrite snd_bind.
  match goal with |- context [for_each ?b metrics []] => set (body := b) end.
  destruct (snd (for_each body metrics [])) as [e|data] eqn:E; [discriminate|].
  intros _. apply for_each_all with (2 := E). clear E.
  intros acc m acc'. unfold body, call_statistics. run.
  destruct (get_metric_statistics client _) as [e|response]; [discriminate|].
  run. intros H. exists response. split; [reflexivity|].
  apply for_each_all with (2 := H). intros a dp a'. run.
  unfold UtilizationDatapoint.new.
  destruct (GetMetricStatistics.Timestamp dp), (GetMetricStatistics.Average dp);
    simpl; try discriminate. intros _. split; discriminate.
Qed.

Lemma invocation_returns_only_if (df : pd.DataFrame) :
  snd i_run = inr df ->
  Forall (fun m =>
            exists response result rest,
              get_metric_data client
                (invocation_request endpoint_name variant_name start_time end_time
                                    period m) = inr response
              /\ GetMetricData.MetricDataResults response = result :: rest
              /\ Forall (fun '(ts, v) => ts <> None /\ v <> None)
                        (combine (GetMetricData.Timestamps result)
                                 (GetMetricData.Values result)))
         metric_names.
Proof.
  unfold i_run, _get_endpoint_invocation_metrics. rewrite snd_bind.
  match goal with |- context [for_each ?b metric_names []] => set (body := b) end.
  destruct (snd (for_each body metric_names [])) as [e|data] eqn:E; [discriminate|].
  intros _. apply for_each_all with (2 := E). clear E.
  intros acc m acc'. unfold body, call_data. run.
  destruct (get_metric_data client _) as [e|response]; [discriminate|].
  run. unfold getitem.
  destruct (GetMetricData.MetricDataResults response) as [|result rest] eqn:Er;
    simpl; [discriminate|].
  run. intros H. exists response, result, rest.
  split; [reflexivity|]. split; [exact Er|].
  apply for_each_all with (2 := H). intros a [ts v] a'. run.
  unfold InvocationDatapoint.new.
  destruct ts, v; simpl; try discriminate. intros _. split; discriminate.
Qed.
End ReturnExactly.

(** X3.  A collector returns exactly when every one of its queries is
    answered and every datapoint it reads from the answers is complete: for
    the utilization collector, each of the six answers holds datapoints that
    all have a Timestamp and an Average; for the invocation collector, each
    of the five answers has a first result whose index-wise pairs hold no
    null.  One unanswered query or one incomplete datapoint, for whichever
    metric, and the collector raises. *)
Theorem collector_returns_exactly_when (client : CloudWatch)
    (endpoint_name variant_name : string) (start_time end_time : datetime)
    (period : Z) :
  ((exists df, snd (_get_endpoint_utilization_metrics client endpoint_name
                      variant_name start_time end_time period) = inr df)
   <-> forall m, In m metrics ->
         exists response,
           get_metric_statistics client
             (utilization_request endpoint_name variant_name start_time end_time
                                  period m) = inr response
           /\ Forall (fun dp => GetMetricStatistics.Timestamp dp <> None
                                /\ GetMetricStatistics.Average dp <> None)
                     (GetMetricStatistics.Datapoints response))
  /\ ((exists df, snd (_get_endpoint_invocation_metrics client endpoint_name
                         variant_name start_time end_time period) = inr df)
      <-> forall m, In m metric_names ->
            exists response result rest,
              get_metric_data client
                (invocation_request endpoint_name variant_name start_time end_time
                                    period m) = inr response
              /\ GetMetricData.MetricDataResults response = result :: rest
              /\ Forall (fun '(ts, v) => ts <> None /\ v <> None)
                        (combine (GetMetricData.Timestamps result)
                                 (GetMetricData.Values result))).
Proof.
  split; split.
  - intros [df H]. apply Forall_forall. eapply utilization_returns_only_if. exact H.
  - intros H. eexists. apply utilization_total. intros m Hm.
    destruct (H m Hm) as [response [Hr Hv]]. exists response. split; [exact Hr|].
    apply Forall_impl with (2 := Hv). intros dp [Ht Ha].
    unfold UtilizationDatapoint.new.
    destruct (GetMetricStatistics.Timestamp dp), (GetMetricStatistics.Average dp);
      try congruence. eauto.
  - intros [df H]. apply Forall_forall. eapply invocation_returns_only_if. exact H.
  - intros H. eexists. apply invocation_total. intros m Hm.
    destruct (H m Hm) as [response [result [rest [Hr [Hres Hv]]]]].
    exists response, result, rest. repeat split; try assumption.
    apply Forall_impl with (2 := Hv). intros [ts v] [Ht Ha].
    unfold InvocationDatapoint.new. destruct ts, v; try congruence. eauto.
Qed.

Lemma collector_returns_exactly_when_witness :
  (exists df, snd (_get_endpoint_utilization_metrics Sample.busy "ep-1" "v1"
                     0 300 60) = inr df)
  /\ (exists df, snd (_get_endpoint_invocation_metrics Sample.busy "ep-1" "v1"
                        0 300 60) = inr df).
Proof.
  destruct (collector_returns_exactly_when Sample.busy "ep-1" "v1" 0 300 60)
    as [[_ Hu] [_ Hi]].
  split.
  - apply Hu. intros m _. eexists. split; [reflexivity|]. cbn.
    destruct (String.eqb m "CPUUtilization"); [|destruct (String.eqb m "MemoryUtilization")];
      repeat constructor; discriminate.
  - apply Hi. intros m _. do 3 eexists. split; [reflexivity|]. split; [reflexivity|].
    cbn. unfold Sample.only. destruct (String.eqb m "Invocations"); cbn;
      repeat constructor; discriminate.
Defined.

(** ** A table or None *)

(** X4.  [get_endpoint_metrics] returns a table exactly when both collectors
    return and their tables need no merge or can be merged: one of the two
    tables is empty, or the two operations of the backend return datetimes
    of the same kind.  It returns None exactly when a collector raises, or
    when both tables are non-empty and hold datetimes of different kinds, on
    which the merge raises. *)
Theorem table_exactly_when_both_return (client : CloudWatch) (params : P.t) :
  let u_run := _get_endpoint_utilization_metrics client (endpoint_name params)
                 (variant_name params) (start_time params) (end_time params)
                 (period params) in
  let i_run := _get_endpoint_invocation_metrics client (endpoint_name params)
                 (variant_name params) (start_time params) (end_time params)
                 (period params) in
  ((exists df, snd (get_endpoint_metrics client params) = inr (Some df))
   <-> exists u i, snd u_run = inr u /\ snd i_run = inr i
                   /\ (pd.empty u = true \/ pd.empty i = true
                       \/ statistics_tzinfo client = data_tzinfo client))
  /\ (snd (get_endpoint_metrics client params) = inr None
      <-> (exists e, snd u_run = inl e)
          \/ (exists e, snd i_run = inl e)
          \/ exists u i, snd u_run = inr u /\ snd i_run = inr i
                         /\ pd.empty u = false /\ pd.empty i = false
                         /\ statistics_tzinfo client <> data_tzinfo client).
Proof.
  intros u_run i_run. rewrite get_endpoint_metrics_outcome. fold u_run i_run.
  destruct (snd u_run) as [eu|u] eqn:Hu.
  { split; split.
    - intros [df H]. discriminate.
    - intros [u [i [H _]]]. discriminate.
    - eauto.
    - reflexivity. }
  destruct (snd i_run) as [ei|i] eqn:Hi.
  { split; split.
    - intros [df H]. discriminate.
    - intros [u' [i [_ [H _]]]]. discriminate.
    - eauto.
    - reflexivity. }
  destruct (pd.empty u) eqn:Eu.
  { split; split.
    - intros _. exists u, i. auto.
    - intros _. destruct (pd.empty i); simpl; eauto.
    - destruct (pd.empty i); simpl; discriminate.
    - intros [[e H]|[[e H]|[u' [i' [H [_ [H' _]]]]]]]; try discriminate.
      inversion H. congruence. }
  destruct (pd.empty i) eqn:Ei.
  { split; split.
    - intros _. exists u, i. auto.
    - intros _. simpl. eauto.
    - simpl. discriminate.
    - intros [[e H]|[[e H]|[u' [i' [_ [H [_ [H' _]]]]]]]]; try discriminate.
      inversion H. congruence. }
  simpl.
  rewrite (collectors_merge client _ _ _ _ _ u i Hu Hi Eu Ei).
  destruct (tzinfo_eqb (statistics_tzinfo client) (data_tzinfo client)) eqn:Ez.
  - apply tzinfo_eqb_eq in Ez. split; split.
    + intros _. exists u, i. auto.
    + eauto.
    + discriminate.
    + intros [[e H]|[[e H]|[u' [i' [_ [_ [_ [_ H]]]]]]]]; try discriminate.
      contradiction.
  - apply tzinfo_eqb_neq in Ez. split; split.
    + intros [df H]. discriminate.
    + intros [u' [i' [Hu' [Hi' [H|[H|H]]]]]].
      * inversion Hu'. congruence.
      * inversion Hi'. congruence.
      * contradiction.
    + intros _. right. right. exists u, i. auto.
    + reflexivity.
Qed.

Lemma table_exactly_when_both_return_witness :
  (exists df, snd (get_endpoint_metrics Sample.busy Sample.params) = inr (Some df))
  /\ snd (get_endpoint_metrics (Sample.naive_statistics Sample.busy) Sample.params)
     = inr None.
Proof.
  split.
  - apply (proj1 (table_exactly_when_both_return Sample.busy Sample.params)).
    do 2 eexists. split; [vm_compute; reflexivity|].
    split; [vm_compute; reflexivity|]. right. right. reflexivity.
  - apply (proj2 (table_exactly_when_both_return
                    (Sample.naive_statistics Sample.busy) Sample.params)).
    right. right. do 2 eexists. split; [vm_compute; reflexivity|].
    split; [vm_compute; reflexivity|].
    split; [reflexivity|]. split; [reflexivity|]. discriminate.
Defined.

(** ** The backend calls of a run *)

Lemma NoDup_firstn {A : Type} (n : nat) (l : list A) : NoDup l -> NoDup (firstn n l).
Proof.
  intros H. rewrite <- (firstn_skipn n l) in H. now apply NoDup_app_remove_r in H.
Qed.

Lemma utilization_requests_NoDup (e v : string) (s t : datetime) (p : Z) :
  NoDup (map (utilization_request e v s t p) metrics).
Proof.
  apply (NoDup_map_inv GetMetricStatistics.MetricName).
  rewrite map_map. simpl. apply metrics_NoDup.
Qed.

Lemma invocation_requests_NoDup (e v : string) (s t : datetime) (p : Z) :
  NoDup (map (invocation_request e v s t p) metric_names).
Proof.
  apply (NoDup_map_inv
           (fun r => map GetMetricData.Id (GetMetricData.MetricDataQueries r))).
  rewrite map_map. simpl. repeat constructor; simpl; intuition discriminate.
Qed.

(** X5.  The backend calls of a run are, in order, the statistics queries of
    the first metrics of the utilization list followed by the data queries of
    the first metrics of the invocation list, one call per metric: no query
    is issued twice and a run makes at most eleven calls.  A run that returns
    a table has made all eleven, six statistics queries and five data
    queries; a run whose utilization collector raises makes no data query. *)
Theorem calls_of_a_run (client : CloudWatch) (params : P.t) :
  let u_request := utilization_request (endpoint_name params) (variant_name params)
                     (start_time params) (end_time params) (period params) in
  let i_request := invocation_request (endpoint_name params) (variant_name params)
                     (start_time params) (end_time params) (period params) in
  let run := get_endpoint_metrics client params in
  (exists n k, statistics_requests (fst run) = firstn n (map u_request metrics)
               /\ data_requests (fst run) = firstn k (map i_request metric_names))
  /\ NoDup (statistics_requests (fst run))
  /\ NoDup (data_requests (fst run))
  /\ (length (statistics_requests (fst run)) + length (data_requests (fst run))
      <= 11)%nat
  /\ (forall df, snd run = inr (Some df) ->
        statistics_requests (fst run) = map u_request metrics
        /\ data_requests (fst run) = map i_request metric_names)
  /\ (forall e,
        snd (_get_endpoint_utilization_metrics client (endpoint_name params)
               (variant_name params) (start_time params) (end_time params)
               (period params)) = inl e ->
        data_requests (fst run) = []).
Proof.
  intros u_request i_request run.
  destruct (get_endpoint_metrics_requests client params) as [Hs Hd].
  fold run in Hs, Hd.
  destruct (utilization_requests client (endpoint_name params) (variant_name params)
              (start_time params) (end_time params) (period params))
    as [n [_ [Hu Hun]]].
  destruct (invocation_requests client (endpoint_name params) (variant_name params)
              (start_time params) (end_time params) (period params))
    as [k [_ [Hi Hik]]].
  fold u_request in Hu. fold i_request in Hi.
  assert (Hk : exists k', data_requests (fst run) = firstn k' (map i_request metric_names)).
  { rewrite Hd. destruct (snd (_get_endpoint_utilization_metrics _ _ _ _ _ _)).
    - exists 0%nat. reflexivity.
    - exists k. exact Hi. }
  destruct Hk as [k' Hk'].
  split; [exists n, k'; rewrite Hs; auto|].
  split; [rewrite Hs, Hu; apply NoDup_firstn, utilization_requests_NoDup|].
  split; [rewrite Hk'; apply NoDup_firstn, invocation_requests_NoDup|].
  split.
  { rewrite Hs, Hu, Hk', !length_firstn, !length_map. simpl. lia. }
  split.
  - intros df Hdf. unfold run in Hdf. rewrite get_endpoint_metrics_outcome in Hdf.
    rewrite Hs, Hd, Hu, Hi.
    destruct (snd (_get_endpoint_utilization_metrics _ _ _ _ _ _)) as [e|u];
      [discriminate|].
    destruct (snd (_get_endpoint_invocation_metrics _ _ _ _ _ _)) as [e|i];
      [discriminate|].
    rewrite (Hun u eq_refl), (Hik i eq_refl).
    rewrite <- (length_map u_request metrics) at 1.
    rewrite <- (length_map i_request metric_names) at 1.
    now rewrite !firstn_all.
  - intros e He. rewrite Hd, He. reflexivity.
Qed.

Lemma calls_of_a_run_witness :
  length (statistics_requests (fst (get_endpoint_metrics Sample.busy Sample.params)))
  = 6%nat
  /\ length (data_requests (fst (get_endpoint_metrics Sample.busy Sample.params)))
     = 5%nat
  /\ data_requests (fst (get_endpoint_metrics Sample.unreachable Sample.params)) = [].
Proof.
  destruct (calls_of_a_run Sample.busy Sample.params)
    as [_ [_ [_ [_ [Hall _]]]]].
  assert (Hdf : exists df, snd (get_endpoint_metrics Sample.busy Sample.params)
                           = inr (Some df)) by (eexists; vm_compute; reflexivity).
  destruct Hdf as [df Hdf]. destruct (Hall df Hdf) as [-> ->].
  split; [reflexivity|]. split; [reflexivity|].
  apply (proj2 (proj2 (proj2 (proj2 (proj2
           (calls_of_a_run Sample.unreachable Sample.params)))))
           EndpointConnectionError).
  vm_compute. reflexivity.
Defined.

(** ** Order and columns of a collector's table *)

Section SortedFacts.
Context {A : Type} (leb : A -> A -> bool).
Hypothesis leb_total : forall a b, leb a b = true \/ leb b a = true.

Let le := fun a b => leb a b = true.

Lemma insert_sorted (x : A) (l : list A) : Sorted le l -> Sorted le (insert leb x l).
Proof.
  induction l as [|y l IH]; intros H; simpl.
  - repeat constructor.
  - destruct (leb x y) eqn:E.
    + constructor; [assumption|]. constructor. exact E.
    + inversion H as [|? ? Hl Hy]. subst. constructor; [auto|].
      destruct l as [|z l]; simpl.
      * constructor. unfold le. destruct (leb_total x y); congruence.
      * destruct (leb x z).
        -- constructor. unfold le. destruct (leb_total x y); congruence.
        -- constructor. now inversion Hy.
Qed.

Lemma sort_sorted (l : list A) : Sorted le (sort leb l).
Proof.
  induction l as [|x l IH]; simpl; [constructor | now apply insert_sorted].
Qed.
End SortedFacts.

Lemma datetime_ltb_total (a b : datetime) :
  datetime_ltb a b = true \/ a = b \/ datetime_ltb b a = true.
Proof.
  destruct a as [i1 z1], b as [i2 z2]. unfold datetime_ltb. simpl.
  destruct (Z.lt_trichotomy i1 i2) as [H|[H|H]].
  - left. apply orb_true_iff. left. now apply Z.ltb_lt.
  - subst. rewrite Z.eqb_refl, Z.ltb_irrefl. simpl.
    destruct z1, z2; auto.
  - right. right. apply orb_true_iff. left. now apply Z.ltb_lt.
Qed.

Lemma key_leb_total (a b : Key) : key_leb a b = true \/ key_leb b a = true.
Proof.
  destruct a as [t1 e1], b as [t2 e2]. unfold key_leb. simpl.
  destruct (datetime_ltb_total t1 t2) as [H|[H|H]].
  - left. now rewrite H.
  - subst. rewrite (proj2 (datetime_eqb_eq t2 t2) eq_refl). simpl.
    destruct (String.leb_total e1 e2) as [E|E]; rewrite E;
      [left | right]; apply orb_true_r.
  - right. now rewrite H.
Qed.

(** In a sorted list without duplicates, neighbours differ. *)
Lemma Sorted_NoDup_strict {A : Type} (R : A -> A -> Prop) (l : list A) :
  Sorted R l -> NoDup l -> Sorted (fun a b => R a b /\ a <> b) l.
Proof.
  induction 1 as [|x l Hl IH Hx]; intros Hnd; [constructor|].
  inversion Hnd as [|? ? Hnot Hnd']. subst. constructor; [auto|].
  destruct Hx as [|y l Hxy]; constructor. split; [assumption|].
  intros ->. apply Hnot. now left.
Qed.

Lemma Sorted_map {A B : Type} (R : A -> A -> Prop) (S : B -> B -> Prop)
    (f : A -> B) (l : list A) :
  (forall a b, In a l -> In b l -> R a b -> S (f a) (f b)) ->
  Sorted R l -> Sorted S (map f l).
Proof.
  intros Hf H. induction H as [|x l Hl IH Hx]; simpl; [constructor|].
  constructor.
  - apply IH. intros a b Ha Hb. apply Hf; now right.
  - destruct Hx as [|y l Hxy]; simpl; constructor.
    apply Hf; [now left | right; now left | assumption].
Qed.

Section TableShape.
Variable client : CloudWatch.
Variables endpoint_name variant_name : string.
Variables start_time end_time : datetime.
Variable period : Z.

Let u_records := utilization_records client endpoint_name variant_name
                                     start_time end_time period.
Let i_records := invocation_records client endpoint_name variant_name
                                    start_time end_time period.
Let u_request := utilization_request endpoint_name variant_name
                                     start_time end_time period.
Let i_request := invocation_request endpoint_name variant_name
                                    start_time end_time period.
Let u_run := _get_endpoint_utilization_metrics client endpoint_name variant_name
                                               start_time end_time period.
Let i_run := _get_endpoint_invocation_metrics client endpoint_name variant_name
                                              start_time end_time period.
Let u_index := fun r => (UtilizationMetricRecord.Timestamp r,
                         UtilizationMetricRecord.EndpointName r).
Let i_index := fun r => (InvocationMetricRecord.Timestamp r,
                         InvocationMetricRecord.EndpointName r).

(** The backend reported something for a metric at an instant exactly when
    the metric has a record at that instant. *)
Lemma utilization_reported (c : string) (ts : Z) :
  (exists r, In r (u_records c)
             /\ instant (UtilizationMetricRecord.Timestamp r) = ts)
  <-> reported_averages client (u_request c) ts <> [].
Proof.
  unfold u_request.
  rewrite <- (utilization_group client endpoint_name variant_name start_time
                end_time period ts c).
  fold u_records. unfold pd.group. split.
  - intros [r [Hr Hts]] E.
    destruct (utilization_records_fields _ _ _ _ _ _ c r Hr) as [Hm He].
    pose proof (utilization_records_tz _ _ _ _ _ _ c r Hr) as Hz.
    assert (Hin : In r (filter
                          (fun r => key_eqb (UtilizationMetricRecord.Timestamp r,
                                             UtilizationMetricRecord.EndpointName r)
                                            ({| instant := ts;
                                                tz := statistics_tzinfo client |},
                                             endpoint_name)
                                    && String.eqb (UtilizationMetricRecord.MetricName r) c)
                          (u_records c))).
    { apply filter_In. split; [assumption|].
      rewrite Hm, He, String.eqb_refl, andb_true_r. apply key_eqb_eq. f_equal.
      destruct (UtilizationMetricRecord.Timestamp r); simpl in *; congruence. }
    apply (in_map UtilizationMetricRecord.Average) in Hin. rewrite E in Hin.
    contradiction.
  - intros H.
    destruct (filter _ (u_records c)) as [|r rest] eqn:E; [now contradiction H|].
    assert (Hin : In r (r :: rest)) by now left.
    rewrite <- E in Hin. apply filter_In in Hin. destruct Hin as [Hr Hc].
    exists r. split; [assumption|].
    apply andb_true_iff in Hc. destruct Hc as [Hk _]. apply key_eqb_eq in Hk.
    inversion Hk as [[Ht He]]. now rewrite Ht.
Qed.

Lemma invocation_reported (c : string) (ts : Z) :
  (exists r, In r (i_records c)
             /\ instant (InvocationMetricRecord.Timestamp r) = ts)
  <-> reported_values client (i_request c) ts <> [].
Proof.
  unfold i_request.
  rewrite <- (invocation_group client endpoint_name variant_name start_time
                end_time period ts c).
  fold i_records. unfold pd.group. split.
  - intros [r [Hr Hts]] E.
    destruct (invocation_records_fields _ _ _ _ _ _ c r Hr) as [Hm He].
    pose proof (invocation_records_tz _ _ _ _ _ _ c r Hr) as Hz.
    assert (Hin : In r (filter
                          (fun r => key_eqb (InvocationMetricRecord.Timestamp r,
                                             InvocationMetricRecord.EndpointName r)
                                            ({| instant := ts;
                                                tz := data_tzinfo client |},
                                             endpoint_name)
                                    && String.eqb (InvocationMetricRecord.MetricName r) c)
                          (i_records c))).
    { apply filter_In. split; [assumption|].
      rewrite Hm, He, String.eqb_refl, andb_true_r. apply key_eqb_eq. f_equal.
      destruct (InvocationMetricRecord.Timestamp r); simpl in *; congruence. }
    apply (in_map InvocationMetricRecord.Value) in Hin. rewrite E in Hin.
    contradiction.
  - intros H.
    destruct (filter _ (i_records c)) as [|r rest] eqn:E; [now contradiction H|].
    assert (Hin : In r (r :: rest)) by now left.
    rewrite <- E in Hin. apply filter_In in Hin. destruct Hin as [Hr Hc].
    exists r. split; [assumption|].
    apply andb_true_iff in Hc. destruct Hc as [Hk _]. apply key_eqb_eq in Hk.
    inversion Hk as [[Ht He]]. now rewrite Ht.
Qed.

(** The group of a record, among all the records of the collector, holds
    what the backend reported for its metric at its instant. *)
Lemma utilization_record_group (r : UtilizationMetricRecord.t) :
  In r (flat_map u_records metrics) ->
  pd.group u_index UtilizationMetricRecord.MetricName UtilizationMetricRecord.Average
           (flat_map u_records metrics) (u_index r)
           (UtilizationMetricRecord.MetricName r)
  = reported_averages client (u_request (UtilizationMetricRecord.MetricName r))
                      (instant (UtilizationMetricRecord.Timestamp r)).
Proof.
  intros Hr. apply in_flat_map in Hr. destruct Hr as [m [Hm Hr]].
  destruct (utilization_records_fields _ _ _ _ _ _ m r Hr) as [Hc He].
  pose proof (utilization_records_tz _ _ _ _ _ _ m r Hr) as Hz.
  rewrite group_flat_map.
  - unfold u_request.
    rewrite <- (utilization_group client endpoint_name variant_name start_time
                  end_time period).
    fold u_records. unfold u_index. rewrite He, <- Hz.
    now destruct (UtilizationMetricRecord.Timestamp r).
  - intros m' x Hx. now apply utilization_records_fields in Hx.
  - apply metrics_NoDup.
  - now rewrite Hc.
Qed.

Lemma invocation_record_group (r : InvocationMetricRecord.t) :
  In r (flat_map i_records metric_names) ->
  pd.group i_index InvocationMetricRecord.MetricName InvocationMetricRecord.Value
           (flat_map i_records metric_names) (i_index r)
           (InvocationMetricRecord.MetricName r)
  = reported_values client (i_request (InvocationMetricRecord.MetricName r))
                    (instant (InvocationMetricRecord.Timestamp r)).
Proof.
  intros Hr. apply in_flat_map in Hr. destruct Hr as [m [Hm Hr]].
  destruct (invocation_records_fields _ _ _ _ _ _ m r Hr) as [Hc He].
  pose proof (invocation_records_tz _ _ _ _ _ _ m r Hr) as Hz.
  rewrite group_flat_map.
  - unfold i_request.
    rewrite <- (invocation_group client endpoint_name variant_name start_time
                  end_time period).
    fold i_records. unfold i_index. rewrite He, <- Hz.
    now destruct (InvocationMetricRecord.Timestamp r).
  - intros m' x Hx. now apply invocation_records_fields in Hx.
  - apply metric_names_NoDup.
  - now rewrite Hc.
Qed.

(** What the backend reported for a metric at an instant has a mean exactly
    when a record of that metric at that instant is in a group that the
    pivot keeps. *)
Lemma utilization_observed (c : string) (ts : Z) :
  In c metrics ->
  (pd.mean (reported_averages client (u_request c) ts) <> None
   <-> exists r, In r (pd.observed u_index UtilizationMetricRecord.MetricName
                                   UtilizationMetricRecord.Average
                                   (flat_map u_records metrics))
                 /\ UtilizationMetricRecord.MetricName r = c
                 /\ instant (UtilizationMetricRecord.Timestamp r) = ts).
Proof.
  intros Hc. split.
  - intros Hmean.
    assert (Hrep : reported_averages client (u_request c) ts <> []).
    { intros E. apply Hmean. rewrite E. reflexivity. }
    apply utilization_reported in Hrep. destruct Hrep as [r [Hr Hts]].
    destruct (utilization_records_fields _ _ _ _ _ _ c r Hr) as [Hm _].
    exists r. split; [|auto]. apply observed_In.
    assert (Hin : In r (flat_map u_records metrics)) by (apply in_flat_map; eauto).
    split; [assumption|].
    rewrite (utilization_record_group r Hin), Hm, Hts. exact Hmean.
  - intros [r [Hr [Hm Hts]]]. apply observed_In in Hr. destruct Hr as [Hin Hmean].
    rewrite (utilization_record_group r Hin), Hm, Hts in Hmean. exact Hmean.
Qed.

Lemma invocation_observed (c : string) (ts : Z) :
  In c metric_names ->
  (pd.mean (reported_values client (i_request c) ts) <> None
   <-> exists r, In r (pd.observed i_index InvocationMetricRecord.MetricName
                                   InvocationMetricRecord.Value
                                   (flat_map i_records metric_names))
                 /\ InvocationMetricRecord.MetricName r = c
                 /\ instant (InvocationMetricRecord.Timestamp r) = ts).
Proof.
  intros Hc. split.
  - intros Hmean.
    assert (Hrep : reported_values client (i_request c) ts <> []).
    { intros E. apply Hmean. rewrite E. reflexivity. }
    apply invocation_reported in Hrep. destruct Hrep as [r [Hr Hts]].
    destruct (invocation_records_fields _ _ _ _ _ _ c r Hr) as [Hm _].
    exists r. split; [|auto]. apply observed_In.
    assert (Hin : In r (flat_map i_records metric_names))
      by (apply in_flat_map; eauto).
    split; [assumption|].
    rewrite (invocation_record_group r Hin), Hm, Hts. exact Hmean.
  - intros [r [Hr [Hm Hts]]]. apply observed_In in Hr. destruct Hr as [Hin Hmean].
    rewrite (invocation_record_group r Hin), Hm, Hts in Hmean. exact Hmean.
Qed.

(** The metric of an observed record is one of the collector's. *)
Lemma utilization_observed_metric (r : UtilizationMetricRecord.t) :
  In r (pd.observed u_index UtilizationMetricRecord.MetricName
                    UtilizationMetricRecord.Average (flat_map u_records metrics)) ->
  In (UtilizationMetricRecord.MetricName r) metrics.
Proof.
  intros Hr. apply observed_In in Hr. destruct Hr as [Hr _].
  apply in_flat_map in Hr. destruct Hr as [m [Hm Hr]].
  now rewrite (proj1 (utilization_records_fields _ _ _ _ _ _ m r Hr)).
Qed.

Lemma invocation_observed_metric (r : InvocationMetricRecord.t) :
  In r (pd.observed i_index InvocationMetricRecord.MetricName
                    InvocationMetricRecord.Value (flat_map i_records metric_names)) ->
  In (InvocationMetricRecord.MetricName r) metric_names.
Proof.
  intros Hr. apply observed_In in Hr. destruct Hr as [Hr _].
  apply in_flat_map in Hr. destruct Hr as [m [Hm Hr]].
  now rewrite (proj1 (invocation_records_fields _ _ _ _ _ _ m r Hr)).
Qed.

(** A returned table with a row is the pivot of the records. *)
Lemma utilization_populated (df : pd.DataFrame) :
  snd u_run = inr df -> pd.rows df <> [] ->
  df = pd.pivot_table u_index UtilizationMetricRecord.MetricName
                      UtilizationMetricRecord.Average (flat_map u_records metrics).
Proof.
  intros H Hrows. apply utilization_returns in H. fold u_records in H.
  unfold utilization_table in H.
  destruct (flat_map u_records metrics) as [|r0 data]; [now subst|exact H].
Qed.

Lemma invocation_populated (df : pd.DataFrame) :
  snd i_run = inr df -> pd.rows df <> [] ->
  df = pd.pivot_table i_index InvocationMetricRecord.MetricName
                      InvocationMetricRecord.Value (flat_map i_records metric_names).
Proof.
  intros H Hrows. apply invocation_returns in H. fold i_records in H.
  unfold invocation_table in H.
  destruct (flat_map i_records metric_names) as [|r0 data]; [now subst|exact H].
Qed.

(** The keys of a returned table are those of the records the pivot keeps. *)
Lemma utilization_keys (df : pd.DataFrame) (k : Key) :
  snd u_run = inr df ->
  (In k (map pd.key (pd.rows df))
   <-> In k (map u_index (pd.observed u_index UtilizationMetricRecord.MetricName
                                      UtilizationMetricRecord.Average
                                      (flat_map u_records metrics)))).
Proof.
  intros H. apply utilization_returns in H. fold u_records in H.
  unfold utilization_table in H.
  destruct (flat_map u_records metrics) as [|r0 data] eqn:E.
  - subst df. simpl. tauto.
  - subst df. fold u_index. rewrite pivot_keys. apply index_labels_In.
Qed.

Lemma invocation_keys (df : pd.DataFrame) (k : Key) :
  snd i_run = inr df ->
  (In k (map pd.key (pd.rows df))
   <-> In k (map i_index (pd.observed i_index InvocationMetricRecord.MetricName
                                      InvocationMetricRecord.Value
                                      (flat_map i_records metric_names)))).
Proof.
  intros H. apply invocation_returns in H. fold i_records in H.
  unfold invocation_table in H.
  destruct (flat_map i_records metric_names) as [|r0 data] eqn:E.
  - subst df. simpl. tauto.
  - subst df. fold i_index. rewrite pivot_keys. apply index_labels_In.
Qed.

(** The instants of the rows are the instants at which the values reported
    for some metric have a mean. *)
Lemma utilization_row_instants (df : pd.DataFrame) (ts : Z) :
  snd u_run = inr df ->
  (In ts (map (fun r => instant (pd.Timestamp r)) (pd.rows df))
   <-> exists c, In c metrics
                 /\ pd.mean (reported_averages client (u_request c) ts) <> None).
Proof.
  intros H. split.
  - rewrite in_map_iff. intros [r [<- Hr]].
    assert (Hk : In (pd.key r) (map pd.key (pd.rows df))) by now apply in_map.
    apply (utilization_keys df _ H) in Hk. apply in_map_iff in Hk.
    destruct Hk as [x [Hx Hobs]].
    pose proof (utilization_observed_metric x Hobs) as Hc.
    exists (UtilizationMetricRecord.MetricName x). split; [exact Hc|].
    apply utilization_observed; [exact Hc|]. exists x.
    split; [assumption|]. split; [reflexivity|].
    unfold u_index, pd.key in Hx. inversion Hx as [[Ht He]]. reflexivity.
  - intros [c [Hc Hmean]]. apply utilization_observed in Hmean; [|assumption].
    destruct Hmean as [x [Hobs [_ Hts]]].
    assert (Hk : In (u_index x) (map pd.key (pd.rows df)))
      by (apply (utilization_keys df _ H); now apply in_map).
    apply in_map_iff in Hk. destruct Hk as [r [Hr Hin]].
    apply in_map_iff. exists r. split; [|assumption].
    unfold pd.key, u_index in Hr. inversion Hr as [[Ht He]]. now rewrite Ht.
Qed.

Lemma invocation_row_instants (df : pd.DataFrame) (ts : Z) :
  snd i_run = inr df ->
  (In ts (map (fun r => instant (pd.Timestamp r)) (pd.rows df))
   <-> exists c, In c metric_names
                 /\ pd.mean (reported_values client (i_request c) ts) <> None).
Proof.
  intros H. split.
  - rewrite in_map_iff. intros [r [<- Hr]].
    assert (Hk : In (pd.key r) (map pd.key (pd.rows df))) by now apply in_map.
    apply (invocation_keys df _ H) in Hk. apply in_map_iff in Hk.
    destruct Hk as [x [Hx Hobs]].
    pose proof (invocation_observed_metric x Hobs) as Hc.
    exists (InvocationMetricRecord.MetricName x). split; [exact Hc|].
    apply invocation_observed; [exact Hc|]. exists x.
    split; [assumption|]. split; [reflexivity|].
    unfold i_index, pd.key in Hx. inversion Hx as [[Ht He]]. reflexivity.
  - intros [c [Hc Hmean]]. apply invocation_observed in Hmean; [|assumption].
    destruct Hmean as [x [Hobs [_ Hts]]].
    assert (Hk : In (i_index x) (map pd.key (pd.rows df)))
      by (apply (invocation_keys df _ H); now apply in_map).
    apply in_map_iff in Hk. destruct Hk as [r [Hr Hin]].
    apply in_map_iff. exists r. split; [|assumption].
    unfold pd.key, i_index in Hr. inversion Hr as [[Ht He]]. now rewrite Ht.
Qed.

(** The value columns of a table with a row: the metrics some of whose
    values have a mean, each once, in alphabetical order. *)
Lemma utilization_value_columns (df : pd.DataFrame) :
  snd u_run = inr df -> pd.rows df <> [] ->
  pd.columns df = "Timestamp" :: "EndpointName" :: pd.value_columns df
  /\ NoDup (pd.value_columns df)
  /\ Sorted (fun a b => String.leb a b = true) (pd.value_columns df)
  /\ forall c, In c (pd.value_columns df)
               <-> In c metrics
                   /\ exists ts, pd.mean (reported_averages client (u_request c) ts)
                                 <> None.
Proof.
  intros H Hrows.
  destruct (utilization_wide _ _ _ _ _ _ df H) as [cols [Hc [Hincl _]]].
  rewrite (value_columns_wide metrics df cols Hc Hincl metrics_not_keys).
  split; [exact Hc|].
  rewrite (utilization_populated df H Hrows) in Hc.
  cbn [pd.pivot_table pd.columns] in Hc.
  assert (Hcols : cols = pd.column_labels u_index UtilizationMetricRecord.MetricName
                           UtilizationMetricRecord.Average
                           (flat_map u_records metrics)) by congruence.
  rewrite Hcols. clear Hc Hcols.
  split; [apply sort_NoDup, NoDup_nodup|].
  split; [apply sort_sorted, String.leb_total|].
  intros c. rewrite column_labels_In, in_map_iff. split.
  - intros [r [<- Hobs]]. pose proof (utilization_observed_metric r Hobs) as Hm.
    split; [exact Hm|]. exists (instant (UtilizationMetricRecord.Timestamp r)).
    apply utilization_observed; [exact Hm|]. exists r. auto.
  - intros [Hm [ts Hmean]]. apply utilization_observed in Hmean; [|assumption].
    destruct Hmean as [r [Hobs [Hc _]]]. eauto.
Qed.

Lemma invocation_value_columns (df : pd.DataFrame) :
  snd i_run = inr df -> pd.rows df <> [] ->
  pd.columns df = "Timestamp" :: "EndpointName" :: pd.value_columns df
  /\ NoDup (pd.value_columns df)
  /\ Sorted (fun a b => String.leb a b = true) (pd.value_columns df)
  /\ forall c, In c (pd.value_columns df)
               <-> In c metric_names
                   /\ exists ts, pd.mean (reported_values client (i_request c) ts)
                                 <> None.
Proof.
  intros H Hrows.
  destruct (invocation_wide _ _ _ _ _ _ df H) as [cols [Hc [Hincl _]]].
  rewrite (value_columns_wide metric_names df cols Hc Hincl metric_names_not_keys).
  split; [exact Hc|].
  rewrite (invocation_populated df H Hrows) in Hc.
  cbn [pd.pivot_table pd.columns] in Hc.
  assert (Hcols : cols = pd.column_labels i_index InvocationMetricRecord.MetricName
                           InvocationMetricRecord.Value
                           (flat_map i_records metric_names)) by congruence.
  rewrite Hcols. clear Hc Hcols.
  split; [apply sort_NoDup, NoDup_nodup|].
  split; [apply sort_sorted, String.leb_total|].
  intros c. rewrite column_labels_In, in_map_iff. split.
  - intros [r [<- Hobs]]. pose proof (invocation_observed_metric r Hobs) as Hm.
    split; [exact Hm|]. exists (instant (InvocationMetricRecord.Timestamp r)).
    apply invocation_observed; [exact Hm|]. exists r. auto.
  - intros [Hm [ts Hmean]]. apply invocation_observed in Hmean; [|assumption].
    destruct Hmean as [r [Hobs [Hc _]]]. eauto.
Qed.
End TableShape.

(** The rows of a pivot whose records all name one endpoint and hold
    datetimes of one kind come in strictly increasing order of their
    instants. *)
Lemma pivot_rows_increasing {R : Type} (index : R -> Key) (column : R -> string)
    (value : R -> float) (data : list R) (e : string) (z : tzinfo) :
  (forall r, In r data -> snd (index r) = e /\ tz (fst (index r)) = z) ->
  StronglySorted (fun a b => pd.Timestamp a < pd.Timestamp b)
                 (pd.rows (pd.pivot_table index column value data)).
Proof.
  intros He. apply Sorted_StronglySorted.
  { intros a b c. apply Z.lt_trans. }
  unfold pd.pivot_table. cbn [pd.rows].
  apply Sorted_map with (R := fun a b => key_leb a b = true /\ a <> b).
  - intros a b Ha Hb [Hle Hne]. cbn [pd.Timestamp].
    apply index_labels_data, in_map_iff in Ha. destruct Ha as [ra [<- Hra]].
    apply index_labels_data, in_map_iff in Hb. destruct Hb as [rb [<- Hrb]].
    destruct (He ra Hra) as [Ea Za]. destruct (He rb Hrb) as [Eb Zb].
    destruct (index ra) as [[ia za] ea], (index rb) as [[ib zb] eb].
    simpl in *. subst.
    unfold key_leb, datetime_ltb, datetime_eqb in Hle. simpl in Hle.
    apply orb_true_iff in Hle. destruct Hle as [Hlt|Heq].
    + apply orb_true_iff in Hlt. destruct Hlt as [Hlt|Hlt]; [now apply Z.ltb_lt|].
      apply andb_true_iff in Hlt. destruct Hlt as [_ Hlt].
      match type of Hlt with
      | context [match ?t with _ => _ end] => destruct t
      end; discriminate.
    + apply andb_true_iff in Heq. destruct Heq as [Heq _].
      apply andb_true_iff in Heq. destruct Heq as [Heq _].
      apply Z.eqb_eq in Heq. subst. now contradiction Hne.
  - apply Sorted_NoDup_strict; [|apply index_labels_NoDup].
    unfold pd.index_labels. apply sort_sorted, key_leb_total.
Qed.

Section TableOrder.
Variable client : CloudWatch.
Variables endpoint_name variant_name : string.
Variables start_time end_time : datetime.
Variable period : Z.

Let u_records := utilization_records client endpoint_name variant_name
                                     start_time end_time period.
Let i_records := invocation_records client endpoint_name variant_name
                                    start_time end_time period.
Let u_run := _get_endpoint_utilization_metrics client endpoint_name variant_name
                                               start_time end_time period.
Let i_run := _get_endpoint_invocation_metrics client endpoint_name variant_name
                                              start_time end_time period.

Lemma utilization_rows_increasing (df : pd.DataFrame) :
  snd u_run = inr df ->
  StronglySorted (fun a b => pd.Timestamp a < pd.Timestamp b) (pd.rows df).
Proof.
  intros H. apply utilization_returns in H. fold u_records in H. subst df.
  unfold utilization_table.
  destruct (flat_map u_records metrics) as [|r0 data] eqn:E; [constructor|].
  rewrite <- E.
  apply pivot_rows_increasing with (e := endpoint_name) (z := statistics_tzinfo client).
  intros r Hr. apply in_flat_map in Hr. destruct Hr as [m [_ Hr]]. split.
  - now apply utilization_records_fields in Hr.
  - now apply utilization_records_tz in Hr.
Qed.

Lemma invocation_rows_increasing (df : pd.DataFrame) :
  snd i_run = inr df ->
  StronglySorted (fun a b => pd.Timestamp a < pd.Timestamp b) (pd.rows df).
Proof.
  intros H. apply invocation_returns in H. fold i_records in H. subst df.
  unfold invocation_table.
  destruct (flat_map i_records metric_names) as [|r0 data] eqn:E; [constructor|].
  rewrite <- E.
  apply pivot_rows_increasing with (e := endpoint_name) (z := data_tzinfo client).
  intros r Hr. apply in_flat_map in Hr. destruct Hr as [m [_ Hr]]. split.
  - now apply invocation_records_fields in Hr.
  - now apply invocation_records_tz in Hr.
Qed.
End TableOrder.

(** ** The mean of a group *)

(** A mean is never NaN, and there is one only if some value is not NaN. *)
Lemma mean_Some (l : list float) (x : float) :
  pd.mean l = Some x ->
  is_nan x = false /\ exists a, In a l /\ is_nan a = false.
Proof.
  unfold pd.mean.
  destruct (filter (fun val => negb (is_nan val)) l) as [|a rest] eqn:E;
    [discriminate|].
  destruct (is_nan (pd.sum (a :: rest) / pd.count (a :: rest))) eqn:En;
    [discriminate|].
  intros H. inversion H. subst x. split; [exact En|].
  assert (Ha : In a (filter (fun val => negb (is_nan val)) l))
    by (rewrite E; now left).
  apply filter_In in Ha. destruct Ha as [Ha Hn]. exists a. split; [exact Ha|].
  now apply negb_true_iff.
Qed.

(** Values that are all NaN have no mean; in particular no value has none. *)
Lemma mean_all_nan (l : list float) :
  (forall a, In a l -> is_nan a = true) -> pd.mean l = None.
Proof.
  intros H. unfold pd.mean.
  destruct (filter (fun val => negb (is_nan val)) l) as [|a rest] eqn:E;
    [reflexivity|].
  assert (Ha : In a (filter (fun val => negb (is_nan val)) l))
    by (rewrite E; now left).
  apply filter_In in Ha. destruct Ha as [Ha Hn].
  rewrite (H a Ha) in Hn. discriminate.
Qed.

(** ** X6, X7, X8: what a collector's table holds *)

(** X6.  The columns of a populated table are never the fixed list of the
    empty table: after Timestamp and EndpointName come exactly the metrics
    for which, at some instant, the values the backend reported have a mean,
    each once and in alphabetical order.  A metric without any datapoint in
    the window, or whose datapoints are all NaN, has no column. *)
Theorem populated_table_columns (client : CloudWatch)
    (endpoint_name variant_name : string) (start_time end_time : datetime)
    (period : Z) :
  (forall df,
     snd (_get_endpoint_utilization_metrics client endpoint_name variant_name
            start_time end_time period) = inr df ->
     pd.empty df = false ->
     pd.columns df = "Timestamp" :: "EndpointName" :: pd.value_columns df
     /\ NoDup (pd.value_columns df)
     /\ Sorted (fun a b => String.leb a b = true) (pd.value_columns df)
     /\ forall c, In c (pd.value_columns df)
                  <-> In c metrics
                      /\ exists ts : Z,
                           pd.mean (reported_averages client
                                      (utilization_request endpoint_name variant_name
                                         start_time end_time period c) ts) <> None)
  /\ (forall df,
        snd (_get_endpoint_invocation_metrics client endpoint_name variant_name
               start_time end_time period) = inr df ->
        pd.empty df = false ->
        pd.columns df = "Timestamp" :: "EndpointName" :: pd.value_columns df
        /\ NoDup (pd.value_columns df)
        /\ Sorted (fun a b => String.leb a b = true) (pd.value_columns df)
        /\ forall c, In c (pd.value_columns df)
                     <-> In c metric_names
                         /\ exists ts : Z,
                              pd.mean (reported_values client
                                         (invocation_request endpoint_name variant_name
                                            start_time end_time period c) ts) <> None).
Proof.
  split; intros df H He; apply empty_false in He; destruct He as [_ Hrows].
  - now apply utilization_value_columns.
  - now apply invocation_value_columns.
Qed.

Lemma populated_table_columns_witness :
  let df := {| pd.columns := ["Timestamp"; "EndpointName"; "CPUUtilization"];
               pd.rows := [ {| pd.Timestamp := 60; pd.EndpointName := "ep-1";
                               pd.values := [Some 42%float] |} ] |} in
  snd (_get_endpoint_utilization_metrics Sample.partly_nan "ep-1" "v1" 0 300 60)
  = inr df
  /\ reported_averages Sample.partly_nan
       (utilization_request "ep-1" "v1" 0 300 60 "MemoryUtilization") 60 = [nan]
  /\ ~ In "MemoryUtilization" (pd.value_columns df)
  /\ (forall c, In c (pd.value_columns df)
                <-> In c metrics
                    /\ exists ts : Z,
                         pd.mean (reported_averages Sample.partly_nan
                                    (utilization_request "ep-1" "v1" 0 300 60 c) ts)
                         <> None).
Proof.
  intros df.
  assert (H : snd (_get_endpoint_utilization_metrics Sample.partly_nan
                     "ep-1" "v1" 0 300 60) = inr df) by (vm_compute; reflexivity).
  split; [exact H|]. split; [reflexivity|].
  split; [simpl; intuition discriminate|].
  apply (proj1 (populated_table_columns Sample.partly_nan "ep-1" "v1" 0 300 60) df H).
  reflexivity.
Defined.

(** X7.  The rows of a table a collector returns: every row carries the
    endpoint name the collector was called with and a datetime of the kind
    its operation returns; the rows come in strictly increasing order of
    their timestamps, so there is one row per instant; and the instants of
    the rows are exactly the instants at which the values the backend
    reported for some metric of the collector have a mean.  No row is made
    up; an instant at which every value reported is NaN has no row. *)
Theorem collector_table_rows (client : CloudWatch)
    (endpoint_name variant_name : string) (start_time end_time : datetime)
    (period : Z) :
  (forall df,
     snd (_get_endpoint_utilization_metrics client endpoint_name variant_name
            start_time end_time period) = inr df ->
     Forall (fun r => pd.EndpointName r = endpoint_name
                      /\ tz (pd.Timestamp r) = statistics_tzinfo client) (pd.rows df)
     /\ StronglySorted (fun a b => pd.Timestamp a < pd.Timestamp b) (pd.rows df)
     /\ forall ts : Z,
          In ts (map (fun r => instant (pd.Timestamp r)) (pd.rows df))
          <-> exists c, In c metrics
                        /\ pd.mean (reported_averages client
                                      (utilization_request endpoint_name variant_name
                                         start_time end_time period c) ts) <> None)
  /\ (forall df,
        snd (_get_endpoint_invocation_metrics client endpoint_name variant_name
               start_time end_time period) = inr df ->
        Forall (fun r => pd.EndpointName r = endpoint_name
                         /\ tz (pd.Timestamp r) = data_tzinfo client) (pd.rows df)
        /\ StronglySorted (fun a b => pd.Timestamp a < pd.Timestamp b) (pd.rows df)
        /\ forall ts : Z,
             In ts (map (fun r => instant (pd.Timestamp r)) (pd.rows df))
             <-> exists c, In c metric_names
                           /\ pd.mean (reported_values client
                                         (invocation_request endpoint_name variant_name
                                            start_time end_time period c) ts) <> None).
Proof.
  split; intros df H; (split; [|split]).
  - apply Forall_forall. intros r Hr. split.
    + exact (proj1 (utilization_cells _ _ _ _ _ _ df r H Hr)).
    + exact (utilization_rows_tz _ _ _ _ _ _ df r H Hr).
  - now apply utilization_rows_increasing in H.
  - intros ts. now apply utilization_row_instants.
  - apply Forall_forall. intros r Hr. split.
    + exact (proj1 (invocation_cells _ _ _ _ _ _ df r H Hr)).
    + exact (invocation_rows_tz _ _ _ _ _ _ df r H Hr).
  - now apply invocation_rows_increasing in H.
  - intros ts. now apply invocation_row_instants.
Qed.

Lemma collector_table_rows_witness :
  let df := {| pd.columns := ["Timestamp"; "EndpointName"; "CPUUtilization"];
               pd.rows := [ {| pd.Timestamp := 60; pd.EndpointName := "ep-1";
                               pd.values := [Some 42%float] |} ] |} in
  snd (_get_endpoint_utilization_metrics Sample.partly_nan "ep-1" "v1" 0 300 60)
  = inr df
  /\ reported_averages Sample.partly_nan
       (utilization_request "ep-1" "v1" 0 300 60 "CPUUtilization") 120 = [nan]
  /\ StronglySorted (fun a b => pd.Timestamp a < pd.Timestamp b) (pd.rows df)
  /\ (In 60 (map (fun r => instant (pd.Timestamp r)) (pd.rows df))
      <-> exists c, In c metrics
                    /\ pd.mean (reported_averages Sample.partly_nan
                                  (utilization_request "ep-1" "v1" 0 300 60 c) 60)
                       <> None)
  /\ ~ (exists c, In c metrics
                  /\ pd.mean (reported_averages Sample.partly_nan
                                (utilization_request "ep-1" "v1" 0 300 60 c) 120)
                     <> None).
Proof.
  intros df.
  assert (H : snd (_get_endpoint_utilization_metrics Sample.partly_nan
                     "ep-1" "v1" 0 300 60) = inr df) by (vm_compute; reflexivity).
  split; [exact H|]. split; [reflexivity|].
  destruct (proj1 (collector_table_rows Sample.partly_nan "ep-1" "v1" 0 300 60) df H)
    as [_ [Hsorted Hinstants]].
  split; [exact Hsorted|]. split; [apply Hinstants|].
  intros Hex. apply Hinstants in Hex. simpl in Hex. intuition discriminate.
Defined.

(** X8.  A cell of a collector's table is the mean of the values the backend
    reported for its column at the instant of its row.  It is never NaN: it
    holds a number only if the backend reported there a value that is not
    NaN, and it is missing whenever the backend reported there no value or
    nothing but NaN (never a zero standing for an absent datapoint). *)
Theorem collector_table_cells (client : CloudWatch)
    (endpoint_name variant_name : string) (start_time end_time : datetime)
    (period : Z) :
  (forall df r j c,
     snd (_get_endpoint_utilization_metrics client endpoint_name variant_name
            start_time end_time period) = inr df ->
     In r (pd.rows df) ->
     nth_error (pd.value_columns df) j = Some c ->
     let reported := reported_averages client
                       (utilization_request endpoint_name variant_name
                          start_time end_time period c) (pd.Timestamp r) in
     exists cell,
       nth_error (pd.values r) j = Some cell
       /\ cell = pd.mean reported
       /\ (forall x, cell = Some x ->
             is_nan x = false /\ exists a, In a reported /\ is_nan a = false)
       /\ ((forall a, In a reported -> is_nan a = true) -> cell = None))
  /\ (forall df r j c,
        snd (_get_endpoint_invocation_metrics client endpoint_name variant_name
               start_time end_time period) = inr df ->
        In r (pd.rows df) ->
        nth_error (pd.value_columns df) j = Some c ->
        let reported := reported_values client
                          (invocation_request endpoint_name variant_name
                             start_time end_time period c) (pd.Timestamp r) in
        exists cell,
          nth_error (pd.values r) j = Some cell
          /\ cell = pd.mean reported
          /\ (forall x, cell = Some x ->
                is_nan x = false /\ exists a, In a reported /\ is_nan a = false)
          /\ ((forall a, In a reported -> is_nan a = true) -> cell = None)).
Proof.
  split; intros df r j c H Hr Hc reported.
  - destruct (utilization_cells _ _ _ _ _ _ df r H Hr) as [_ Hv].
    exists (pd.mean reported). split; [|split; [reflexivity|split]].
    + rewrite Hv, nth_error_map, Hc. reflexivity.
    + apply mean_Some.
    + apply mean_all_nan.
  - destruct (invocation_cells _ _ _ _ _ _ df r H Hr) as [_ Hv].
    exists (pd.mean reported). split; [|split; [reflexivity|split]].
    + rewrite Hv, nth_error_map, Hc. reflexivity.
    + apply mean_Some.
    + apply mean_all_nan.
Qed.

Lemma collector_table_cells_witness :
  let r := {| pd.Timestamp := 120; pd.EndpointName := "ep-1";
              pd.values := [Some 50%float; None] |} in
  let df := {| pd.columns := ["Timestamp"; "EndpointName";
                              "CPUUtilization"; "MemoryUtilization"];
               pd.rows := [ {| pd.Timestamp := 60; pd.EndpointName := "ep-1";
                               pd.values := [Some 42%float; Some 70%float] |}; r ] |} in
  let reported := reported_averages Sample.nan_cell
                    (utilization_request "ep-1" "v1" 0 300 60 "MemoryUtilization")
                    120 in
  snd (_get_endpoint_utilization_metrics Sample.nan_cell "ep-1" "v1" 0 300 60) = inr df
  /\ reported = [nan]
  /\ nth_error (pd.values r) 1 = Some None.
Proof.
  intros r df reported.
  assert (H : snd (_get_endpoint_utilization_metrics Sample.nan_cell
                     "ep-1" "v1" 0 300 60) = inr df) by (vm_compute; reflexivity).
  split; [exact H|]. split; [reflexivity|].
  destruct (proj1 (collector_table_cells Sample.nan_cell "ep-1" "v1" 0 300 60)
                  df r 1%nat "MemoryUtilization" H)
    as [cell [Hcell [_ [_ Hnan]]]].
  - right. left. reflexivity.
  - reflexivity.
  - rewrite Hcell. f_equal. apply Hnan.
    intros a [<-|[]]. reflexivity.
Defined.

(** ** The join of two tables with unique keys *)

Lemma NoDup_map_filter {A B : Type} (f : A -> B) (P : A -> bool) (l : list A) :
  NoDup (map f l) -> NoDup (map f (filter P l)).
Proof.
  induction l as [|x l IH]; intros H; simpl; [constructor|].
  inversion H as [|? ? Hnot Hnd]. subst.
  destruct (P x); simpl; [|auto]. constructor; [|auto].
  intros Hin. apply Hnot. apply in_map_iff in Hin. destruct Hin as [y [Hy Hin]].
  apply filter_In in Hin. apply in_map_iff. exists y. tauto.
Qed.

Lemma NoDup_map_injective {A B : Type} (f : A -> B) (l : list A) (a b : A) :
  NoDup (map f l) -> In a l -> In b l -> f a = f b -> a = b.
Proof.
  induction l as [|x l IH]; intros H Ha Hb E; [contradiction|].
  simpl in H. inversion H as [|? ? Hnot Hnd]. subst.
  destruct Ha as [->|Ha], Hb as [->|Hb]; auto.
  - exfalso. apply Hnot. rewrite E. now apply in_map.
  - exfalso. apply Hnot. rewrite <- E. now apply in_map.
Qed.

Lemma filter_partition_length {A : Type} (P : A -> bool) (l : list A) :
  (length (filter P l) + length (filter (fun x => negb (P x)) l) = length l)%nat.
Proof.
  induction l as [|x l IH]; simpl; [reflexivity|].
  destruct (P x); simpl; lia.
Qed.

(** With unique keys on the right, a key has at most one match. *)
Lemma matches_at_most_one (k : Key) (l : list pd.Row) :
  NoDup (map pd.key l) ->
  pd.matches k l = [] \/ exists x, pd.matches k l = [x].
Proof.
  induction l as [|y l IH]; intros H; [now left|].
  simpl in H. inversion H as [|? ? Hnot Hnd]. subst.
  unfold pd.matches in *. simpl. destruct (key_eqb (pd.key y) k) eqn:E.
  - right. exists y. f_equal. apply key_eqb_eq in E. subst k.
    fold (pd.matches (pd.key y) l). now apply matches_nil.
  - auto.
Qed.

Section UniqueJoin.
Variables (nl nr : nat) (left_rows right_rows : list pd.Row).
Hypothesis right_unique : NoDup (map pd.key right_rows).
Hypothesis left_unique : NoDup (map pd.key left_rows).

Lemma join_left_single (l : pd.Row) :
  exists r, pd.join_left nr right_rows l = [r] /\ pd.key r = pd.key l.
Proof.
  unfold pd.join_left.
  destruct (matches_at_most_one (pd.key l) right_rows right_unique) as [->|[x ->]];
    eexists; split; reflexivity.
Qed.

Lemma joined_keys_list (rows : list pd.Row) :
  map pd.key (flat_map (pd.join_left nr right_rows) rows) = map pd.key rows.
Proof.
  induction rows as [|l rest IH]; [reflexivity|]. simpl.
  destruct (join_left_single l) as [r [-> Hk]]. simpl. now rewrite Hk, IH.
Qed.

Lemma joined_length (rows : list pd.Row) :
  length (flat_map (pd.join_left nr right_rows) rows) = length rows.
Proof.
  rewrite <- (length_map pd.key), joined_keys_list. apply length_map.
Qed.

Lemma added_keys_list :
  map pd.key (pd.right_only nl left_rows right_rows)
  = map pd.key (filter (fun r => match pd.matches (pd.key r) left_rows with
                                 | [] => true
                                 | _ => false
                                 end) right_rows).
Proof. unfold pd.right_only. rewrite map_map. reflexivity. Qed.

(** The rows of the join have pairwise distinct keys. *)
Lemma join_keys_NoDup :
  NoDup (map pd.key (pd.sort_rows
                       (flat_map (pd.join_left nr right_rows) left_rows
                        ++ pd.right_only nl left_rows right_rows))).
Proof.
  eapply Permutation_NoDup.
  { apply Permutation_map. unfold pd.sort_rows. apply sort_perm. }
  rewrite map_app, joined_keys_list, added_keys_list. apply NoDup_app.
  - exact left_unique.
  - now apply NoDup_map_filter.
  - intros k Hl Hr. apply in_map_iff in Hr. destruct Hr as [x [<- Hx]].
    apply filter_In in Hx. destruct Hx as [_ Hx].
    destruct (pd.matches (pd.key x) left_rows) eqn:E; [|discriminate].
    apply matches_nil in E. contradiction.
Qed.
End UniqueJoin.

Section OneEndpoint.
Variable e : string.
Variables left_rows right_rows : list pd.Row.
Hypothesis left_endpoint : Forall (fun r => pd.EndpointName r = e) left_rows.
Hypothesis right_endpoint : Forall (fun r => pd.EndpointName r = e) right_rows.
Variable z : tzinfo.
Hypothesis left_tz : Forall (fun r => tz (pd.Timestamp r) = z) left_rows.
Hypothesis right_tz : Forall (fun r => tz (pd.Timestamp r) = z) right_rows.

(** Datetimes of one kind are equal when their instants are. *)
Lemma same_kind_same_instant (l x : pd.Row) :
  In l left_rows -> In x right_rows ->
  (pd.Timestamp l = pd.Timestamp x
   <-> instant (pd.Timestamp l) = instant (pd.Timestamp x)).
Proof.
  intros Hl Hx. rewrite Forall_forall in left_tz, right_tz.
  pose proof (left_tz l Hl) as Zl. pose proof (right_tz x Hx) as Zx.
  destruct (pd.Timestamp l) as [il zl], (pd.Timestamp x) as [ix zx].
  simpl in *. split; [intros H; now inversion H | intros ->; congruence].
Qed.

Lemma same_instant_same_key (l x : pd.Row) :
  In l left_rows -> In x right_rows ->
  (pd.key l = pd.key x <-> pd.Timestamp l = pd.Timestamp x).
Proof.
  intros Hl Hx. rewrite Forall_forall in left_endpoint, right_endpoint.
  unfold pd.key. rewrite (left_endpoint l Hl), (right_endpoint x Hx).
  split; [intros H; now inversion H | intros ->; reflexivity].
Qed.

(** A right row is unmatched exactly when no left row has its instant. *)
Lemma unmatched_by_instant (x : pd.Row) :
  In x right_rows ->
  match pd.matches (pd.key x) left_rows with [] => true | _ => false end
  = negb (existsb (fun l => pd.Timestamp l =? pd.Timestamp x) left_rows).
Proof.
  intros Hx. destruct (pd.matches (pd.key x) left_rows) as [|l rest] eqn:E.
  - symmetry. apply negb_true_iff. apply not_true_is_false. intros H.
    apply existsb_exists in H. destruct H as [l [Hl Hts]]. apply Z.eqb_eq in Hts.
    apply matches_nil in E. apply E. apply in_map_iff. exists l.
    split; [|assumption]. apply same_instant_same_key; try assumption.
    now apply same_kind_same_instant.
  - symmetry. apply negb_false_iff. apply existsb_exists.
    assert (Hl : In l (pd.matches (pd.key x) left_rows)) by (rewrite E; now left).
    apply matches_In in Hl. destruct Hl as [Hl Hk]. exists l. split; [assumption|].
    apply Z.eqb_eq. apply same_kind_same_instant; try assumption.
    now apply same_instant_same_key.
Qed.
End OneEndpoint.

(** One endpoint and distinct keys: distinct instants. *)
Lemma instants_NoDup (e : string) (rows : list pd.Row) :
  Forall (fun r => pd.EndpointName r = e) rows ->
  NoDup (map pd.key rows) -> NoDup (map pd.Timestamp rows).
Proof.
  intros He Hk. apply (NoDup_map_inv (fun ts => (ts, e))).
  rewrite map_map.
  replace (map (fun r => (pd.Timestamp r, e)) rows) with (map pd.key rows);
    [assumption|].
  apply map_ext_in. intros r Hr. rewrite Forall_forall in He.
  unfold pd.key. now rewrite (He r Hr).
Qed.

(** X9.  The table joined from two non-empty collector tables has one row
    per instant: its timestamps are pairwise distinct and every row carries
    the endpoint name of the request.  An instant present in both tables
    gives a single row, which holds the cells of the utilization row followed
    by the cells of the invocation row; so the number of rows is the number
    of rows of the two tables less the number of instants they share. *)
Theorem merged_table_rows (client : CloudWatch) (params : P.t)
    (u i m : pd.DataFrame) :
  snd (_get_endpoint_utilization_metrics client (endpoint_name params)
         (variant_name params) (start_time params) (end_time params)
         (period params)) = inr u ->
  snd (_get_endpoint_invocation_metrics client (endpoint_name params)
         (variant_name params) (start_time params) (end_time params)
         (period params)) = inr i ->
  pd.empty u = false ->
  pd.empty i = false ->
  snd (get_endpoint_metrics client params) = inr (Some m) ->
  NoDup (map pd.Timestamp (pd.rows m))
  /\ Forall (fun r => pd.EndpointName r = endpoint_name params) (pd.rows m)
  /\ (length (pd.rows m)
      + length (filter (fun x => existsb (fun l => (pd.Timestamp l =? pd.Timestamp x)%Z)
                                         (pd.rows u))
                       (pd.rows i))
      = length (pd.rows u) + length (pd.rows i))%nat
  /\ (forall r l x,
        In r (pd.rows m) -> In l (pd.rows u) -> In x (pd.rows i) ->
        pd.Timestamp l = pd.Timestamp r -> pd.Timestamp x = pd.Timestamp r ->
        pd.values r = pd.values l ++ pd.values x).
Proof.
  intros Hu Hi Eu Ei Hm.
  destruct (utilization_wide _ _ _ _ _ _ u Hu) as [cu [Hcu [_ [_ Hku]]]].
  destruct (invocation_wide _ _ _ _ _ _ i Hi) as [ci [Hci [_ [_ Hki]]]].
  assert (Heu : Forall (fun r => pd.EndpointName r = endpoint_name params) (pd.rows u)).
  { apply Forall_forall. intros r Hr.
    exact (proj1 (utilization_cells _ _ _ _ _ _ u r Hu Hr)). }
  assert (Hei : Forall (fun r => pd.EndpointName r = endpoint_name params) (pd.rows i)).
  { apply Forall_forall. intros r Hr.
    exact (proj1 (invocation_cells _ _ _ _ _ _ i r Hi Hr)). }
  assert (Hzu : Forall (fun r => tz (pd.Timestamp r) = statistics_tzinfo client)
                       (pd.rows u)).
  { apply Forall_forall. intros r Hr.
    exact (utilization_rows_tz _ _ _ _ _ _ u r Hu Hr). }
  assert (Hzi : Forall (fun r => tz (pd.Timestamp r) = statistics_tzinfo client)
                       (pd.rows i)).
  { apply Forall_forall. intros r Hr.
    rewrite (invocation_rows_tz _ _ _ _ _ _ i r Hi Hr).
    rewrite get_endpoint_metrics_outcome, Hu, Hi, Eu, Ei in Hm. simpl in Hm.
    rewrite (collectors_merge client _ _ _ _ _ u i Hu Hi Eu Ei) in Hm.
    destruct (tzinfo_eqb _ _) eqn:Ez; [|discriminate].
    symmetry. now apply tzinfo_eqb_eq. }
  rewrite get_endpoint_metrics_outcome, Hu, Hi, Eu, Ei in Hm. simpl in Hm.
  destruct (pd.merge_outer u i) as [err|m'] eqn:Em'; [discriminate|].
  destruct (merge_outer_returns u i m' cu ci Hcu Hci Em') as [_ Em].
  rewrite Em in Hm. inversion Hm as [Em'']. clear Hm.
  cbn [pd.rows].
  set (nr := length (pd.value_columns i)).
  set (nl := length (pd.value_columns u)).
  assert (Hrows : forall r,
            In r (pd.sort_rows (flat_map (pd.join_left nr (pd.rows i)) (pd.rows u)
                                ++ pd.right_only nl (pd.rows u) (pd.rows i)))
            <-> In r (flat_map (pd.join_left nr (pd.rows i)) (pd.rows u))
                \/ In r (pd.right_only nl (pd.rows u) (pd.rows i))).
  { intros r. unfold pd.sort_rows. now rewrite sort_In, in_app_iff. }
  assert (Hem : Forall (fun r => pd.EndpointName r = endpoint_name params)
                       (pd.sort_rows
                          (flat_map (pd.join_left nr (pd.rows i)) (pd.rows u)
                           ++ pd.right_only nl (pd.rows u) (pd.rows i)))).
  { apply Forall_forall. intros r Hr. apply Hrows in Hr.
    rewrite Forall_forall in Heu, Hei. destruct Hr as [Hr|Hr].
    - apply joined_In in Hr. destruct Hr as [l [Hl [Hk _]]].
      unfold pd.key in Hk. inversion Hk. rewrite <- (Heu l Hl). congruence.
    - apply added_In in Hr. destruct Hr as [x [Hx [Hk _]]].
      unfold pd.key in Hk. inversion Hk. rewrite <- (Hei x Hx). congruence. }
  split; [|split; [exact Hem|split]].
  - apply (instants_NoDup (endpoint_name params)); [exact Hem|].
    now apply join_keys_NoDup.
  - unfold pd.sort_rows. rewrite sort_length, length_app.
    rewrite (joined_length nr (pd.rows i) Hki).
    unfold pd.right_only. rewrite length_map.
    rewrite (filter_ext_in _ _ _
               (unmatched_by_instant (endpoint_name params) (pd.rows u) (pd.rows i)
                                     Heu Hei (statistics_tzinfo client) Hzu Hzi)).
    pose proof (filter_partition_length
                  (fun x => existsb (fun l => pd.Timestamp l =? pd.Timestamp x)
                                    (pd.rows u)) (pd.rows i)).
    lia.
  - intros r l x Hr Hl Hx Hlr Hxr. apply Hrows in Hr.
    assert (Hlx : pd.key l = pd.key x).
    { apply (same_instant_same_key (endpoint_name params) (pd.rows u) (pd.rows i));
        try assumption. congruence. }
    rewrite Forall_forall in Hem, Heu.
    destruct Hr as [Hr|Hr].
    + apply joined_In in Hr. destruct Hr as [l' [Hl' [Hk Hcase]]].
      assert (l' = l).
      { apply (NoDup_map_injective pd.key (pd.rows u)); try assumption.
        unfold pd.key in Hk |- *. injection Hk as Ht _.
        rewrite (Heu l Hl), (Heu l' Hl'). f_equal. congruence. }
      subst l'. destruct Hcase as [[Hnot _]|[x' [Hx' [Hkx Hv]]]].
      * exfalso. apply Hnot. rewrite Hlx. now apply in_map.
      * assert (x' = x).
        { apply (NoDup_map_injective pd.key (pd.rows i)); try assumption.
          congruence. }
        now subst x'.
    + apply added_In in Hr. destruct Hr as [x' [Hx' [Hk [Hnot _]]]].
      exfalso. apply Hnot.
      rewrite Forall_forall in Hei.
      replace (pd.key x') with (pd.key l); [now apply in_map|].
      unfold pd.key in Hk |- *. injection Hk as Ht _.
      rewrite (Heu l Hl), (Hei x' Hx'). f_equal. congruence.
Qed.

Lemma merged_table_rows_witness :
  let u := {| pd.columns := ["Timestamp"; "EndpointName";
                             "CPUUtilization"; "MemoryUtilization"];
              pd.rows := [ {| pd.Timestamp := 60; pd.EndpointName := "ep-1";
                              pd.values := [Some 42%float; Some 70%float] |};
                           {| pd.Timestamp := 120; pd.EndpointName := "ep-1";
                              pd.values := [Some 50%float; None] |} ] |} in
  let i := {| pd.columns := ["Timestamp"; "EndpointName"; "Invocations"];
              pd.rows := [ {| pd.Timestamp := 120; pd.EndpointName := "ep-1";
                              pd.values := [Some 10%float] |};
                           {| pd.Timestamp := 180; pd.EndpointName := "ep-1";
                              pd.values := [Some 7%float] |} ] |} in
  let m := {| pd.columns := ["Timestamp"; "EndpointName"; "CPUUtilization";
                             "MemoryUtilization"; "Invocations"];
              pd.rows := [ {| pd.Timestamp := 60; pd.EndpointName := "ep-1";
                              pd.values := [Some 42%float; Some 70%float; None] |};
                           {| pd.Timestamp := 120; pd.EndpointName := "ep-1";
                              pd.values := [Some 50%float; None; Some 10%float] |};
                           {| pd.Timestamp := 180; pd.EndpointName := "ep-1";
                              pd.values := [None; None; Some 7%float] |} ] |} in
  snd (get_endpoint_metrics Sample.busy Sample.params) = inr (Some m)
  /\ NoDup (map pd.Timestamp (pd.rows m))
  /\ (length (pd.rows m) + 1 = length (pd.rows u) + length (pd.rows i))%nat.
Proof.
  intros u i m.
  assert (Hm : snd (get_endpoint_metrics Sample.busy Sample.params) = inr (Some m))
    by (vm_compute; reflexivity).
  split; [exact Hm|].
  destruct (merged_table_rows Sample.busy Sample.params u i m)
    as [Hnd [_ [Hlen _]]];
    try (vm_compute; reflexivity).
  split; [exact Hnd | exact Hlen].
Defined.

(** ** An empty table *)

(** A pivot is never the table of a fixed list of columns. *)
Lemma pivot_not_schema {R : Type} (index : R -> Key) (column : R -> string)
    (value : R -> float) (data : list R) (c : string) (names : list string) :
  pd.pivot_table index column value data
  <> pd.DataFrame_columns ("Timestamp" :: "EndpointName" :: c :: names).
Proof.
  intros E.
  assert (Hrows : pd.rows (pd.pivot_table index column value data) = [])
    by now rewrite E.
  apply pivot_rows_nil in Hrows.
  apply (f_equal pd.columns) in E. unfold pd.pivot_table, pd.column_labels in E.
  rewrite Hrows in E. discriminate.
Qed.

(** A pivot without a row has the two key columns only. *)
Lemma pivot_without_rows {R : Type} (index : R -> Key) (column : R -> string)
    (value : R -> float) (data : list R) :
  pd.rows (pd.pivot_table index column value data) = [] ->
  pd.pivot_table index column value data
  = {| pd.columns := ["Timestamp"; "EndpointName"]; pd.rows := [] |}.
Proof.
  intros Hrows. apply pivot_rows_nil in Hrows.
  unfold pd.pivot_table, pd.column_labels, pd.index_labels. rewrite Hrows.
  reflexivity.
Qed.

Section EmptyTable.
Variable client : CloudWatch.
Variables endpoint_name variant_name : string.
Variables start_time end_time : datetime.
Variable period : Z.

Let u_records := utilization_records client endpoint_name variant_name
                                     start_time end_time period.
Let i_records := invocation_records client endpoint_name variant_name
                                    start_time end_time period.
Let u_request := utilization_request endpoint_name variant_name
                                     start_time end_time period.
Let i_request := invocation_request endpoint_name variant_name
                                    start_time end_time period.
Let u_run := _get_endpoint_utilization_metrics client endpoint_name variant_name
                                               start_time end_time period.
Let i_run := _get_endpoint_invocation_metrics client endpoint_name variant_name
                                              start_time end_time period.

(** The warning of a collector is logged exactly when it returns the table
    of the fixed columns. *)
Lemma utilization_warning (df : pd.DataFrame) :
  snd u_run = inr df ->
  (In (Logged WARNING (msg_no_utilization_datapoints endpoint_name variant_name))
      (fst u_run)
   <-> df = pd.DataFrame_columns ("Timestamp" :: "EndpointName" :: metrics)).
Proof.
  unfold u_run, _get_endpoint_utilization_metrics. rewrite snd_bind, fst_bind.
  match goal with |- context [for_each ?b metrics []] => set (body := b) end.
  assert (Hloop : ~ In (Logged WARNING (msg_no_utilization_datapoints
                                          endpoint_name variant_name))
                       (fst (for_each body metrics []))).
  { intros Hin.
    assert (HQ : Forall (fun ev => match ev with
                                   | Logged WARNING _ => False
                                   | _ => True
                                   end) (fst (for_each body metrics []))).
    { apply for_each_trace_Forall. intros acc m. unfold body, call_statistics. run.
      destruct (get_metric_statistics client _) as [e|response]; simpl.
      - repeat constructor.
      - run. rewrite for_each_no_trace; [repeat constructor|].
        intros a dp. run. now destruct (UtilizationDatapoint.new dp). }
    rewrite Forall_forall in HQ. exact (HQ _ Hin). }
  destruct (snd (for_each body metrics [])) as [e|[|r0 data]] eqn:E; [discriminate| |].
  - run. intros H. inversion H. subst df. split; [reflexivity|].
    intros _. apply in_or_app. right. now left.
  - run. intros H. inversion H. subst df. rewrite app_nil_r. split; [tauto|].
    intros Hschema. exfalso. revert Hschema. apply pivot_not_schema.
Qed.

Lemma invocation_warning (df : pd.DataFrame) :
  snd i_run = inr df ->
  (In (Logged WARNING (msg_no_invocation_datapoints endpoint_name variant_name))
      (fst i_run)
   <-> df = pd.DataFrame_columns ("Timestamp" :: "EndpointName" :: metric_names)).
Proof.
  unfold i_run, _get_endpoint_invocation_metrics. rewrite snd_bind, fst_bind.
  match goal with |- context [for_each ?b metric_names []] => set (body := b) end.
  assert (Hloop : ~ In (Logged WARNING (msg_no_invocation_datapoints
                                          endpoint_name variant_name))
                       (fst (for_each body metric_names []))).
  { intros Hin.
    assert (HQ : Forall (fun ev => match ev with
                                   | Logged WARNING _ => False
                                   | _ => True
                                   end) (fst (for_each body metric_names []))).
    { apply for_each_trace_Forall. intros acc m. unfold body, call_data. run.
      destruct (get_metric_data client _) as [e|response]; simpl.
      - repeat constructor.
      - run. unfold getitem.
        destruct (GetMetricData.MetricDataResults response) as [|result rest]; simpl.
        + repeat constructor.
        + run. rewrite for_each_no_trace; [repeat constructor|].
          intros a [ts v]. run. now destruct (InvocationDatapoint.new ts v). }
    rewrite Forall_forall in HQ. exact (HQ _ Hin). }
  destruct (snd (for_each body metric_names [])) as [e|[|r0 data]] eqn:E;
    [discriminate| |].
  - run. intros H. inversion H. subst df. split; [reflexivity|].
    intros _. apply in_or_app. right. now left.
  - run. intros H. inversion H. subst df. rewrite app_nil_r. split; [tauto|].
    intros Hschema. exfalso. revert Hschema. apply pivot_not_schema.
Qed.

(** A collector returns the table of the fixed columns exactly when the
    backend reported no datapoint at all. *)
Lemma utilization_schema (df : pd.DataFrame) :
  snd u_run = inr df ->
  (df = pd.DataFrame_columns ("Timestamp" :: "EndpointName" :: metrics)
   <-> forall c (ts : Z), In c metrics -> reported_averages client (u_request c) ts = []).
Proof.
  intros H. apply utilization_returns in H. fold u_records in H.
  assert (Hrec : flat_map u_records metrics = []
                 <-> forall c (ts : Z), In c metrics ->
                       reported_averages client (u_request c) ts = []).
  { split.
    - intros E c ts Hc.
      destruct (reported_averages client (u_request c) ts) as [|a l] eqn:Er;
        [reflexivity|].
      assert (Hne : reported_averages client (u_request c) ts <> [])
        by (rewrite Er; discriminate).
      apply (utilization_reported client endpoint_name variant_name start_time
               end_time period) in Hne.
      destruct Hne as [r [Hr _]].
      assert (Hin : In r (flat_map u_records metrics)) by (apply in_flat_map; eauto).
      rewrite E in Hin. contradiction.
    - intros Hno. apply flat_map_nil. intros c Hc.
      destruct (u_records c) as [|r rest] eqn:Er; [reflexivity|]. exfalso.
      assert (Hne : reported_averages client (u_request c)
                      (instant (UtilizationMetricRecord.Timestamp r)) <> []).
      { apply (utilization_reported client endpoint_name variant_name start_time
                 end_time period).
        exists r. split; [|reflexivity]. fold u_records. rewrite Er. now left. }
      apply Hne. now apply Hno. }
  rewrite <- Hrec. unfold utilization_table in H.
  destruct (flat_map u_records metrics) as [|r0 data]; subst df.
  - tauto.
  - split; [|discriminate]. intros E. exfalso. revert E. apply pivot_not_schema.
Qed.

Lemma invocation_schema (df : pd.DataFrame) :
  snd i_run = inr df ->
  (df = pd.DataFrame_columns ("Timestamp" :: "EndpointName" :: metric_names)
   <-> forall c (ts : Z), In c metric_names ->
         reported_values client (i_request c) ts = []).
Proof.
  intros H. apply invocation_returns in H. fold i_records in H.
  assert (Hrec : flat_map i_records metric_names = []
                 <-> forall c (ts : Z), In c metric_names ->
                       reported_values client (i_request c) ts = []).
  { split.
    - intros E c ts Hc.
      destruct (reported_values client (i_request c) ts) as [|a l] eqn:Er;
        [reflexivity|].
      assert (Hne : reported_values client (i_request c) ts <> [])
        by (rewrite Er; discriminate).
      apply (invocation_reported client endpoint_name variant_name start_time
               end_time period) in Hne.
      destruct Hne as [r [Hr _]].
      assert (Hin : In r (flat_map i_records metric_names))
        by (apply in_flat_map; eauto).
      rewrite E in Hin. contradiction.
    - intros Hno. apply flat_map_nil. intros c Hc.
      destruct (i_records c) as [|r rest] eqn:Er; [reflexivity|]. exfalso.
      assert (Hne : reported_values client (i_request c)
                      (instant (InvocationMetricRecord.Timestamp r)) <> []).
      { apply (invocation_reported client endpoint_name variant_name start_time
                 end_time period).
        exists r. split; [|reflexivity]. fold i_records. rewrite Er. now left. }
      apply Hne. now apply Hno. }
  rewrite <- Hrec. unfold invocation_table in H.
  destruct (flat_map i_records metric_names) as [|r0 data]; subst df.
  - tauto.
  - split; [|discriminate]. intros E. exfalso. revert E. apply pivot_not_schema.
Qed.

(** A returned table is empty exactly when it has no row; it is then the
    table of the fixed columns or the table of the two key columns. *)
Lemma utilization_empty (df : pd.DataFrame) :
  snd u_run = inr df ->
  (pd.empty df = true <-> pd.rows df = [])
  /\ (pd.rows df = [] ->
      df = pd.DataFrame_columns ("Timestamp" :: "EndpointName" :: metrics)
      \/ df = {| pd.columns := ["Timestamp"; "EndpointName"]; pd.rows := [] |}).
Proof.
  intros H. destruct (utilization_wide _ _ _ _ _ _ df H) as [cols [Hc _]].
  split.
  - unfold pd.empty. rewrite Hc. simpl. rewrite Nat.eqb_eq. apply length_zero_iff_nil.
  - intros Hrows. apply utilization_returns in H. fold u_records in H.
    unfold utilization_table in H.
    destruct (flat_map u_records metrics) as [|r0 data] eqn:E; [now left|].
    right. subst df. now apply pivot_without_rows.
Qed.

Lemma invocation_empty (df : pd.DataFrame) :
  snd i_run = inr df ->
  (pd.empty df = true <-> pd.rows df = [])
  /\ (pd.rows df = [] ->
      df = pd.DataFrame_columns ("Timestamp" :: "EndpointName" :: metric_names)
      \/ df = {| pd.columns := ["Timestamp"; "EndpointName"]; pd.rows := [] |}).
Proof.
  intros H. destruct (invocation_wide _ _ _ _ _ _ df H) as [cols [Hc _]].
  split.
  - unfold pd.empty. rewrite Hc. simpl. rewrite Nat.eqb_eq. apply length_zero_iff_nil.
  - intros Hrows. apply invocation_returns in H. fold i_records in H.
    unfold invocation_table in H.
    destruct (flat_map i_records metric_names) as [|r0 data] eqn:E; [now left|].
    right. subst df. now apply pivot_without_rows.
Qed.
End EmptyTable.

Lemma no_instant_no_row (rows : list pd.Row) :
  rows = [] <-> forall ts : Z, ~ In ts (map (fun r => instant (pd.Timestamp r)) rows).
Proof.
  split; [intros -> ts []|].
  destruct rows as [|r rest]; [reflexivity|]. intros H. exfalso.
  apply (H (instant (pd.Timestamp r))). now left.
Qed.

Lemma mean_has_value (l : list float) : pd.mean l = None <-> ~ pd.mean l <> None.
Proof. destruct (pd.mean l); split; intros H; try congruence. now contradiction H. Qed.

(** X10.  The warning of a collector is logged exactly when the backend
    reported no datapoint at all for the metrics of the collector, and
    exactly then the collector returns the table with the fixed list of
    columns.  A returned table is empty exactly when no values the backend
    reported have a mean: when there is no datapoint, or when every value
    reported is NaN; in the second case the table has the two key columns
    only and no warning is logged. *)
Theorem empty_table_exactly_without_data (client : CloudWatch)
    (endpoint_name variant_name : string) (start_time end_time : datetime)
    (period : Z) :
  let u_run := _get_endpoint_utilization_metrics client endpoint_name variant_name
                 start_time end_time period in
  let i_run := _get_endpoint_invocation_metrics client endpoint_name variant_name
                 start_time end_time period in
  (forall df, snd u_run = inr df ->
     (In (Logged WARNING (msg_no_utilization_datapoints endpoint_name variant_name))
         (fst u_run)
      <-> forall c (ts : Z), In c metrics ->
            reported_averages client
              (utilization_request endpoint_name variant_name start_time end_time
                                   period c) ts = [])
     /\ (In (Logged WARNING (msg_no_utilization_datapoints endpoint_name variant_name))
            (fst u_run)
         <-> df = pd.DataFrame_columns ("Timestamp" :: "EndpointName" :: metrics))
     /\ (pd.empty df = true
         <-> forall c (ts : Z), In c metrics ->
               pd.mean (reported_averages client
                          (utilization_request endpoint_name variant_name
                             start_time end_time period c) ts) = None)
     /\ (pd.empty df = true ->
         df = pd.DataFrame_columns ("Timestamp" :: "EndpointName" :: metrics)
         \/ df = {| pd.columns := ["Timestamp"; "EndpointName"]; pd.rows := [] |}))
  /\ (forall df, snd i_run = inr df ->
        (In (Logged WARNING (msg_no_invocation_datapoints endpoint_name variant_name))
            (fst i_run)
         <-> forall c (ts : Z), In c metric_names ->
               reported_values client
                 (invocation_request endpoint_name variant_name start_time end_time
                                     period c) ts = [])
        /\ (In (Logged WARNING (msg_no_invocation_datapoints endpoint_name variant_name))
               (fst i_run)
            <-> df = pd.DataFrame_columns ("Timestamp" :: "EndpointName" :: metric_names))
        /\ (pd.empty df = true
            <-> forall c (ts : Z), In c metric_names ->
                  pd.mean (reported_values client
                             (invocation_request endpoint_name variant_name
                                start_time end_time period c) ts) = None)
        /\ (pd.empty df = true ->
            df = pd.DataFrame_columns ("Timestamp" :: "EndpointName" :: metric_names)
            \/ df = {| pd.columns := ["Timestamp"; "EndpointName"]; pd.rows := [] |})).
Proof.
  intros u_run i_run. subst u_run i_run. split; intros df H.
  - destruct (utilization_empty _ _ _ _ _ _ df H) as [He Hschema].
    split; [|split; [|split]].
    + rewrite (utilization_warning _ _ _ _ _ _ df H).
      now apply utilization_schema.
    + now apply utilization_warning.
    + rewrite He, no_instant_no_row. split.
      * intros Hno c ts Hc. apply mean_has_value. intros Hmean. apply (Hno ts).
        apply (utilization_row_instants _ _ _ _ _ _ df ts H). eauto.
      * intros Hno ts Hin.
        apply (utilization_row_instants _ _ _ _ _ _ df ts H) in Hin.
        destruct Hin as [c [Hc Hmean]]. apply Hmean. now apply Hno.
    + intros Hempty. apply Hschema. now apply He.
  - destruct (invocation_empty _ _ _ _ _ _ df H) as [He Hschema].
    split; [|split; [|split]].
    + rewrite (invocation_warning _ _ _ _ _ _ df H).
      now apply invocation_schema.
    + now apply invocation_warning.
    + rewrite He, no_instant_no_row. split.
      * intros Hno c ts Hc. apply mean_has_value. intros Hmean. apply (Hno ts).
        apply (invocation_row_instants _ _ _ _ _ _ df ts H). eauto.
      * intros Hno ts Hin.
        apply (invocation_row_instants _ _ _ _ _ _ df ts H) in Hin.
        destruct Hin as [c [Hc Hmean]]. apply Hmean. now apply Hno.
    + intros Hempty. apply Hschema. now apply He.
Qed.

Lemma empty_table_exactly_without_data_witness :
  let run := _get_endpoint_utilization_metrics Sample.nan_only "ep-1" "v1" 0 300 60 in
  let df := {| pd.columns := ["Timestamp"; "EndpointName"]; pd.rows := [] |} in
  snd run = inr df
  /\ reported_averages Sample.nan_only
       (utilization_request "ep-1" "v1" 0 300 60 "CPUUtilization") 60 = [nan]
  /\ pd.empty df = true
  /\ ~ In (Logged WARNING (msg_no_utilization_datapoints "ep-1" "v1")) (fst run)
  /\ (forall c (ts : Z), In c metrics ->
        pd.mean (reported_averages Sample.nan_only
                   (utilization_request "ep-1" "v1" 0 300 60 c) ts) = None).
Proof.
  intros run df.
  assert (H : snd run = inr df) by (vm_compute; reflexivity).
  split; [exact H|]. split; [reflexivity|]. split; [reflexivity|].
  destruct (proj1 (empty_table_exactly_without_data Sample.nan_only
                     "ep-1" "v1" 0 300 60) df H) as [_ [Hwarning [Hempty _]]].
  split.
  - intros Hin. apply Hwarning in Hin. discriminate.
  - apply Hempty. reflexivity.
Defined.

(** ** The ERROR record *)

Lemma collector_event_not_error (tr : Trace) (msg : Message) :
  Forall collector_event tr -> ~ In (Logged ERROR msg) tr.
Proof.
  intros H Hin. rewrite Forall_forall in H. exact (H _ Hin).
Qed.

Section ErrorRecord.
Variable client : CloudWatch.
Variable params : P.t.

Let u_run := _get_endpoint_utilization_metrics client (endpoint_name params)
               (variant_name params) (start_time params) (end_time params)
               (period params).
Let i_run := _get_endpoint_invocation_metrics client (endpoint_name params)
               (variant_name params) (start_time params) (end_time params)
               (period params).

(** When both collectors return, an ERROR record is logged exactly when
    their tables are merged and hold datetimes of different kinds; it
    carries the exception of the merge. *)
Lemma merge_error (u i : pd.DataFrame) (msg : Message) :
  snd u_run = inr u -> snd i_run = inr i ->
  (In (Logged ERROR msg) (fst (get_endpoint_metrics client params))
   <-> pd.empty u = false /\ pd.empty i = false
       /\ statistics_tzinfo client <> data_tzinfo client
       /\ msg = msg_exception (endpoint_name params) (ValueError "Timestamp")).
Proof.
  intros Hu Hi.
  pose proof (collector_event_not_error (fst u_run) msg
                (utilization_events _ _ _ _ _ _)) as HU.
  pose proof (collector_event_not_error (fst i_run) msg
                (invocation_events _ _ _ _ _ _)) as HI.
  pose proof (collectors_merge client _ _ _ _ _ u i Hu Hi) as Hmerge.
  unfold get_endpoint_metrics, get_endpoint_metrics_try. fold u_run i_run. run.
  rewrite Hu. run. rewrite Hi.
  generalize dependent (fst u_run). generalize dependent (fst i_run).
  intros ti HI tu HU.
  destruct (pd.empty u) eqn:Eu; simpl.
  - destruct (pd.empty i) eqn:Ei; simpl; run.
    + repeat (rewrite in_app_iff || cbn [In]). intuition discriminate.
    + rewrite Ei. simpl. run.
      repeat (rewrite in_app_iff || cbn [In]). intuition discriminate.
  - run. destruct (pd.empty i) eqn:Ei; run.
    + rewrite Eu. simpl. run.
      repeat (rewrite in_app_iff || cbn [In]). intuition discriminate.
    + rewrite (Hmerge eq_refl eq_refl).
      destruct (tzinfo_eqb (statistics_tzinfo client) (data_tzinfo client)) eqn:Ez.
      * apply tzinfo_eqb_eq in Ez. run.
        match goal with |- context [pd.empty ?m] => destruct (pd.empty m) end;
          simpl; run; repeat (rewrite in_app_iff || cbn [In]);
          intuition discriminate.
      * apply tzinfo_eqb_neq in Ez. run.
        repeat (rewrite in_app_iff || cbn [In]).
        split.
        -- intros H. split; [reflexivity|]. split; [reflexivity|].
           split; [exact Ez|].
           repeat match type of H with
                  | _ \/ _ => destruct H as [H|H]
                  end; try discriminate; try contradiction.
           now inversion H.
        -- intros [_ [_ [_ ->]]]. tauto.
Qed.
End ErrorRecord.

(** X11.  The log tells a failed run from an empty one: an ERROR record is
    logged exactly when [get_endpoint_metrics] returns None.  The record
    carries the exception that ended the run: that of the utilization
    collector if it raised, that of the invocation collector if it raised,
    and otherwise that of the merge, which raises when the two non-empty
    tables hold datetimes of different kinds.  A run that returns a table,
    empty or not, logs no ERROR record. *)
Theorem error_record_exactly_on_failure (client : CloudWatch) (params : P.t) :
  let u_run := _get_endpoint_utilization_metrics client (endpoint_name params)
                 (variant_name params) (start_time params) (end_time params)
                 (period params) in
  let i_run := _get_endpoint_invocation_metrics client (endpoint_name params)
                 (variant_name params) (start_time params) (end_time params)
                 (period params) in
  let run := get_endpoint_metrics client params in
  (forall e, In (Logged ERROR (msg_exception (endpoint_name params) e)) (fst run)
             <-> snd u_run = inl e
                 \/ ((exists u, snd u_run = inr u) /\ snd i_run = inl e)
                 \/ (exists u i, snd u_run = inr u /\ snd i_run = inr i
                                 /\ pd.empty u = false /\ pd.empty i = false
                                 /\ statistics_tzinfo client <> data_tzinfo client
                                 /\ e = ValueError "Timestamp"))
  /\ (snd run = inr None
      <-> exists e, In (Logged ERROR (msg_exception (endpoint_name params) e)) (fst run))
  /\ (forall df msg, snd run = inr (Some df) -> ~ In (Logged ERROR msg) (fst run)).
Proof.
  intros u_run i_run run.
  pose proof (fun msg => collector_event_not_error (fst u_run) msg
                           (utilization_events _ _ _ _ _ _)) as HU.
  pose proof (fun msg => collector_event_not_error (fst i_run) msg
                           (invocation_events _ _ _ _ _ _)) as HI.
  destruct (snd u_run) as [eu|u] eqn:Hu.
  { unfold run. rewrite (utilization_failure client params eu Hu). fold u_run.
    cbn [fst snd]. split; [|split].
    - intros e. cbn [In]. rewrite in_app_iff. cbn [In]. split.
      + intros [H|[H|[H|[]]]]; [discriminate | now apply HU in H|].
        inversion H. now left.
      + intros [H|[[[u H] _]|[u [i [H _]]]]]; try discriminate. inversion H.
        right. right. now left.
    - split; [|reflexivity]. intros _. exists eu. right. apply in_or_app.
      right. now left.
    - intros df msg H. discriminate. }
  destruct (snd i_run) as [ei|i] eqn:Hi.
  { unfold run. rewrite (invocation_failure client params u ei Hu Hi).
    fold u_run i_run. cbn [fst snd]. split; [|split].
    - intros e. cbn [In]. rewrite !in_app_iff. cbn [In]. rewrite in_app_iff. cbn [In].
      split.
      + intros [H|[H|[H|[H|[H|[]]]]]]; try discriminate;
          [now apply HU in H | now apply HI in H|].
        inversion H. right. left. split; [eauto | reflexivity].
      + intros [H|[[_ H]|[u' [i [_ [H _]]]]]]; try discriminate. inversion H.
        right. right. right. right. now left.
    - split; [|reflexivity]. intros _. exists ei. right. apply in_or_app.
      right. right. apply in_or_app. right. now left.
    - intros df msg H. discriminate. }
  pose proof (fun msg => merge_error client params u i msg Hu Hi) as Herr.
  fold run in Herr.
  assert (Hout : snd run = inr None
                 <-> pd.empty u = false /\ pd.empty i = false
                     /\ statistics_tzinfo client <> data_tzinfo client).
  { unfold run. rewrite get_endpoint_metrics_outcome. fold u_run i_run.
    rewrite Hu, Hi.
    destruct (pd.empty u) eqn:Eu; [simpl; destruct (pd.empty i);
      split; [discriminate | intros [H _]; discriminate
             | discriminate | intros [H _]; discriminate]|].
    destruct (pd.empty i) eqn:Ei;
      [simpl; split; [discriminate | intros [_ [H _]]; discriminate]|].
    simpl. rewrite (collectors_merge client _ _ _ _ _ u i Hu Hi Eu Ei).
    destruct (tzinfo_eqb (statistics_tzinfo client) (data_tzinfo client)) eqn:Ez.
    - apply tzinfo_eqb_eq in Ez. split; [discriminate|]. intros [_ [_ H]].
      contradiction.
    - apply tzinfo_eqb_neq in Ez. split; auto. }
  split; [|split].
  - intros e. rewrite Herr. split.
    + intros [Eu [Ei [Ez He]]]. right. right. exists u, i.
      inversion He. auto 10.
    + intros [H|[[_ H]|[u' [i' [Hu' [Hi' [Eu [Ei [Ez ->]]]]]]]]]; try discriminate.
      inversion Hu'. inversion Hi'. subst. auto.
  - rewrite Hout. split.
    + intros [Eu [Ei Ez]]. exists (ValueError "Timestamp"). apply Herr. auto.
    + intros [e H]. apply Herr in H. tauto.
  - intros df msg Hdf Hin. apply Herr in Hin. destruct Hin as [Eu [Ei [Ez _]]].
    assert (Hnone : snd run = inr None) by (apply Hout; auto).
    rewrite Hnone in Hdf. discriminate.
Qed.

Lemma error_record_exactly_on_failure_witness :
  In (Logged ERROR (msg_exception "ep-1" (ClientError "Throttling")))
     (fst (get_endpoint_metrics Sample.throttled Sample.params))
  /\ In (Logged ERROR (msg_exception "ep-1" (ValueError "Timestamp")))
        (fst (get_endpoint_metrics (Sample.naive_statistics Sample.both_sides)
                                   Sample.params))
  /\ ~ In (Logged ERROR (msg_exception "ep-1" (ClientError "Throttling")))
          (fst (get_endpoint_metrics Sample.quiet Sample.params)).
Proof.
  split; [|split].
  - apply (proj1 (error_record_exactly_on_failure Sample.throttled Sample.params)
                 (ClientError "Throttling")).
    right. left. split; [eexists|]; vm_compute; reflexivity.
  - apply (proj1 (error_record_exactly_on_failure
                    (Sample.naive_statistics Sample.both_sides) Sample.params)
                 (ValueError "Timestamp")).
    right. right. do 2 eexists.
    split; [vm_compute; reflexivity|]. split; [vm_compute; reflexivity|].
    split; [reflexivity|]. split; [reflexivity|]. split; [discriminate|reflexivity].
  - apply (proj2 (proj2 (error_record_exactly_on_failure Sample.quiet Sample.params))
                 pd.DataFrame_new).
    vm_compute. reflexivity.
Defined.

(** ** The instants of the result *)

Lemma instant_of_key (rows : list pd.Row) (ts : Z) :
  In ts (map (fun r => instant (pd.Timestamp r)) rows)
  <-> exists k, In k (map pd.key rows) /\ instant (fst k) = ts.
Proof.
  rewrite in_map_iff. split.
  - intros [r [<- Hr]]. exists (pd.key r). split; [now apply in_map | reflexivity].
  - intros [k [H <-]]. apply in_map_iff in H. destruct H as [r [<- Hr]].
    exists r. split; [reflexivity | assumption].
Qed.

(** The keys of an outer join are the keys of its two sides. *)
Lemma join_keys_union (nl nr : nat) (left_rows right_rows : list pd.Row) (k : Key) :
  In k (map pd.key (pd.sort_rows
                      (flat_map (pd.join_left nr right_rows) left_rows
                       ++ pd.right_only nl left_rows right_rows)))
  <-> In k (map pd.key left_rows) \/ In k (map pd.key right_rows).
Proof.
  assert (Hperm : forall r,
            In r (pd.sort_rows (flat_map (pd.join_left nr right_rows) left_rows
                                ++ pd.right_only nl left_rows right_rows))
            <-> In r (flat_map (pd.join_left nr right_rows) left_rows)
                \/ In r (pd.right_only nl left_rows right_rows)).
  { intros r. unfold pd.sort_rows. now rewrite sort_In, in_app_iff. }
  split.
  - rewrite in_map_iff. intros [r [<- Hr]]. apply Hperm in Hr. destruct Hr as [Hr|Hr].
    + left. apply (joined_keys nr left_rows right_rows). now apply in_map.
    + right. apply added_In in Hr. destruct Hr as [x [Hx [-> _]]]. now apply in_map.
  - intros [Hk|Hk].
    + apply (joined_keys nr left_rows right_rows) in Hk.
      apply in_map_iff in Hk. destruct Hk as [r [<- Hr]].
      apply in_map, Hperm. now left.
    + destruct (in_dec key_eq_dec k (map pd.key left_rows)) as [Hl|Hl].
      * apply (joined_keys nr left_rows right_rows) in Hl.
        apply in_map_iff in Hl. destruct Hl as [r [<- Hr]].
        apply in_map, Hperm. now left.
      * apply in_map_iff in Hk. destruct Hk as [x [<- Hx]].
        set (r := {| pd.Timestamp := pd.Timestamp x;
                     pd.EndpointName := pd.EndpointName x;
                     pd.values := pd.nulls nl ++ pd.values x |}).
        change (pd.key x) with (pd.key r). apply in_map, Hperm. right.
        apply added_In. exists x. repeat split; assumption.
Qed.

(** X12.  End to end, no row is made up and no number is lost: the
    timestamps of the rows of a table returned by [get_endpoint_metrics] are
    exactly the instants at which, for one of the eleven metrics, the values
    the backend reported have a mean.  So the returned table is empty
    exactly when there is no such instant: when the backend reported no
    datapoint, or nothing but NaN. *)
Theorem result_instants (client : CloudWatch) (params : P.t) (df : pd.DataFrame) :
  snd (get_endpoint_metrics client params) = inr (Some df) ->
  let reported (ts : Z) :=
    (exists c, In c metrics
               /\ pd.mean
                    (reported_averages client
                       (utilization_request (endpoint_name params) (variant_name params)
                          (start_time params) (end_time params) (period params) c) ts)
                  <> None)
    \/ (exists c, In c metric_names
                  /\ pd.mean
                       (reported_values client
                          (invocation_request (endpoint_name params)
                             (variant_name params) (start_time params)
                             (end_time params) (period params) c) ts)
                     <> None) in
  (forall ts : Z, In ts (map (fun r => instant (pd.Timestamp r)) (pd.rows df))
                  <-> reported ts)
  /\ (pd.empty df = true <-> forall ts, ~ reported ts).
Proof.
  intros H reported. rewrite get_endpoint_metrics_outcome in H.
  destruct (snd (_get_endpoint_utilization_metrics _ _ _ _ _ _)) as [eu|u] eqn:Hu;
    [discriminate|].
  destruct (snd (_get_endpoint_invocation_metrics _ _ _ _ _ _)) as [ei|i] eqn:Hi;
    [discriminate|].
  pose proof (fun ts => utilization_row_instants _ _ _ _ _ _ u ts Hu) as HU.
  pose proof (fun ts => invocation_row_instants _ _ _ _ _ _ i ts Hi) as HI.
  destruct (utilization_empty _ _ _ _ _ _ u Hu) as [Heu _].
  destruct (invocation_empty _ _ _ _ _ _ i Hi) as [Hei _].
  destruct (utilization_wide _ _ _ _ _ _ u Hu) as [cu [Hcu _]].
  destruct (invocation_wide _ _ _ _ _ _ i Hi) as [ci [Hci _]].
  assert (Hinst : forall ts : Z,
            In ts (map (fun r => instant (pd.Timestamp r)) (pd.rows df))
            <-> reported ts).
  { intros ts. unfold reported. rewrite <- HU, <- HI.
    destruct (pd.empty u) eqn:Eu, (pd.empty i) eqn:Ei; simpl in H.
    - inversion H. subst df. simpl.
      rewrite (proj1 Heu eq_refl), (proj1 Hei eq_refl). simpl. tauto.
    - inversion H. subst df. rewrite (proj1 Heu eq_refl). simpl. tauto.
    - inversion H. subst df. rewrite (proj1 Hei eq_refl). simpl. tauto.
    - destruct (pd.merge_outer u i) as [e|m] eqn:Em; [discriminate|].
      destruct (merge_outer_returns u i m cu ci Hcu Hci Em) as [_ ->].
      inversion H. subst df.
      cbn [pd.rows]. rewrite !instant_of_key. split.
      + intros [k [Hk Hts]]. apply join_keys_union in Hk. destruct Hk; eauto.
      + intros [[k [Hk Hts]]|[k [Hk Hts]]]; exists k; split; try assumption;
          apply join_keys_union; auto. }
  split; [exact Hinst|].
  assert (Hrows : pd.empty df = true <-> pd.rows df = []).
  { destruct (pd.empty u) eqn:Eu, (pd.empty i) eqn:Ei; simpl in H.
    - inversion H. subst df. simpl. tauto.
    - inversion H. subst df. rewrite Ei. exact Hei.
    - inversion H. subst df. rewrite Eu. exact Heu.
    - destruct (pd.merge_outer u i) as [e|m] eqn:Em; [discriminate|].
      inversion H. subst df.
      pose proof (merge_outer_not_empty u i m Em Eu) as Hne.
      rewrite Hne. apply empty_false in Hne. destruct Hne as [_ Hne].
      split; [discriminate | contradiction]. }
  rewrite Hrows, no_instant_no_row. split.
  - intros Hno ts Hrep. apply (Hno ts). now apply Hinst.
  - intros Hno ts Hin. apply (Hno ts). now apply Hinst.
Qed.

Lemma result_instants_witness :
  exists df,
    snd (get_endpoint_metrics Sample.partly_nan Sample.params) = inr (Some df)
    /\ map (fun r => instant (pd.Timestamp r)) (pd.rows df) = [60]
    /\ reported_averages Sample.partly_nan
         (utilization_request "ep-1" "v1" 0 300 60 "CPUUtilization") 120 = [nan]
    /\ (In 60 (map (fun r => instant (pd.Timestamp r)) (pd.rows df))
        <-> (exists c, In c metrics
                       /\ pd.mean
                            (reported_averages Sample.partly_nan
                               (utilization_request "ep-1" "v1" 0 300 60 c) 60)
                          <> None)
            \/ (exists c, In c metric_names
                          /\ pd.mean
                               (reported_values Sample.partly_nan
                                  (invocation_request "ep-1" "v1" 0 300 60 c) 60)
                             <> None)).
Proof.
  eexists. split; [vm_compute; reflexivity|]. split; [reflexivity|].
  split; [reflexivity|].
  refine (proj1 (result_instants Sample.partly_nan Sample.params _ _) 60).
  vm_compute. reflexivity.
Defined.
